(** * brfintech: spreadsheet ingestion, metrics, settlement ledger and
      period selection

    A shallow embedding of the TypeScript sources
    - [src/services/spreadsheetService.ts] (column mapper, sales normalizer,
      metrics aggregator, snapshot store, transfer reconciler),
    - [src/services/transferService.ts] (ledger access, date normalisation),
    - the [CustomerSpreadsheet] component (locale numeric parser, selection
      refs and effects).

    Conventions of the embedding
    - JavaScript strings are [string]s of UTF-8 bytes.  Case folding and
      accent stripping are modelled for ASCII, the Latin-1 supplement letters
      and the combining-marks block; other code points pass through unchanged.
    - JavaScript numbers are exact rationals [Q]; [NaN] is [None] at the
      places where the code tests for it.  Rounding of doubles and the
      literal [Infinity] are outside the model.
    - [null] and [undefined] are [None].
    - Asynchronous calls are sequential; calls to the store go through a
      small state-and-exception monad. *)

From Stdlib Require Import Bool Arith ZArith QArith Qabs Lia List String Ascii Permutation Sorted.
Import ListNotations.

Local Open Scope string_scope.
Local Open Scope list_scope.

(* ===================================================================== *)
(** * JavaScript strings *)
(* ===================================================================== *)

Module JsString.

Definition code (c : ascii) : nat := nat_of_ascii c.

Definition between (lo hi : nat) (c : ascii) : bool :=
  (lo <=? code c)%nat && (code c <=? hi)%nat.

Definition isByte (n : nat) (c : ascii) : bool := (code c =? n)%nat.

Definition shift (k : nat) (c : ascii) : ascii := ascii_of_nat (code c + k).

(** White space removed by [String.prototype.trim] (ASCII part). *)
Definition isSpace (c : ascii) : bool := isByte 32 c || between 9 13 c.

Definition isDigit (c : ascii) : bool := between 48 57 c.

Fixpoint trimStart (s : string) : string :=
  match s with
  | EmptyString => EmptyString
  | String c r => if isSpace c then trimStart r else s
  end.

Fixpoint trimEnd (s : string) : string :=
  match s with
  | EmptyString => EmptyString
  | String c r =>
      let r' := trimEnd r in
      if isSpace c && (r' =? "") then EmptyString else String c r'
  end.

Definition trim (s : string) : string := trimEnd (trimStart s).

(** Lower-casing of one ASCII byte, and of the second byte of a two-byte
    sequence [C3 xx] (U+00C0..U+00DE, the multiplication sign excepted). *)
Definition lowerAscii (c : ascii) : ascii :=
  if between 65 90 c then shift 32 c else c.

Definition lowerLatin1 (d : ascii) : ascii :=
  if between 128 158 d && negb (isByte 151 d) then shift 32 d else d.

Fixpoint toLowerCase (s : string) : string :=
  match s with
  | EmptyString => EmptyString
  | String c r =>
      if isByte 195 c then
        match r with
        | String d r' => String c (String (lowerLatin1 d) (toLowerCase r'))
        | EmptyString => String c EmptyString
        end
      else String (lowerAscii c) (toLowerCase r)
  end.

(** Base letter of the canonical decomposition of U+00C0..U+00FF, given the
    second UTF-8 byte; [None] when the character does not decompose. *)
Definition baseLetter (d : ascii) : option ascii :=
  if between 128 133 d then Some "A"%char
  else if isByte 135 d then Some "C"%char
  else if between 136 139 d then Some "E"%char
  else if between 140 143 d then Some "I"%char
  else if isByte 145 d then Some "N"%char
  else if between 146 150 d then Some "O"%char
  else if between 153 156 d then Some "U"%char
  else if isByte 157 d then Some "Y"%char
  else if between 160 165 d then Some "a"%char
  else if isByte 167 d then Some "c"%char
  else if between 168 171 d then Some "e"%char
  else if between 172 175 d then Some "i"%char
  else if isByte 177 d then Some "n"%char
  else if between 178 182 d then Some "o"%char
  else if between 185 188 d then Some "u"%char
  else if isByte 189 d || isByte 191 d then Some "y"%char
  else None.

(** [s.normalize('NFD')] followed by the removal of the combining marks
    U+0300..U+036F (UTF-8 [CC 80]..[CD AF]): decompose, then drop the marks. *)
Fixpoint stripAccents (s : string) : string :=
  match s with
  | EmptyString => EmptyString
  | String c r =>
      match r with
      | EmptyString => String c EmptyString
      | String d r' =>
          if isByte 195 c then
            match baseLetter d with
            | Some b => String b (stripAccents r')
            | None => String c (String d (stripAccents r'))
            end
          else if isByte 204 c && between 128 191 d then stripAccents r'
          else if isByte 205 c && between 128 175 d then stripAccents r'
          else String c (stripAccents r)
      end
  end.

(** [s.includes(sub)] *)
Fixpoint includes (s sub : string) : bool :=
  String.prefix sub s
  || match s with
     | EmptyString => false
     | String _ r => includes r sub
     end.

(** [s.replace(/[^...]/g, '')] for a character class given as a predicate
    on the characters to keep. *)
Fixpoint keepChars (keep : ascii -> bool) (s : string) : string :=
  match s with
  | EmptyString => EmptyString
  | String c r => if keep c then String c (keepChars keep r) else keepChars keep r
  end.

(** [s.replace(c, by)] with a one-character pattern: first occurrence only. *)
Fixpoint replaceFirst (c : ascii) (by_ : string) (s : string) : string :=
  match s with
  | EmptyString => EmptyString
  | String x r => if Ascii.eqb x c then by_ ++ r else String x (replaceFirst c by_ r)
  end.

(** [s.split(sep)] with a one-character separator. *)
Fixpoint splitOn (sep : ascii) (s : string) : list string :=
  match s with
  | EmptyString => [EmptyString]
  | String x r =>
      if Ascii.eqb x sep then EmptyString :: splitOn sep r
      else match splitOn sep r with
           | [] => [String x EmptyString]
           | h :: t => String x h :: t
           end
  end.

End JsString.

(** [arr.findIndex(p)], with [None] for [-1]. *)
Fixpoint findIndexFrom {A : Type} (p : A -> bool) (l : list A) (i : nat) : option nat :=
  match l with
  | [] => None
  | x :: r => if p x then Some i else findIndexFrom p r (S i)
  end.

Definition findIndex {A : Type} (p : A -> bool) (l : list A) : option nat :=
  findIndexFrom p l 0.

(* ===================================================================== *)
(** * Column mapper ([spreadsheetService.ts], lines 44-164) *)
(* ===================================================================== *)

Module ColumnMapper.
Import JsString.

(** The synonym table, in source order ([Object.entries] keeps it). *)
Definition FIELD_MAPPINGS : list (string * string) :=
  [ ("data da venda", "dataVenda"); ("data venda", "dataVenda");
    ("data", "dataVenda"); ("data de venda", "dataVenda"); ("date", "dataVenda");
    ("hora da venda", "horaVenda"); ("hora venda", "horaVenda");
    ("hora", "horaVenda"); ("hora de venda", "horaVenda"); ("time", "horaVenda");
    ("horário", "horaVenda");
    ("estabelecimento", "estabelecimento"); ("loja", "estabelecimento");
    ("store", "estabelecimento"); ("nome estabelecimento", "estabelecimento");
    ("cpf/cnpj", "cpfCnpj"); ("cpf cnpj", "cpfCnpj"); ("cpf", "cpfCnpj");
    ("cnpj", "cpfCnpj"); ("cpf/cnpj do estabelecimento", "cpfCnpj");
    ("cpf cnpj estabelecimento", "cpfCnpj");
    ("forma de pagamento", "formaPagamento"); ("forma pagamento", "formaPagamento");
    ("pagamento", "formaPagamento"); ("payment", "formaPagamento");
    ("tipo pagamento", "formaPagamento");
    ("quantidade total de parcelas", "quantidadeParcelas");
    ("quantidade parcelas", "quantidadeParcelas"); ("parcelas", "quantidadeParcelas");
    ("qtd parcelas", "quantidadeParcelas"); ("total parcelas", "quantidadeParcelas");
    ("installments", "quantidadeParcelas");
    ("bandeira", "bandeira"); ("bandeira cartão", "bandeira");
    ("cartão", "bandeira"); ("card", "bandeira"); ("brand", "bandeira");
    ("valor bruto", "valorBruto"); ("valor", "valorBruto");
    ("bruto", "valorBruto"); ("total", "valorBruto");
    ("status da venda", "statusVenda"); ("status venda", "statusVenda");
    ("status", "statusVenda"); ("status de venda", "statusVenda");
    ("situação", "statusVenda");
    ("tipo de lançamento", "tipoLancamento"); ("tipo lançamento", "tipoLancamento");
    ("tipo lancamento", "tipoLancamento"); ("lançamento", "tipoLancamento");
    ("lancamento", "tipoLancamento");
    ("data do lançamento", "dataLancamento"); ("data lançamento", "dataLancamento");
    ("data lancamento", "dataLancamento"); ("data de lançamento", "dataLancamento");
    ("número da máquina", "numeroMaquina"); ("numero da maquina", "numeroMaquina");
    ("número máquina", "numeroMaquina"); ("numero maquina", "numeroMaquina");
    ("num máquina", "numeroMaquina"); ("num maquina", "numeroMaquina");
    ("máquina", "numeroMaquina"); ("maquina", "numeroMaquina") ].

(** [name.toLowerCase().trim().normalize('NFD').replace(marks, '')] *)
Definition normalizeColumnName (name : string) : string :=
  stripAccents (trim (toLowerCase name)).

(** The loop over [Object.entries(FIELD_MAPPINGS)]. *)
Fixpoint findByMapping (entries : list (string * string))
         (headers : list string) (fieldName : string) : option nat :=
  match entries with
  | [] => None
  | (key, mappedField) :: rest =>
      if mappedField =? fieldName then
        match findIndex (fun h => normalizeColumnName h =? key) headers with
        | Some i => Some i
        | None => findByMapping rest headers fieldName
        end
      else findByMapping rest headers fieldName
  end.

(** The similarity loop: [for (let i = 0; i < headers.length; i++)]. *)
Definition findBySimilarity (headers : list string) (fieldName : string) : option nat :=
  let normalizedField := normalizeColumnName fieldName in
  findIndex (fun h =>
               let normalizedHeader := normalizeColumnName h in
               includes normalizedHeader normalizedField
               || includes normalizedField normalizedHeader) headers.

Definition findColumnIndex (headers : list string) (fieldName : string) : option nat :=
  match findIndex (fun h => normalizeColumnName h =? fieldName) headers with
  | Some exactIndex => Some exactIndex
  | None =>
      match findByMapping FIELD_MAPPINGS headers fieldName with
      | Some mappedIndex => Some mappedIndex
      | None => findBySimilarity headers fieldName
      end
  end.

End ColumnMapper.

(* ===================================================================== *)
(** * JavaScript numbers *)
(* ===================================================================== *)

Module JsNumber.
Import JsString.

Definition digitVal (c : ascii) : Z := Z.of_nat (code c) - 48.

(** Value of a string of decimal digits, most significant digit first. *)
Fixpoint digitsValue (acc : Z) (ds : string) : Z :=
  match ds with
  | EmptyString => acc
  | String c r => digitsValue (10 * acc + digitVal c) r
  end.

(** Longest prefix of decimal digits, and what follows it. *)
Fixpoint takeDigits (s : string) : string * string :=
  match s with
  | EmptyString => (EmptyString, EmptyString)
  | String c r =>
      if isDigit c then let (ds, rest) := takeDigits r in (String c ds, rest)
      else (EmptyString, s)
  end.

(** The number written [ip.fp]. *)
Definition decimal (ip fp : string) : Q :=
  Qmake (digitsValue 0 (ip ++ fp)) (Z.to_pos (10 ^ Z.of_nat (String.length fp))).

(** An optional sign: whether it is a minus, and what follows it. *)
Definition takeSign (s : string) : bool * string :=
  match s with
  | String c r =>
      if isByte 45 c then (true, r)
      else if isByte 43 c then (false, r)
      else (false, s)
  | EmptyString => (false, s)
  end.

(** An optional fraction: the digits after a dot, and what follows them. *)
Definition takeFraction (s : string) : string * string :=
  match s with
  | String c r => if isByte 46 c then takeDigits r else (EmptyString, s)
  | EmptyString => (EmptyString, s)
  end.

(** Optional exponent part [e[+-]digits] and what follows it; exponent [0]
    and the string itself when there is none. *)
Definition parseExponent (s : string) : Z * string :=
  match s with
  | String c r =>
      if isByte 101 c || isByte 69 c then
        let (neg, r1) := takeSign r in
        let (ds, rest) := takeDigits r1 in
        if ds =? "" then (0%Z, s)
        else ((if neg then - digitsValue 0 ds else digitsValue 0 ds)%Z, rest)
      else (0%Z, s)
  | EmptyString => (0%Z, s)
  end.

Definition scale10 (q : Q) (e : Z) : Q :=
  match e with
  | Z0 => q
  | Zpos p => q * inject_Z (10 ^ Zpos p)
  | Zneg p => q / inject_Z (10 ^ Zpos p)
  end.

(** The longest prefix of [s] that is a signed decimal literal, as a number,
    and the rest of the string; [None] when no prefix is one. *)
Definition decimalLiteral (s : string) : option (Q * string) :=
  let (neg, s1) := takeSign s in
  let (ip, s2) := takeDigits s1 in
  let (fp, s3) := takeFraction s2 in
  if (ip =? "") && (fp =? "") then None
  else
    let (e, s4) := parseExponent s3 in
    let m := scale10 (decimal ip fp) e in
    Some ((if neg then - m else m)%Q, s4).

(** [parseFloat]: skip leading white space, then the longest prefix that is
    a decimal literal; [None] is [NaN]. *)
Definition parseFloat (s : string) : option Q :=
  match decimalLiteral (trimStart s) with
  | Some (q, _) => Some q
  | None => None
  end.

(** [Number(s)] for a string: the trimmed string is empty ([0]) or is a
    decimal literal as a whole; [None] is [NaN].  Literals in another base
    ([0x], [0o], [0b]) are outside the model. *)
Definition toNumber (s : string) : option Q :=
  let t := trim s in
  if t =? "" then Some 0%Q
  else match decimalLiteral t with
       | Some (q, EmptyString) => Some q
       | _ => None
       end.

(** [x || 0] for a number [x] that may be [NaN]. *)
Definition orZero (x : option Q) : Q :=
  match x with
  | Some q => q
  | None => 0%Q
  end.

(** [x === 0], [x > 0] on numbers. *)
Definition isZero (q : Q) : bool := Qeq_bool q 0.
Definition isPositive (q : Q) : bool := negb (Qle_bool q 0).

(** The character class kept by [replace(/[^\d,.-]/g, '')]. *)
Definition numericChar (c : ascii) : bool :=
  isDigit c || isByte 44 c || isByte 46 c || isByte 45 c.

End JsNumber.

(* ===================================================================== *)
(** * Locale numeric parser ([CustomerSpreadsheet], [parseValorBrasileiro]) *)
(* ===================================================================== *)

Module NumericParser.
Import JsString JsNumber.

Definition parseValorBrasileiro (valor : string) : Q :=
  if valor =? "" then 0%Q
  else
    let valorLimpo := keepChars numericChar valor in
    if negb (includes valorLimpo ",") then
      if includes valorLimpo "." then orZero (parseFloat valorLimpo)
      else orZero (parseFloat valorLimpo)
    else
      let valorLimpo := keepChars (fun c => negb (isByte 46 c)) valorLimpo in
      let valorLimpo := replaceFirst ","%char "." valorLimpo in
      orZero (parseFloat valorLimpo).

(** [normalizarEntrada]: what the card fields keep of what is typed. *)
Definition normalizarEntrada (valor : string) : string := keepChars numericChar valor.

End NumericParser.

(* ===================================================================== *)
(** * Raw rows *)
(* ===================================================================== *)

(** A cell as the sheet reader leaves it ([raw: true], [defval: '']): a
    number, a string, or [null]. *)
Inductive cell : Type :=
| CNum (q : Q)
| CStr (s : string)
| CNull.

(** A row is a record keyed by header name; [None] on lookup is
    [undefined]. *)
Definition row : Type := list (string * cell).

Fixpoint rowGet (r : row) (header : string) : option cell :=
  match r with
  | [] => None
  | (k, v) :: rest => if k =? header then Some v else rowGet rest header
  end.

(** [v !== undefined && v !== null && v !== ''] *)
Definition hasValue (v : option cell) : bool :=
  match v with
  | Some (CNum _) => true
  | Some (CStr s) => negb (s =? "")
  | Some CNull => false
  | None => false
  end.

(* ===================================================================== *)
(** * Sales record normalizer ([parseSpreadsheetToSales], numeric fields) *)
(* ===================================================================== *)

Module SalesNormalizer.
Import JsString JsNumber ColumnMapper.

Record SpreadsheetSale : Type := mkSale {
  quantidadeVendas : Q;
  valorBruto : Q;
  taxaTotal : Q;
  valorLiquido : Q
}.

(** [getValue(fieldName, defaultValue)]; [None] stands for the default. *)
Definition getValue (headers : list string) (r : row) (fieldName : string) : option cell :=
  match findColumnIndex headers fieldName with
  | None =>
      match List.find (fun h => normalizeColumnName h =? fieldName) headers with
      | Some header => rowGet r header
      | None => None
      end
  | Some index =>
      match nth_error headers index with
      | Some header => rowGet r header
      | None => None
      end
  end.

(** [parseFloat(String(v).replace(/[^\d,.-]/g, '').replace(',', '.')) || 0]
    with default [0].  A number cell is its own value (its rendering has only
    digits, a sign and a dot, the exponent form of very large and very small
    numbers apart); [String(null)] has no numeric character. *)
Definition rowNumber (v : option cell) : Q :=
  match v with
  | None => 0
  | Some (CNum q) => q
  | Some (CStr s) =>
      orZero (parseFloat (replaceFirst ","%char "." (keepChars numericChar s)))
  | Some CNull => 0
  end.

(** [Number(v) || 0] with default [0]; [Number(null)] is [0]. *)
Definition rowCount (v : option cell) : Q :=
  match v with
  | None => 0
  | Some (CNum q) => q
  | Some (CStr s) => orZero (toNumber s)
  | Some CNull => 0
  end.

Definition parseRow (headers : list string) (customerTax : option Q) (r : row)
  : SpreadsheetSale :=
  let quantidadeVendas := rowCount (getValue headers r "quantidadeVendas") in
  let valorBruto := rowNumber (getValue headers r "valorBruto") in
  let taxaTotal := rowNumber (getValue headers r "taxaTotal") in
  let taxaTotal := match customerTax with
                   | Some t => t
                   | None => taxaTotal
                   end in
  let valorLiquido := rowNumber (getValue headers r "valorLiquido") in
  let valorLiquido :=
    if isZero valorLiquido && isPositive valorBruto && isPositive taxaTotal
    then valorBruto - (valorBruto * (taxaTotal / 100))
    else valorLiquido in
  mkSale quantidadeVendas valorBruto taxaTotal valorLiquido.

Definition parseSpreadsheetToSales (rawData : list row) (headers : list string)
           (customerTax : option Q) : list SpreadsheetSale :=
  List.map (parseRow headers customerTax) rawData.

End SalesNormalizer.

(* ===================================================================== *)
(** * Snapshots and the metrics aggregator ([calculateSpreadsheetMetrics]) *)
(* ===================================================================== *)

Inductive SpreadsheetType : Type := monthly | daily.

Definition SpreadsheetType_eqb (a b : SpreadsheetType) : bool :=
  match a, b with
  | monthly, monthly => true
  | daily, daily => true
  | _, _ => false
  end.

Module Sheet.

(** [SpreadsheetData].  [uploadedAt] is kept as the instant (milliseconds
    since the epoch) that its ISO text denotes. *)
Record SpreadsheetData : Type := mkSpreadsheetData {
  id : option string;
  customerId : string;
  terminalId : option string;
  fileName : string;
  uploadedAt : Z;
  referenceMonth : string;
  referenceDate : option string;
  type : option SpreadsheetType;
  data : list row;
  headers : list string;
  sales : list SalesNormalizer.SpreadsheetSale;
  description : option string
}.

End Sheet.

Module Metrics.
Import JsString JsNumber ColumnMapper.

(** The fields of [SpreadsheetMetrics] that come from the raw rows. *)
Record SpreadsheetMetrics : Type := mkMetrics {
  totalLinhas : nat;
  totalColunas : nat;
  totalVendas : Q;
  valorBrutoTotal : Q;
  valorLiquidoTotal : Q;
  taxaMedia : Q
}.

(** [headers.find(h => p(normalizeColumnName(h)))] *)
Definition findHeader (p : string -> bool) (headers : list string) : option string :=
  List.find (fun h => p (normalizeColumnName h)) headers.

(** [if (!x) { x = ... }] on a header that was looked up. *)
Definition orFind (x y : option string) : option string :=
  match x with
  | Some _ => x
  | None => y
  end.

Definition quantidadeHeader (headers : list string) : option string :=
  orFind (findHeader (fun n => (n =? "quantidade de vendas")
                               || (n =? "quantidade vendas")
                               || (n =? "qtd vendas")) headers)
 (orFind (findHeader (fun n => includes n "quantidade" && includes n "venda") headers)
         (findHeader (fun n => (n =? "quantidade") || (n =? "qtd")) headers)).

Definition valorBrutoHeader (headers : list string) : option string :=
  orFind (findHeader (fun n => n =? "valor bruto") headers)
 (orFind (findHeader (fun n => includes n "valor" && includes n "bruto"
                               && negb (includes n "liquido")) headers)
         (findHeader (fun n => includes n "valor" && negb (includes n "liquido")
                               && negb (includes n "taxa")) headers)).

Definition valorLiquidoHeader (headers : list string) : option string :=
  findHeader (fun n => (n =? "valor liquido") || (n =? "valor líquido")
                       || (includes n "valor" && includes n "liquido")) headers.

Definition taxaHeader (headers : list string) : option string :=
  orFind (findHeader (fun n => (n =? "taxa total")
                               || (includes n "taxa" && includes n "total")) headers)
 (orFind (findHeader (fun n => n =? "taxa") headers)
         (findHeader (fun n => includes n "taxa") headers)).

(** Truthiness of a header that was looked up (a header that satisfies one
    of the predicates above is never the empty string). *)
Definition isFound (h : option string) : bool :=
  match h with
  | Some _ => true
  | None => false
  end.

(** The value at [row[header]] of a column that may not have been found. *)
Definition at_ (h : option string) (r : row) : option cell :=
  match h with
  | Some header => rowGet r header
  | None => None
  end.

(** A quantity cell: the number itself, or the cleaned string parsed;
    [None] when the cell is skipped (empty, or [NaN]). *)
Definition quantityOf (v : option cell) : option Q :=
  match v with
  | Some (CNum q) => Some q
  | Some (CStr s) =>
      if s =? "" then None
      else parseFloat (replaceFirst ","%char "." (keepChars numericChar (trim s)))
  | _ => None
  end.

(** [replace(/[R$\s]/g, '')] *)
Definition stripCurrency (s : string) : string :=
  keepChars (fun c => negb (isByte 82 c || isByte 36 c || isSpace c)) s.

(** A gross or net amount cell. *)
Definition amountOf (v : option cell) : option Q :=
  match v with
  | Some (CNum q) => Some q
  | Some (CStr s) =>
      if s =? "" then None
      else
        let valorStr := trim s in
        if includes valorStr "," && includes valorStr "." then
          parseFloat (replaceFirst ","%char "."
                        (keepChars (fun c => negb (isByte 46 c)) (stripCurrency valorStr)))
        else if includes valorStr "," then
          parseFloat (replaceFirst ","%char "." (stripCurrency valorStr))
        else parseFloat (stripCurrency valorStr)
  | _ => None
  end.

(** A fee cell: [replace(/[%\s]/g, '').replace(',', '.')], kept only when
    it is a number greater than zero. *)
Definition feeOf (v : option cell) : option Q :=
  let taxa :=
    match v with
    | Some (CNum q) => Some q
    | Some (CStr s) =>
        if s =? "" then None
        else parseFloat (replaceFirst ","%char "."
                           (keepChars (fun c => negb (isByte 37 c || isSpace c)) (trim s)))
    | _ => None
    end in
  match taxa with
  | Some t => if isPositive t then Some t else None
  | None => None
  end.

Definition addTo (total : Q) (x : option Q) : Q :=
  match x with
  | Some q => total + q
  | None => total
  end.

(** One turn of [spreadsheet.data.forEach((row) => ...)]. *)
Definition accumulateRow (qh bh lh : option string) (m : SpreadsheetMetrics) (r : row)
  : SpreadsheetMetrics :=
  mkMetrics (totalLinhas m) (totalColunas m)
            (addTo (totalVendas m) (quantityOf (at_ qh r)))
            (addTo (valorBrutoTotal m) (amountOf (at_ bh r)))
            (addTo (valorLiquidoTotal m) (amountOf (at_ lh r)))
            (taxaMedia m).

(** The [taxas] array filled by the second [forEach]. *)
Definition collectTaxas (th : string) (data : list row) : list Q :=
  fold_left (fun taxas r =>
               match feeOf (rowGet r th) with
               | Some t => taxas ++ [t]
               | None => taxas
               end) data [].

(** [Math.abs(t - primeiraTaxa) < 0.01] *)
Definition closeTo (primeiraTaxa t : Q) : bool :=
  negb (Qle_bool (1 # 100) (Qabs (t - primeiraTaxa))).

Definition taxaDaPlanilha (taxas : list Q) : option Q :=
  match taxas with
  | [] => None
  | primeiraTaxa :: _ =>
      let todasIguais := forallb (closeTo primeiraTaxa) taxas in
      Some (if todasIguais then primeiraTaxa
            else fold_left Qplus taxas 0 / inject_Z (Z.of_nat (List.length taxas)))
  end.

(** [Object.values(row).some(val => val !== null && val !== undefined && val !== '')] *)
Definition rowHasData (r : row) : bool :=
  existsb (fun kv => hasValue (Some (snd kv))) r.

Definition calculateSpreadsheetMetrics (spreadsheet : Sheet.SpreadsheetData)
           (customerTax : option Q) : SpreadsheetMetrics :=
  let data := Sheet.data spreadsheet in
  let headers := Sheet.headers spreadsheet in
  let metrics := mkMetrics (List.length data) (List.length headers) 0 0 0 0 in
  let qh := quantidadeHeader headers in
  let bh := valorBrutoHeader headers in
  let lh := valorLiquidoHeader headers in
  let th := taxaHeader headers in
  let metrics := fold_left (accumulateRow qh bh lh) data metrics in
  (* if (metrics.totalVendas === 0 && !quantidadeHeader) *)
  let totalVendas :=
    if isZero (totalVendas metrics) && negb (isFound qh)
    then inject_Z (Z.of_nat (List.length data))
    else totalVendas metrics in
  (* fee rate: the customer's, else the sheet's *)
  let taxaMedia :=
    match customerTax with
    | Some t => t
    | None =>
        match th with
        | Some h =>
            match taxaDaPlanilha (collectTaxas h data) with
            | Some t => t
            | None => taxaMedia metrics
            end
        | None => taxaMedia metrics
        end
    end in
  (* net total derived when no column gave one *)
  let valorLiquidoTotal :=
    if negb (isFound lh) || isZero (valorLiquidoTotal metrics) then
      if isPositive (valorBrutoTotal metrics) && isPositive taxaMedia
      then valorBrutoTotal metrics - (valorBrutoTotal metrics * (taxaMedia / 100))
      else valorLiquidoTotal metrics
    else valorLiquidoTotal metrics in
  (* if (metrics.totalVendas === 0) *)
  let totalVendas :=
    if isZero totalVendas
    then inject_Z (Z.of_nat (List.length (List.filter rowHasData data)))
    else totalVendas in
  mkMetrics (totalLinhas metrics) (totalColunas metrics)
            totalVendas (valorBrutoTotal metrics) valorLiquidoTotal taxaMedia.

End Metrics.

(* ===================================================================== *)
(** * Dates: the time functions of the language standard *)
(* ===================================================================== *)

Module JsDate.
Import JsString JsNumber.
Local Open Scope Z_scope.

Definition msPerDay : Z := 86400000.
Definition msPerHour : Z := 3600000.
Definition msPerMinute : Z := 60000.
Definition msPerSecond : Z := 1000.

Definition Day (t : Z) : Z := t / msPerDay.

Definition DayFromYear (y : Z) : Z :=
  365 * (y - 1970) + (y - 1969) / 4 - (y - 1901) / 100 + (y - 1601) / 400.

Definition isLeapYear (y : Z) : bool :=
  (y mod 4 =? 0) && (negb (y mod 100 =? 0) || (y mod 400 =? 0)).

(** The largest [y] with [DayFromYear y <= d]: an estimate from the mean
    length of a year, corrected by at most one. *)
Definition YearFromDay (d : Z) : Z :=
  let y0 := 1970 + (400 * d) / 146097 in
  if d <? DayFromYear y0 then y0 - 1
  else if DayFromYear (y0 + 1) <=? d then y0 + 1
  else y0.

Definition YearFromTime (t : Z) : Z := YearFromDay (Day t).

Definition InLeapYear (t : Z) : Z := if isLeapYear (YearFromTime t) then 1 else 0.

Definition DayWithinYear (t : Z) : Z := Day t - DayFromYear (YearFromTime t).

(** The month (0-based) of day [d] of a year, [l] being 1 in a leap year. *)
Definition monthOfDay (d l : Z) : Z :=
  if d <? 31 then 0
  else if d <? 59 + l then 1
  else if d <? 90 + l then 2
  else if d <? 120 + l then 3
  else if d <? 151 + l then 4
  else if d <? 181 + l then 5
  else if d <? 212 + l then 6
  else if d <? 243 + l then 7
  else if d <? 273 + l then 8
  else if d <? 304 + l then 9
  else if d <? 334 + l then 10
  else 11.

Definition MonthFromTime (t : Z) : Z := monthOfDay (DayWithinYear t) (InLeapYear t).

(** Number of days of the year before month [m] (0-based). *)
Definition monthStart (m : Z) (l : Z) : Z :=
  match m with
  | 0 => 0
  | 1 => 31
  | 2 => 59 + l
  | 3 => 90 + l
  | 4 => 120 + l
  | 5 => 151 + l
  | 6 => 181 + l
  | 7 => 212 + l
  | 8 => 243 + l
  | 9 => 273 + l
  | 10 => 304 + l
  | _ => 334 + l
  end.

Definition DateFromTime (t : Z) : Z :=
  DayWithinYear t - monthStart (MonthFromTime t) (InLeapYear t) + 1.

Definition MakeDay (year month date : Z) : Z :=
  let ym := year + month / 12 in
  let mn := month mod 12 in
  DayFromYear ym + monthStart mn (if isLeapYear ym then 1 else 0) + date - 1.

Definition MakeDate (day time : Z) : Z := day * msPerDay + time.

(** Decimal rendering of an integer, as in a template literal. *)
Definition digitChar (d : Z) : ascii := ascii_of_nat (Z.to_nat d + 48).

Fixpoint showDigits (fuel : nat) (n : Z) (acc : string) : string :=
  match fuel with
  | O => acc
  | S f =>
      let acc' := String (digitChar (n mod 10)) acc in
      if n / 10 =? 0 then acc' else showDigits f (n / 10) acc'
  end.

(** Twenty digits cover every integer a double holds exactly. *)
Definition showZ (n : Z) : string :=
  if n <? 0 then String "-"%char (showDigits 20 (- n) EmptyString)
  else showDigits 20 n EmptyString.

(** [s.padStart(2, '0')] *)
Definition pad2 (s : string) : string :=
  match String.length s with
  | O => "00" ++ s
  | S O => "0" ++ s
  | _ => s
  end.

(** Exactly [n] leading decimal digits: their value and the rest. *)
Fixpoint digitsN (n : nat) (acc : Z) (s : string) : option (Z * string) :=
  match n with
  | O => Some (acc, s)
  | S k =>
      match s with
      | String c r => if isDigit c then digitsN k (10 * acc + digitVal c) r else None
      | EmptyString => None
      end
  end.

(** A literal character. *)
Definition expect (c : ascii) (s : string) : option string :=
  match s with
  | String x r => if Ascii.eqb x c then Some r else None
  | EmptyString => None
  end.

(** Time part [HH:mm:ss.sssZ] up to the end of the string. *)
Definition parseTimeZ (s : string) : option Z :=
  match digitsN 2 0 s with
  | Some (hh, s1) =>
  match expect ":" s1 with
  | Some s2 =>
  match digitsN 2 0 s2 with
  | Some (mm, s3) =>
  match expect ":" s3 with
  | Some s4 =>
  match digitsN 2 0 s4 with
  | Some (ss, s5) =>
  match expect "." s5 with
  | Some s6 =>
  match digitsN 3 0 s6 with
  | Some (ms, s7) =>
      if (s7 =? "Z")%string && (hh <=? 24) && (mm <=? 59) && (ss <=? 59)
      then Some (hh * msPerHour + mm * msPerMinute + ss * msPerSecond + ms)
      else None
  | None => None
  end
  | None => None
  end
  | None => None
  end
  | None => None
  end
  | None => None
  end
  | None => None
  end
  | None => None
  end.

(** After the date part: the end of the string (midnight UTC) or [T] and
    a time in UTC. *)
Definition parseAfterDate (day : Z) (s : string) : option Z :=
  match s with
  | EmptyString => Some (MakeDate day 0)
  | String c r =>
      if Ascii.eqb c "T" then
        match parseTimeZ r with
        | Some time => Some (MakeDate day time)
        | None => None
        end
      else None
  end.

Definition validMonthDay (m d : Z) : bool :=
  (1 <=? m) && (m <=? 12) && (1 <=? d) && (d <=? 31).

(** [new Date(s).getTime()] for the date-time string format of the language:
    [YYYY], [YYYY-MM] or [YYYY-MM-DD], alone or followed by
    [THH:mm:ss.sssZ].  [None] is an invalid date; other spellings are left
    to the implementation by the standard and are invalid in the model. *)
Definition parseDate (s : string) : option Z :=
  match digitsN 4 0 s with
  | None => None
  | Some (y, s1) =>
      match expect "-" s1 with
      | None => parseAfterDate (MakeDay y 0 1) s1
      | Some s2 =>
          match digitsN 2 0 s2 with
          | None => None
          | Some (m, s3) =>
              match expect "-" s3 with
              | None =>
                  if validMonthDay m 1 then parseAfterDate (MakeDay y (m - 1) 1) s3
                  else None
              | Some s4 =>
                  match digitsN 2 0 s4 with
                  | None => None
                  | Some (d, s5) =>
                      if validMonthDay m d then parseAfterDate (MakeDay y (m - 1) d) s5
                      else None
                  end
              end
          end
      end
  end.

(** The regular expression [^(\d{4})-(\d{2})-(\d{2})]: the three groups
    and what follows the match. *)
Definition matchYMD (s : string) : option (string * string * string * string) :=
  let g1 := substring 0 4 s in
  let g2 := substring 5 2 s in
  let g3 := substring 8 2 s in
  match digitsN 4 0 s with
  | Some (_, s1) =>
  match expect "-" s1 with
  | Some s2 =>
  match digitsN 2 0 s2 with
  | Some (_, s3) =>
  match expect "-" s3 with
  | Some s4 =>
  match digitsN 2 0 s4 with
  | Some (_, s5) => Some (g1, g2, g3, s5)
  | None => None
  end
  | None => None
  end
  | None => None
  end
  | None => None
  end
  | None => None
  end.

(** [/^\d{4}-\d{2}-\d{2}$/.test(s)] *)
Definition isYMD (s : string) : bool :=
  match matchYMD s with
  | Some (_, _, _, EmptyString) => true
  | _ => false
  end.

(** [`${getFullYear()}-${pad(getMonth() + 1)}-${pad(getDate())}`] for a local
    time value. *)
Definition formatLocalDate (localTime : Z) : string :=
  showZ (YearFromTime localTime) ++ "-"
  ++ pad2 (showZ (MonthFromTime localTime + 1)) ++ "-"
  ++ pad2 (showZ (DateFromTime localTime)).

End JsDate.

(* ===================================================================== *)
(** * The store, the console and the clock *)
(* ===================================================================== *)

(** Rows of table [transfers]. *)
Module TransfersTable.

Record t : Type := mk {
  id : string;
  periodo : option string;
  valor_bruto : Q;
  taxas : Q;
  valor_liquido : Q;
  status : option string;
  data_envio : option string;
  customer_id : option string;
  customer_name : option string;
  created_at : Z
}.

End TransfersTable.

(** Rows of table [customer_spreadsheets]. *)
Module SpreadsheetsTable.

Record t : Type := mk {
  id : option string;
  customer_id : string;
  terminal_id : option string;
  file_name : string;
  uploaded_at : Z;
  reference_month : string;
  reference_date : option string;
  type : SpreadsheetType;
  data : list row;
  headers : list string;
  sales : list SalesNormalizer.SpreadsheetSale;
  description : option string
}.

End SpreadsheetsTable.

Inductive LogEntry : Type :=
| LogInfo (message : string)
| LogError (message : string) (error : string).

Record World : Type := mkWorld {
  spreadsheets : list SpreadsheetsTable.t;
  transfers : list TransfersTable.t;
  console : list LogEntry;
  clock : nat
}.

(** Administrator overrides of the card values ([CustomerCardValues]). *)
Record CardValues : Type := mkCardValues {
  cv_quantidadeVendas : option Q;
  cv_valorBruto : option Q;
  cv_taxa : option Q;
  cv_valorLiquido : option Q
}.

(** What the code reads from its surroundings.  [faultAt n] tells whether
    the [n]-th outside call of a run fails. *)
Record Env : Type := mkEnv {
  LocalTZA : Z -> Z;
  faultAt : nat -> bool;
  nowAt : nat -> Z;
  randomAt : nat -> string;
  customerTaxOf : string -> option Q;
  cardValuesOf : string -> option string -> string -> option string -> SpreadsheetType
                 -> option CardValues;
  customers : list (string * string);
  toLocaleDateString : string -> string
}.

Inductive Result (A : Type) : Type :=
| Ok (a : A)
| Thrown (e : string).
Arguments Ok {A} a.
Arguments Thrown {A} e.

Definition M (A : Type) : Type := World -> Result A * World.

Definition ret {A : Type} (a : A) : M A := fun w => (Ok a, w).

Definition bind {A B : Type} (c : M A) (k : A -> M B) : M B :=
  fun w =>
    match c w with
    | (Ok a, w1) => k a w1
    | (Thrown e, w1) => (Thrown e, w1)
    end.

Definition throw {A : Type} (e : string) : M A := fun w => (Thrown e, w).

(** [try { c } catch (e) { h(e) }] *)
Definition tryCatch {A : Type} (c : M A) (h : string -> M A) : M A :=
  fun w =>
    match c w with
    | (Ok a, w1) => (Ok a, w1)
    | (Thrown e, w1) => h e w1
    end.

Declare Scope monad_scope.
Delimit Scope monad_scope with monad.
Notation "x <- c ;; k" := (bind c (fun x => k))
  (at level 61, c at next level, right associativity) : monad_scope.
Notation "c ;;; k" := (bind c (fun _ => k))
  (at level 61, right associativity) : monad_scope.
Local Open Scope monad_scope.

Definition logTo (e : LogEntry) : M unit :=
  fun w => (Ok tt, mkWorld (spreadsheets w) (transfers w) (console w ++ [e]) (clock w)).

Definition consoleLog (message : string) : M unit := logTo (LogInfo message).
Definition consoleError (message error : string) : M unit := logTo (LogError message error).

Definition tickWorld (w : World) : World :=
  mkWorld (spreadsheets w) (transfers w) (console w) (S (clock w)).

(** A request to the store.  The reply carries the data or an error
    ([None]); it does not throw. *)
Definition storeCall {A : Type} (env : Env) (op : World -> A * World) : M (option A) :=
  fun w =>
    let w1 := tickWorld w in
    if faultAt env (clock w) then (Ok None, w1)
    else let (a, w2) := op w1 in (Ok (Some a), w2).

(** A call to one of the other services (fee rates, card values,
    customers); their sources are not part of this development, and a
    failure there is an exception. *)
Definition serviceCall {A : Type} (env : Env) (name : string) (a : A) : M A :=
  fun w =>
    let w1 := tickWorld w in
    if faultAt env (clock w) then (Thrown name, w1) else (Ok a, w1).

(** [Date.now()] *)
Definition dateNow (env : Env) : M Z := fun w => (Ok (nowAt env (clock w)), w).
Definition mathRandom (env : Env) : M string := fun w => (Ok (randomAt env (clock w)), w).

(** [x || null] and [x || d] on a nullable string. *)
Definition orNull (x : option string) : option string :=
  match x with
  | Some s => if s =? "" then None else Some s
  | None => None
  end.

Definition orString (x : option string) (d : string) : string :=
  match x with
  | Some s => if s =? "" then d else s
  | None => d
  end.

(** The filter [.eq(column, value)]: the value travels as text, so that a
    [null] value is the text [null]; a null column equals nothing. *)
Definition pgEq (value : option string) (column : option string) : bool :=
  match column with
  | Some c => c =? match value with
                   | Some v => v
                   | None => "null"
                   end
  | None => false
  end.

(** The filter [.is(column, null)]. *)
Definition pgIsNull (column : option string) : bool :=
  match column with
  | Some _ => false
  | None => true
  end.

(** [.maybeSingle()]: no row is [null] data, one row is the row, several
    rows are an error. *)
Definition maybeSingle {A : Type} (rows : list A) : option (option A) :=
  match rows with
  | [] => Some None
  | [r] => Some (Some r)
  | _ => None
  end.

(** A stable sort by insertion for [order by] and [Array.prototype.sort]. *)
Fixpoint insertBy {A : Type} (le : A -> A -> bool) (x : A) (l : list A) : list A :=
  match l with
  | [] => [x]
  | y :: r => if le x y then x :: l else y :: insertBy le x r
  end.

Definition sortBy {A : Type} (le : A -> A -> bool) (l : list A) : list A :=
  fold_right (insertBy le) [] l.

(* ===================================================================== *)
(** * Ledger access ([transferService.ts]) *)
(* ===================================================================== *)

Module TransferService.
Import JsString JsNumber JsDate.

(** [Transfer] *)
Record Transfer : Type := mkTransfer {
  id : string;
  periodo : string;
  valorBruto : Q;
  taxas : Q;
  valorLiquido : Q;
  status : string;
  dataEnvio : string;
  customerId : option string;
  customerName : option string;
  createdAt : Z
}.

(** [Omit<Transfer, 'id' | 'createdAt'>], with [periodo] possibly
    [undefined] as the reconciler passes it. *)
Record NewTransfer : Type := mkNewTransfer {
  n_periodo : option string;
  n_valorBruto : Q;
  n_taxas : Q;
  n_valorLiquido : Q;
  n_status : string;
  n_dataEnvio : string;
  n_customerId : option string;
  n_customerName : option string
}.

(** [Partial<Transfer>] *)
Record TransferUpdates : Type := mkUpdates {
  u_periodo : option string;
  u_valorBruto : option Q;
  u_taxas : option Q;
  u_valorLiquido : option Q;
  u_status : option string;
  u_dataEnvio : option string;
  u_customerId : option (option string);
  u_customerName : option (option string)
}.

(** The columns [transferToDb] produces. *)
Record DbTransfer : Type := mkDbTransfer {
  d_periodo : option string;
  d_valor_bruto : Q;
  d_taxas : Q;
  d_valor_liquido : Q;
  d_status : string;
  d_data_envio : option string;
  d_customer_id : option string;
  d_customer_name : option string
}.

Definition normalizeDate (env : Env) (dateString : option string) : string :=
  match dateString with
  | None => ""
  | Some s =>
      if (s =? "") || (trim s =? "") then ""
      else if isYMD s then s
      else
        match parseDate s with
        | None => ""
        | Some time => formatLocalDate (time + LocalTZA env time)
        end
  end.

Definition dbToTransfer (env : Env) (dbTransfer : TransfersTable.t) : Transfer :=
  mkTransfer (TransfersTable.id dbTransfer)
             (orString (TransfersTable.periodo dbTransfer) "")
             (TransfersTable.valor_bruto dbTransfer)
             (TransfersTable.taxas dbTransfer)
             (TransfersTable.valor_liquido dbTransfer)
             (orString (TransfersTable.status dbTransfer) "pendente")
             (normalizeDate env (TransfersTable.data_envio dbTransfer))
             (orNull (TransfersTable.customer_id dbTransfer))
             (orNull (TransfersTable.customer_name dbTransfer))
             (TransfersTable.created_at dbTransfer).

(** The date column: [dateMatch[1]] is the first group of
    [/^(\d{4})-(\d{2})-(\d{2})/]. *)
Definition dataEnvioToDb (dataEnvio : string) : option string :=
  if negb (dataEnvio =? "") && negb (trim dataEnvio =? "") then
    match matchYMD dataEnvio with
    | Some (g1, _, _, _) =>
        let dateStr := g1 in
        Some (dateStr ++ "T12:00:00.000Z")%string
    | None => None
    end
  else None.

Definition transferToDb (transfer : NewTransfer) : DbTransfer :=
  mkDbTransfer (orNull (n_periodo transfer))
               (n_valorBruto transfer)
               (n_taxas transfer)
               (n_valorLiquido transfer)
               (orString (Some (n_status transfer)) "pendente")
               (dataEnvioToDb (n_dataEnvio transfer))
               (orNull (n_customerId transfer))
               (orNull (n_customerName transfer)).

(** A row from its columns. *)
Definition toRow (id : string) (created_at : Z) (d : DbTransfer) : TransfersTable.t :=
  TransfersTable.mk id (d_periodo d) (d_valor_bruto d) (d_taxas d) (d_valor_liquido d)
                    (Some (d_status d)) (d_data_envio d) (d_customer_id d)
                    (d_customer_name d) created_at.

(** [order('data_envio', desc, nulls last)], then [order('created_at', desc)]. *)
Definition dbBefore (a b : TransfersTable.t) : bool :=
  match TransfersTable.data_envio a, TransfersTable.data_envio b with
  | Some x, Some y =>
      if x =? y then (TransfersTable.created_at b <=? TransfersTable.created_at a)%Z
      else String.ltb y x
  | Some _, None => true
  | None, Some _ => false
  | None, None => (TransfersTable.created_at b <=? TransfersTable.created_at a)%Z
  end.

(** [a.dataEnvio ? new Date(a.dataEnvio).getTime() : 0]; [None] is [NaN]. *)
Definition sendTime (a : Transfer) : option Z :=
  if dataEnvio a =? "" then Some 0%Z else parseDate (dataEnvio a).

(** The comparator [dateB - dateA] is not positive (a [NaN] difference
    counts as zero). *)
Definition sentBefore (a b : Transfer) : bool :=
  match sendTime a, sendTime b with
  | Some ta, Some tb => (tb <=? ta)%Z
  | _, _ => true
  end.

Local Open Scope monad_scope.

Definition getTransfers (env : Env) : M (list Transfer) :=
  tryCatch
    (reply <- storeCall env (fun w => (sortBy dbBefore (transfers w), w)) ;;
     match reply with
     | None =>
         consoleError "Erro ao buscar repasses do Supabase:" "error" ;;;
         ret []
     | Some data => ret (sortBy sentBefore (List.map (dbToTransfer env) data))
     end)
    (fun error =>
       consoleError "Erro inesperado ao buscar repasses:" error ;;;
       ret []).

(** Several rows for one [id] are the error [PGRST116] of [.maybeSingle()],
    which is not logged. *)
Definition getTransferById (env : Env) (id : string) : M (option Transfer) :=
  tryCatch
    (reply <- storeCall env
                (fun w => (maybeSingle
                             (List.filter (fun r => TransfersTable.id r =? id) (transfers w)),
                           w)) ;;
     match reply with
     | Some (Some (Some data)) => ret (Some (dbToTransfer env data))
     | Some (Some None) => ret None
     | Some None => ret None
     | None =>
         consoleError "Erro ao buscar repasse do Supabase:" "error" ;;;
         ret None
     end)
    (fun error =>
       consoleError "Erro inesperado ao buscar repasse:" error ;;;
       ret None).

Definition insertTransfer (r : TransfersTable.t) (w : World) : TransfersTable.t * World :=
  (r, mkWorld (spreadsheets w) (transfers w ++ [r]) (console w) (clock w)).

Definition createTransfer (env : Env) (transfer : NewTransfer) : M Transfer :=
  tryCatch
    (now <- dateNow env ;;
     rnd <- mathRandom env ;;
     let newId := ("transfer_" ++ showZ now ++ "_" ++ rnd)%string in
     let dbData := transferToDb transfer in
     reply <- storeCall env (insertTransfer (toRow newId now dbData)) ;;
     match reply with
     | None =>
         consoleError "Erro ao criar repasse no Supabase:" "error" ;;;
         throw "error"
     | Some data => ret (dbToTransfer env data)
     end)
    (fun error =>
       consoleError "Erro inesperado ao criar repasse:" error ;;;
       throw error).

(** [{ ...currentTransfer, ...updates }] *)
Definition merge (current : Transfer) (updates : TransferUpdates) : NewTransfer :=
  let pick {A : Type} (u : option A) (c : A) : A :=
    match u with
    | Some v => v
    | None => c
    end in
  mkNewTransfer (Some (pick (u_periodo updates) (periodo current)))
                (pick (u_valorBruto updates) (valorBruto current))
                (pick (u_taxas updates) (taxas current))
                (pick (u_valorLiquido updates) (valorLiquido current))
                (pick (u_status updates) (status current))
                (pick (u_dataEnvio updates) (dataEnvio current))
                (pick (u_customerId updates) (customerId current))
                (pick (u_customerName updates) (customerName current)).

(** [.update(dbData).eq('id', id).select().single()] *)
Definition updateRows (id : string) (d : DbTransfer) (w : World)
  : option TransfersTable.t * World :=
  let hit (r : TransfersTable.t) := TransfersTable.id r =? id in
  let change (r : TransfersTable.t) :=
    if hit r then toRow (TransfersTable.id r) (TransfersTable.created_at r) d else r in
  let rows := List.map change (transfers w) in
  (match List.filter hit rows with
   | [r] => Some r
   | _ => None
   end,
   mkWorld (spreadsheets w) rows (console w) (clock w)).

Definition updateTransfer (env : Env) (id : string) (updates : TransferUpdates)
  : M (option Transfer) :=
  tryCatch
    (currentTransfer <- getTransferById env id ;;
     match currentTransfer with
     | None => ret None
     | Some current =>
         let updatedTransfer := merge current updates in
         let dbData := transferToDb updatedTransfer in
         reply <- storeCall env (updateRows id dbData) ;;
         match reply with
         | Some (Some data) => ret (Some (dbToTransfer env data))
         | _ =>
             consoleError "Erro ao atualizar repasse no Supabase:" "error" ;;;
             ret None
         end
     end)
    (fun error =>
       consoleError "Erro inesperado ao atualizar repasse:" error ;;;
       ret None).

(** [.delete().eq('id', id)] *)
Definition deleteRows (id : string) (w : World) : unit * World :=
  (tt, mkWorld (spreadsheets w)
               (List.filter (fun r => negb (TransfersTable.id r =? id)) (transfers w))
               (console w) (clock w)).

Definition deleteTransfer (env : Env) (id : string) : M bool :=
  tryCatch
    (reply <- storeCall env (deleteRows id) ;;
     match reply with
     | None =>
         consoleError "Erro ao deletar repasse do Supabase:" "error" ;;;
         ret false
     | Some _ => ret true
     end)
    (fun error =>
       consoleError "Erro inesperado ao deletar repasse:" error ;;;
       ret false).

End TransferService.

(* ===================================================================== *)
(** * Snapshot store and transfer reconciler ([spreadsheetService.ts]) *)
(* ===================================================================== *)

Module SpreadsheetService.
Import JsString JsNumber JsDate TransferService.
Local Open Scope monad_scope.

Definition monthNames : list string :=
  ["Janeiro"; "Fevereiro"; "Março"; "Abril"; "Maio"; "Junho";
   "Julho"; "Agosto"; "Setembro"; "Outubro"; "Novembro"; "Dezembro"].

(** [parseInt(s)] in base ten; [None] is [NaN].  (A [0x] prefix, which the
    language reads in base sixteen, is outside the model.) *)
Definition parseInt (s : option string) : option Z :=
  match s with
  | None => None
  | Some s =>
      let (neg, s1) := takeSign (trimStart s) in
      let (ds, _) := takeDigits s1 in
      if ds =? "" then None
      else Some (if neg then - digitsValue 0 ds else digitsValue 0 ds)%Z
  end.

(** An element of an array inside a template literal. *)
Definition shown (x : option string) : string :=
  match x with
  | Some s => s
  | None => "undefined"
  end.

(** [monthNames[parseInt(month) - 1]] *)
Definition monthNameOf (month : option string) : option string :=
  match parseInt month with
  | Some n => if (1 <=? n)%Z then nth_error monthNames (Z.to_nat (n - 1)) else None
  | None => None
  end.

(** [`${monthNames[parseInt(month) - 1]}/${year}`] *)
Definition monthLabel (referenceMonth : string) : string :=
  let parts := splitOn "-" referenceMonth in
  let year := nth_error parts 0 in
  let month := nth_error parts 1 in
  (shown (monthNameOf month) ++ "/" ++ shown year)%string.

(** [`${day}/${month}/${year}`] *)
Definition dayLabel (dateStr : string) : string :=
  let parts := splitOn "-" dateStr in
  (shown (nth_error parts 2) ++ "/" ++ shown (nth_error parts 1) ++ "/"
   ++ shown (nth_error parts 0))%string.

Definition isDaily (spreadsheet : Sheet.SpreadsheetData) : bool :=
  match Sheet.type spreadsheet with
  | Some daily => true
  | _ => false
  end.

(** The date of a daily snapshot, when the first branch is taken. *)
Definition dailyDate (spreadsheet : Sheet.SpreadsheetData) : option string :=
  if isDaily spreadsheet then
    match Sheet.referenceDate spreadsheet with
    | Some d => if d =? "" then None else Some d
    | None => None
    end
  else None.

(** The period label ([periodoParaBusca], and [periodo] further down). *)
Definition periodoOf (env : Env) (spreadsheet : Sheet.SpreadsheetData) : option string :=
  match dailyDate spreadsheet with
  | Some referenceDate =>
      let dateStr := trim referenceDate in
      if isYMD dateStr then Some (dayLabel dateStr)
      else Some (toLocaleDateString env referenceDate)
  | None =>
      if Sheet.referenceMonth spreadsheet =? "" then None
      else Some (monthLabel (Sheet.referenceMonth spreadsheet))
  end.

(** [new Date(x)] then [`${getFullYear()}-${...}-${...}`] in local time. *)
Definition localDateOf (env : Env) (time : Z) : string :=
  formatLocalDate (time + LocalTZA env time).

(** [dataEnvio] of a new entry. *)
Definition dataEnvioOf (env : Env) (spreadsheet : Sheet.SpreadsheetData) : string :=
  match dailyDate spreadsheet with
  | Some referenceDate =>
      let dateStr := trim referenceDate in
      if isYMD dateStr then dateStr
      else match parseDate referenceDate with
           | Some time => localDateOf env time
           | None => "NaN-NaN-NaN"
           end
  | None =>
      if Sheet.referenceMonth spreadsheet =? "" then ""
      else localDateOf env (Sheet.uploadedAt spreadsheet)
  end.

Definition sheetType (spreadsheet : Sheet.SpreadsheetData) : SpreadsheetType :=
  match Sheet.type spreadsheet with
  | Some t => t
  | None => monthly
  end.

Definition getCustomerTax (env : Env) (customerId : string) : M (option Q) :=
  serviceCall env "getCustomerTax" (customerTaxOf env customerId).

Definition getCustomerCardValues (env : Env) (spreadsheet : Sheet.SpreadsheetData)
  : M (option CardValues) :=
  serviceCall env "getCustomerCardValues"
              (cardValuesOf env (Sheet.customerId spreadsheet) (Sheet.terminalId spreadsheet)
                            (Sheet.referenceMonth spreadsheet)
                            (Sheet.referenceDate spreadsheet) (sheetType spreadsheet)).

Definition getCustomers (env : Env) : M (list (string * string)) :=
  serviceCall env "getCustomers" (customers env).

Definition calculateSpreadsheetMetrics (env : Env) (spreadsheet : Sheet.SpreadsheetData)
  : M Metrics.SpreadsheetMetrics :=
  customerTax <- getCustomerTax env (Sheet.customerId spreadsheet) ;;
  ret (Metrics.calculateSpreadsheetMetrics spreadsheet customerTax).

Definition parseSpreadsheetToSales (env : Env) (rawData : list row) (headers : list string)
           (customerId : string) : M (list SalesNormalizer.SpreadsheetSale) :=
  customerTax <- getCustomerTax env customerId ;;
  ret (SalesNormalizer.parseSpreadsheetToSales rawData headers customerTax).

Definition positive (x : option Q) : bool :=
  match x with
  | Some q => isPositive q
  | None => false
  end.

(** Gross, fee and net amounts of the entry: the card values when present,
    the metrics otherwise; the fee falls back to 5.10 %% of the gross. *)
Definition entryValues (customValues : option CardValues)
           (metrics : Metrics.SpreadsheetMetrics) : Q * Q * Q :=
  let cvBruto := match customValues with
                 | Some cv => cv_valorBruto cv
                 | None => None
                 end in
  let cvTaxa := match customValues with
                | Some cv => cv_taxa cv
                | None => None
                end in
  let cvLiquido := match customValues with
                   | Some cv => cv_valorLiquido cv
                   | None => None
                   end in
  let valorBruto := match cvBruto with
                    | Some v => v
                    | None => Metrics.valorBrutoTotal metrics
                    end in
  let taxas :=
    if positive cvTaxa then orZero cvTaxa
    else if positive cvBruto then orZero cvBruto * (51 # 1000)
    else if isPositive (Metrics.taxaMedia metrics)
         then Metrics.valorBrutoTotal metrics * (Metrics.taxaMedia metrics / 100)
    else Metrics.valorBrutoTotal metrics * (51 # 1000) in
  let valorLiquido := if positive cvLiquido then orZero cvLiquido
                      else valorBruto - taxas in
  (valorBruto, taxas, valorLiquido).

Definition sameCustomer (spreadsheet : Sheet.SpreadsheetData) (t : Transfer) : bool :=
  match customerId t with
  | Some c => c =? Sheet.customerId spreadsheet
  | None => false
  end.

Definition samePeriod (periodoParaBusca : option string) (t : Transfer) : bool :=
  match periodoParaBusca with
  | Some p => periodo t =? p
  | None => false
  end.

Definition monetaryUpdates (valorBruto taxas valorLiquido : Q) : TransferUpdates :=
  mkUpdates None (Some valorBruto) (Some taxas) (Some valorLiquido) None None None None.

(** [createTransferFromSpreadsheet].  A console entry keeps the message of
    the call, not the values printed after it.  The [transferCreated]
    browser event that follows a write is a notification and is not
    modelled. *)
Definition createTransferFromSpreadsheet (env : Env) (spreadsheet : Sheet.SpreadsheetData)
  : M unit :=
  tryCatch
    (let periodoParaBusca := periodoOf env spreadsheet in
     consoleLog "🔍 Verificando se já existe repasse para período:" ;;;
     allTransfers <- getTransfers env ;;
     let existingTransfers := List.filter (sameCustomer spreadsheet) allTransfers in
     let existingTransfer :=
       List.find (fun t => sameCustomer spreadsheet t && samePeriod periodoParaBusca t)
                 existingTransfers in
     match existingTransfer with
     | Some _ => consoleLog "⚠️ Repasse já existe para este período:"
     | None => consoleLog "✅ Nenhum repasse encontrado para este período, criando novo..."
     end ;;;
     match existingTransfer with
     | Some existing =>
         consoleLog "Repasse já existe para este período, atualizando valores..." ;;;
         customValues <- getCustomerCardValues env spreadsheet ;;
         metrics <- calculateSpreadsheetMetrics env spreadsheet ;;
         let '(valorBruto, taxas, valorLiquido) := entryValues customValues metrics in
         if isPositive valorBruto then
           updateTransfer env (id existing)
                          (monetaryUpdates valorBruto taxas valorLiquido) ;;;
           consoleLog "✅ Repasse atualizado automaticamente para planilha:"
         else ret tt
     | None =>
         customValues <- getCustomerCardValues env spreadsheet ;;
         metrics <- calculateSpreadsheetMetrics env spreadsheet ;;
         let '(valorBruto, taxas, valorLiquido) := entryValues customValues metrics in
         if negb (isPositive valorBruto) then
           consoleLog "Planilha sem valor bruto válido, não criando repasse"
         else
           customers <- getCustomers env ;;
           let customer :=
             List.find (fun c => fst c =? Sheet.customerId spreadsheet) customers in
           let customerName := orString (option_map snd customer) "" in
           let periodo := periodoOf env spreadsheet in
           let dataEnvio := dataEnvioOf env spreadsheet in
           createTransfer env
             (mkNewTransfer periodo valorBruto taxas valorLiquido "pendente" dataEnvio
                            (Some (Sheet.customerId spreadsheet)) (Some customerName)) ;;;
           consoleLog "✅ Repasse criado automaticamente para planilha:"
     end)
    (fun error =>
       consoleError "Erro ao criar repasse a partir da planilha:" error ;;;
       throw error).

(** [getReferenceMonth]: [`${year}-${month}`] of a local time. *)
Definition getReferenceMonth (env : Env) (time : Z) : string :=
  let localTime := (time + LocalTZA env time)%Z in
  (showZ (YearFromTime localTime) ++ "-" ++ pad2 (showZ (MonthFromTime localTime + 1)))%string.

Definition spreadsheetToDb (spreadsheet : Sheet.SpreadsheetData) : SpreadsheetsTable.t :=
  SpreadsheetsTable.mk (Sheet.id spreadsheet)
                       (Sheet.customerId spreadsheet)
                       (orNull (Sheet.terminalId spreadsheet))
                       (Sheet.fileName spreadsheet)
                       (Sheet.uploadedAt spreadsheet)
                       (Sheet.referenceMonth spreadsheet)
                       (orNull (Sheet.referenceDate spreadsheet))
                       (sheetType spreadsheet)
                       (Sheet.data spreadsheet)
                       (Sheet.headers spreadsheet)
                       (Sheet.sales spreadsheet)
                       (orNull (Sheet.description spreadsheet)).

Definition typeName (t : SpreadsheetType) : string :=
  match t with
  | monthly => "monthly"
  | daily => "daily"
  end.

(** The query for the monthly snapshot already stored:
    [.eq('customer_id', ..).eq('terminal_id', terminalId || null)
     .eq('reference_month', ..).eq('type', 'monthly')]. *)
Definition isExistingMonthly (customerId : string) (terminalId : option string)
           (referenceMonth : string) (r : SpreadsheetsTable.t) : bool :=
  pgEq (Some customerId) (Some (SpreadsheetsTable.customer_id r))
  && pgEq (orNull terminalId) (SpreadsheetsTable.terminal_id r)
  && pgEq (Some referenceMonth) (Some (SpreadsheetsTable.reference_month r))
  && pgEq (Some "monthly") (Some (typeName (SpreadsheetsTable.type r))).

Definition selectExistingMonthly (customerId : string) (terminalId : option string)
           (referenceMonth : string) (w : World)
  : option (option SpreadsheetsTable.t) * World :=
  (maybeSingle (List.filter (isExistingMonthly customerId terminalId referenceMonth)
                            (spreadsheets w)), w).

Definition insertSpreadsheet (dbData : SpreadsheetsTable.t) (w : World) : unit * World :=
  (tt, mkWorld (spreadsheets w ++ [dbData]) (transfers w) (console w) (clock w)).

(** [.update(dbData).eq('id', existing.id)] *)
Definition updateSpreadsheet (existingId : option string) (dbData : SpreadsheetsTable.t)
           (w : World) : unit * World :=
  let change (r : SpreadsheetsTable.t) :=
    if pgEq existingId (SpreadsheetsTable.id r) then dbData else r in
  (tt, mkWorld (List.map change (spreadsheets w)) (transfers w) (console w) (clock w)).

(** The snapshot as it is written ([spreadsheetToSave]). *)
Definition prepare (env : Env) (spreadsheet : Sheet.SpreadsheetData)
  : M Sheet.SpreadsheetData :=
  let referenceMonth :=
    if Sheet.referenceMonth spreadsheet =? ""
    then getReferenceMonth env (Sheet.uploadedAt spreadsheet)
    else Sheet.referenceMonth spreadsheet in
  let type := sheetType spreadsheet in
  let referenceDate := Sheet.referenceDate spreadsheet in
  sales <- match Sheet.sales spreadsheet, Sheet.data spreadsheet with
           | _ :: _, _ => ret (Sheet.sales spreadsheet)
           | [], _ :: _ =>
               parseSpreadsheetToSales env (Sheet.data spreadsheet)
                                       (Sheet.headers spreadsheet)
                                       (Sheet.customerId spreadsheet)
           | [], [] => ret []
           end ;;
  now <- dateNow env ;;
  let dateKey := orString referenceDate referenceMonth in
  let id := ("spreadsheet_" ++ typeName type ++ "_" ++ Sheet.customerId spreadsheet
             ++ "_" ++ orString (Sheet.terminalId spreadsheet) "general"
             ++ "_" ++ dateKey ++ "_" ++ showZ now)%string in
  ret (Sheet.mkSpreadsheetData (Some id)
         (Sheet.customerId spreadsheet) (Sheet.terminalId spreadsheet)
         (Sheet.fileName spreadsheet) (Sheet.uploadedAt spreadsheet)
         referenceMonth referenceDate (Some type)
         (Sheet.data spreadsheet) (Sheet.headers spreadsheet) sales
         (Sheet.description spreadsheet)).

(** The write: replace the monthly snapshot of the month, or insert. *)
Definition persist (env : Env) (spreadsheetToSave : Sheet.SpreadsheetData) : M unit :=
  let dbData := spreadsheetToDb spreadsheetToSave in
  match sheetType spreadsheetToSave with
  | monthly =>
      reply <- storeCall env
                 (selectExistingMonthly (Sheet.customerId spreadsheetToSave)
                                        (Sheet.terminalId spreadsheetToSave)
                                        (Sheet.referenceMonth spreadsheetToSave)) ;;
      match reply with
      | Some (Some (Some existing)) =>
          result <- storeCall env (updateSpreadsheet (SpreadsheetsTable.id existing) dbData) ;;
          match result with
          | Some _ => ret tt
          | None =>
              consoleError "Erro ao atualizar planilha:" "error" ;;;
              throw "error"
          end
      | _ =>
          result <- storeCall env (insertSpreadsheet dbData) ;;
          match result with
          | Some _ => ret tt
          | None =>
              consoleError "Erro ao inserir planilha:" "error" ;;;
              throw "error"
          end
      end
  | daily =>
      result <- storeCall env (insertSpreadsheet dbData) ;;
      match result with
      | Some _ => ret tt
      | None =>
          consoleError "Erro ao inserir planilha diária:" "error" ;;;
          throw "error"
      end
  end.

(** The inner [try]: the ledger entry is derived from the snapshot, and an
    exception from there is logged and goes no further. *)
Definition reconcile (env : Env) (spreadsheetToSave : Sheet.SpreadsheetData) : M unit :=
  tryCatch
    (consoleLog "📊 Iniciando criação automática de repasse para planilha:" ;;;
     createTransferFromSpreadsheet env spreadsheetToSave ;;;
     consoleLog "✅ Processo de criação/atualização de repasse concluído")
    (fun transferError =>
       consoleError "❌ Erro ao criar repasse automaticamente:" transferError).

Definition saveSpreadsheet (env : Env) (spreadsheet : Sheet.SpreadsheetData) : M unit :=
  tryCatch
    (spreadsheetToSave <- prepare env spreadsheet ;;
     persist env spreadsheetToSave ;;;
     reconcile env spreadsheetToSave)
    (fun error =>
       consoleError "Erro ao salvar planilha:" error ;;;
       throw error).

(** ** Reading snapshots *)

(** [dbToSpreadsheet].  The wrapper [{ data: ... }] around the rows is
    elided and the column [original_file], which is carried like
    [description], is not part of the record.  [uploaded_at] is always
    present in the model, so that its default [new Date()] is not needed. *)
Definition dbToSpreadsheet (env : Env) (dbRow : SpreadsheetsTable.t) : Sheet.SpreadsheetData :=
  Sheet.mkSpreadsheetData
    (SpreadsheetsTable.id dbRow)
    (SpreadsheetsTable.customer_id dbRow)
    (orNull (SpreadsheetsTable.terminal_id dbRow))
    (SpreadsheetsTable.file_name dbRow)
    (SpreadsheetsTable.uploaded_at dbRow)
    (if SpreadsheetsTable.reference_month dbRow =? ""
     then getReferenceMonth env (SpreadsheetsTable.uploaded_at dbRow)
     else SpreadsheetsTable.reference_month dbRow)
    (orNull (SpreadsheetsTable.reference_date dbRow))
    (Some (SpreadsheetsTable.type dbRow))
    (SpreadsheetsTable.data dbRow)
    (SpreadsheetsTable.headers dbRow)
    (SpreadsheetsTable.sales dbRow)
    (orNull (SpreadsheetsTable.description dbRow)).

(** [.order('uploaded_at', { ascending: false })] *)
Definition uploadedAfter (a b : SpreadsheetsTable.t) : bool :=
  (SpreadsheetsTable.uploaded_at b <=? SpreadsheetsTable.uploaded_at a)%Z.

(** A filter that is added only when its argument is given:
    [if (x) { query = query.eq(column, x) }]. *)
Definition eqIfGiven (x : option string) (column : option string) : bool :=
  match orNull x with
  | Some v => pgEq (Some v) column
  | None => true
  end.

(** [.eq('type', type)] *)
Definition typeIs (type : SpreadsheetType) (r : SpreadsheetsTable.t) : bool :=
  pgEq (Some (typeName type)) (Some (typeName (SpreadsheetsTable.type r))).

(** The rows a query returns: the filters, then the order, whatever the
    order of the calls on the query builder. *)
Definition selectRows (p : SpreadsheetsTable.t -> bool) (w : World)
  : list SpreadsheetsTable.t * World :=
  (sortBy uploadedAfter (List.filter p (spreadsheets w)), w).

(** The same with [.limit(1)]. *)
Definition selectLatest (p : SpreadsheetsTable.t -> bool) (w : World)
  : list SpreadsheetsTable.t * World :=
  (firstn 1 (sortBy uploadedAfter (List.filter p (spreadsheets w))), w).

Definition getAllSpreadsheets (env : Env) : M (list Sheet.SpreadsheetData) :=
  tryCatch
    (reply <- storeCall env (selectRows (fun _ => true)) ;;
     match reply with
     | None =>
         consoleError "Erro ao carregar planilhas:" "error" ;;;
         ret []
     | Some data => ret (List.map (dbToSpreadsheet env) data)
     end)
    (fun error =>
       consoleError "Erro ao carregar planilhas:" error ;;;
       ret []).

(** The filters of [getSpreadsheetByCustomerId]: the customer, no
    terminal, the type, and the month when one is given. *)
Definition generalSnapshotOf (customerId : string) (referenceMonth : option string)
           (type : SpreadsheetType) (r : SpreadsheetsTable.t) : bool :=
  pgEq (Some customerId) (Some (SpreadsheetsTable.customer_id r))
  && pgIsNull (SpreadsheetsTable.terminal_id r)
  && typeIs type r
  && eqIfGiven referenceMonth (Some (SpreadsheetsTable.reference_month r)).

Definition getSpreadsheetByCustomerId (env : Env) (customerId : string)
           (referenceMonth : option string) (type : SpreadsheetType)
  : M (option Sheet.SpreadsheetData) :=
  tryCatch
    (reply <- storeCall env (selectLatest (generalSnapshotOf customerId referenceMonth type)) ;;
     match reply with
     | None =>
         consoleError "Erro ao buscar planilha do cliente:" "error" ;;;
         ret None
     | Some [] => ret None
     | Some (first :: _) => ret (Some (dbToSpreadsheet env first))
     end)
    (fun error =>
       consoleError "Erro ao buscar planilha do cliente:" error ;;;
       ret None).

(** The filters of [getSpreadsheetByTerminalId]. *)
Definition terminalSnapshotOf (terminalId : string) (customerId referenceMonth : option string)
           (type : SpreadsheetType) (r : SpreadsheetsTable.t) : bool :=
  pgEq (Some terminalId) (SpreadsheetsTable.terminal_id r)
  && typeIs type r
  && eqIfGiven customerId (Some (SpreadsheetsTable.customer_id r))
  && eqIfGiven referenceMonth (Some (SpreadsheetsTable.reference_month r)).

Definition getSpreadsheetByTerminalId (env : Env) (terminalId : string)
           (customerId referenceMonth : option string) (type : SpreadsheetType)
  : M (option Sheet.SpreadsheetData) :=
  tryCatch
    (reply <- storeCall env
                (selectLatest (terminalSnapshotOf terminalId customerId referenceMonth type)) ;;
     match reply with
     | None =>
         consoleError "Erro ao buscar planilha do terminal:" "error" ;;;
         ret None
     | Some [] => ret None
     | Some (first :: _) => ret (Some (dbToSpreadsheet env first))
     end)
    (fun error =>
       consoleError "Erro ao buscar planilha do terminal:" error ;;;
       ret None).

(** The filters of [getSpreadsheetsByCustomerId]: without a terminal every
    snapshot of the customer is selected, those of its terminals
    included. *)
Definition snapshotOfCustomer (customerId : string) (terminalId : option string)
           (r : SpreadsheetsTable.t) : bool :=
  pgEq (Some customerId) (Some (SpreadsheetsTable.customer_id r))
  && eqIfGiven terminalId (SpreadsheetsTable.terminal_id r).

Definition getSpreadsheetsByCustomerId (env : Env) (customerId : string)
           (terminalId : option string) : M (list Sheet.SpreadsheetData) :=
  tryCatch
    (reply <- storeCall env (selectRows (snapshotOfCustomer customerId terminalId)) ;;
     match reply with
     | None =>
         consoleError "Erro ao buscar planilhas do cliente:" "error" ;;;
         ret []
     | Some data => ret (List.map (dbToSpreadsheet env) data)
     end)
    (fun error =>
       consoleError "Erro ao buscar planilhas do cliente:" error ;;;
       ret []).

Definition getSpreadsheetById (env : Env) (id : string) : M (option Sheet.SpreadsheetData) :=
  tryCatch
    (reply <- storeCall env
                (fun w => (maybeSingle
                             (List.filter (fun r => pgEq (Some id) (SpreadsheetsTable.id r))
                                          (spreadsheets w)), w)) ;;
     match reply with
     | Some (Some (Some data)) => ret (Some (dbToSpreadsheet env data))
     | Some (Some None) => ret None
     | _ =>
         consoleError "Erro ao buscar planilha por ID:" "error" ;;;
         ret None
     end)
    (fun error =>
       consoleError "Erro ao buscar planilha por ID:" error ;;;
       ret None).

(** [Set.prototype.add], the set kept in insertion order. *)
Definition setAdd (set : list string) (x : string) : list string :=
  if existsb (String.eqb x) set then set else set ++ [x].

(** [l.sort((a, b) => b.localeCompare(a))] on period keys. *)
Definition sortDescending (l : list string) : list string :=
  sortBy (fun a b => String.leb b a) l.

Definition getAvailableMonths (env : Env) (customerId : string) (terminalId : option string)
           (type : SpreadsheetType) : M (list string) :=
  tryCatch
    (sheets <- getSpreadsheetsByCustomerId env customerId terminalId ;;
     let filtered := List.filter (fun s => SpreadsheetType_eqb (sheetType s) type) sheets in
     let months :=
       fold_left (fun months s =>
                    if Sheet.referenceMonth s =? "" then months
                    else setAdd months (Sheet.referenceMonth s))
                 filtered [] in
     ret (sortDescending months))
    (fun error =>
       consoleError "Erro ao buscar meses disponíveis:" error ;;;
       ret []).

(** The filters of [getAvailableDays]: without a terminal only the
    snapshots of no terminal are selected. *)
Definition dailySnapshotOf (customerId : string) (terminalId referenceMonth : option string)
           (r : SpreadsheetsTable.t) : bool :=
  pgEq (Some customerId) (Some (SpreadsheetsTable.customer_id r))
  && typeIs daily r
  && negb (pgIsNull (SpreadsheetsTable.reference_date r))
  && match orNull terminalId with
     | Some t => pgEq (Some t) (SpreadsheetsTable.terminal_id r)
     | None => pgIsNull (SpreadsheetsTable.terminal_id r)
     end
  && eqIfGiven referenceMonth (Some (SpreadsheetsTable.reference_month r)).

(** [Map.prototype.get] and [set] on a map kept in insertion order. *)
Fixpoint mapGet (m : list (string * Z)) (k : string) : option Z :=
  match m with
  | [] => None
  | (k', v) :: rest => if k' =? k then Some v else mapGet rest k
  end.

Fixpoint mapSet (m : list (string * Z)) (k : string) (v : Z) : list (string * Z) :=
  match m with
  | [] => [(k, v)]
  | (k', v') :: rest => if k' =? k then (k, v) :: rest else (k', v') :: mapSet rest k v
  end.

(** One turn of the loop that fills [daysMap]: the day of the row, with the
    latest upload seen for it. *)
Definition noteDay (daysMap : list (string * Z)) (row : SpreadsheetsTable.t)
  : list (string * Z) :=
  match SpreadsheetsTable.reference_date row with
  | None => daysMap
  | Some existingDate =>
      if existingDate =? "" then daysMap
      else
        let existingUploadedAt := SpreadsheetsTable.uploaded_at row in
        match mapGet daysMap existingDate with
        | Some existingUploadedAtInMap =>
            if (existingUploadedAtInMap <? existingUploadedAt)%Z
            then mapSet daysMap existingDate existingUploadedAt
            else daysMap
        | None => mapSet daysMap existingDate existingUploadedAt
        end
  end.

Definition getAvailableDays (env : Env) (customerId : string)
           (terminalId referenceMonth : option string) : M (list string) :=
  tryCatch
    (reply <- storeCall env (selectRows (dailySnapshotOf customerId terminalId referenceMonth)) ;;
     match reply with
     | None =>
         consoleError "Erro ao buscar dias disponíveis:" "error" ;;;
         ret []
     | Some data =>
         let daysMap := fold_left noteDay data [] in
         ret (sortDescending (List.map fst daysMap))
     end)
    (fun error =>
       consoleError "Erro ao buscar dias disponíveis:" error ;;;
       ret []).

(** The filters of [getSpreadsheetByDate], for a terminal or for none. *)
Definition dailySnapshotOn (customerId : string) (terminalId : option string)
           (normalizedDate : string) (r : SpreadsheetsTable.t) : bool :=
  pgEq (Some customerId) (Some (SpreadsheetsTable.customer_id r))
  && match terminalId with
     | Some t => pgEq (Some t) (SpreadsheetsTable.terminal_id r)
     | None => pgIsNull (SpreadsheetsTable.terminal_id r)
     end
  && typeIs daily r
  && pgEq (Some normalizedDate) (SpreadsheetsTable.reference_date r).

(** [.order(..).limit(1).maybeSingle()] *)
Definition selectLatestSingle (p : SpreadsheetsTable.t -> bool) (w : World)
  : option (option SpreadsheetsTable.t) * World :=
  (maybeSingle (fst (selectLatest p w)), w).

Definition getSpreadsheetByDate (env : Env) (customerId referenceDate : string)
           (terminalId : option string) : M (option Sheet.SpreadsheetData) :=
  if referenceDate =? "" then ret None
  else
    tryCatch
      (let normalizedDate := trim referenceDate in
       match orNull terminalId with
       | Some terminal =>
           withTerminal <- storeCall env
                             (selectLatestSingle
                                (dailySnapshotOn customerId (Some terminal) normalizedDate)) ;;
           match withTerminal with
           | Some (Some (Some found)) => ret (Some (dbToSpreadsheet env found))
           | _ =>
               withoutTerminal <- storeCall env
                                    (selectLatestSingle
                                       (dailySnapshotOn customerId None normalizedDate)) ;;
               match withoutTerminal with
               | Some (Some (Some found)) => ret (Some (dbToSpreadsheet env found))
               | _ => ret None
               end
           end
       | None =>
           reply <- storeCall env
                      (selectLatestSingle (dailySnapshotOn customerId None normalizedDate)) ;;
           match reply with
           | Some (Some (Some found)) => ret (Some (dbToSpreadsheet env found))
           | Some (Some None) => ret None
           | _ =>
               consoleError "Erro ao buscar planilha por data:" "error" ;;;
               ret None
           end
       end)
      (fun error =>
         consoleError "Erro ao buscar planilha por data:" error ;;;
         ret None).

(** ** History by month *)

(** [if (!history[month]) { history[month] = [] }; history[month].push(s)]
    on an object kept as the list of its keys in insertion order (a month
    key is not an array index, and does not name a property of
    [Object.prototype]). *)
Fixpoint historyPush (history : list (string * list Sheet.SpreadsheetData))
         (month : string) (s : Sheet.SpreadsheetData)
  : list (string * list Sheet.SpreadsheetData) :=
  match history with
  | [] => [(month, [s])]
  | (k, group) :: rest =>
      if k =? month then (k, group ++ [s]) :: rest
      else (k, group) :: historyPush rest month s
  end.

(** [s.referenceMonth || getReferenceMonth(s.uploadedAt)] *)
Definition monthOf (env : Env) (s : Sheet.SpreadsheetData) : string :=
  if Sheet.referenceMonth s =? "" then getReferenceMonth env (Sheet.uploadedAt s)
  else Sheet.referenceMonth s.

(** The comparator [new Date(b.uploadedAt) - new Date(a.uploadedAt)] is not
    positive. *)
Definition uploadedLater (a b : Sheet.SpreadsheetData) : bool :=
  (Sheet.uploadedAt b <=? Sheet.uploadedAt a)%Z.

Definition getSpreadsheetHistory (env : Env) (customerId : string) (terminalId : option string)
           (type : SpreadsheetType) : M (list (string * list Sheet.SpreadsheetData)) :=
  tryCatch
    (sheets <- getSpreadsheetsByCustomerId env customerId terminalId ;;
     let filtered := List.filter (fun s => SpreadsheetType_eqb (sheetType s) type) sheets in
     let history := fold_left (fun history s => historyPush history (monthOf env s) s)
                              filtered [] in
     ret (List.map (fun entry => (fst entry, sortBy uploadedLater (snd entry))) history))
    (fun error =>
       consoleError "Erro ao buscar histórico de planilhas:" error ;;;
       ret []).

(** ** Metrics of several snapshots *)

(** The accumulators of [calculateAggregatedMetrics] that come from the
    raw rows: the aggregate, [totalTaxa] and [countTaxa]. *)
Record Aggregation : Type := mkAggregation {
  aggregated : Metrics.SpreadsheetMetrics;
  totalTaxa : Q;
  countTaxa : nat
}.

Definition emptyAggregation : Aggregation :=
  mkAggregation (Metrics.mkMetrics 0 0 0 0 0 0) 0 0.

(** What one snapshot with rows adds. *)
Definition aggregateMetrics (acc : Aggregation) (metrics : Metrics.SpreadsheetMetrics)
  : Aggregation :=
  let a := aggregated acc in
  mkAggregation
    (Metrics.mkMetrics (Metrics.totalLinhas a + Metrics.totalLinhas metrics)
                       (Nat.max (Metrics.totalColunas a) (Metrics.totalColunas metrics))
                       (Metrics.totalVendas a + Metrics.totalVendas metrics)
                       (Metrics.valorBrutoTotal a + Metrics.valorBrutoTotal metrics)
                       (Metrics.valorLiquidoTotal a + Metrics.valorLiquidoTotal metrics)
                       (Metrics.taxaMedia a))
    (if isPositive (Metrics.taxaMedia metrics)
     then totalTaxa acc + Metrics.taxaMedia metrics else totalTaxa acc)
    (if isPositive (Metrics.taxaMedia metrics) then S (countTaxa acc) else countTaxa acc).

(** The loop [for (const spreadsheet of spreadsheets)]; a snapshot without
    rows is skipped before its metrics are asked for. *)
Fixpoint aggregateAll (env : Env) (acc : Aggregation) (sheets : list Sheet.SpreadsheetData)
  : M Aggregation :=
  match sheets with
  | [] => ret acc
  | spreadsheet :: rest =>
      match Sheet.data spreadsheet with
      | [] => aggregateAll env acc rest
      | _ :: _ =>
          metrics <- calculateSpreadsheetMetrics env spreadsheet ;;
          aggregateAll env (aggregateMetrics acc metrics) rest
      end
  end.

(** [countTaxa > 0 ? totalTaxa / countTaxa : 0] closes the aggregate. *)
Definition closeAggregation (acc : Aggregation) : Metrics.SpreadsheetMetrics :=
  let a := aggregated acc in
  Metrics.mkMetrics (Metrics.totalLinhas a) (Metrics.totalColunas a) (Metrics.totalVendas a)
                    (Metrics.valorBrutoTotal a) (Metrics.valorLiquidoTotal a)
                    (match countTaxa acc with
                     | O => 0
                     | S _ => totalTaxa acc / inject_Z (Z.of_nat (countTaxa acc))
                     end).

Definition calculateAggregatedMetrics (env : Env) (sheets : list Sheet.SpreadsheetData)
  : M (option Metrics.SpreadsheetMetrics) :=
  match sheets with
  | [] => ret None
  | _ :: _ =>
      acc <- aggregateAll env emptyAggregation sheets ;;
      ret (Some (closeAggregation acc))
  end.

(** ** Deleting snapshots *)

(** The filters of [deleteSpreadsheet]: the snapshots of the terminal, or
    those of no terminal. *)
Definition snapshotToDelete (customerId : string) (terminalId : option string)
           (r : SpreadsheetsTable.t) : bool :=
  pgEq (Some customerId) (Some (SpreadsheetsTable.customer_id r))
  && match orNull terminalId with
     | Some t => pgEq (Some t) (SpreadsheetsTable.terminal_id r)
     | None => pgIsNull (SpreadsheetsTable.terminal_id r)
     end.

Definition deleteSnapshots (p : SpreadsheetsTable.t -> bool) (w : World) : unit * World :=
  (tt, mkWorld (List.filter (fun r => negb (p r)) (spreadsheets w))
               (transfers w) (console w) (clock w)).

Definition deleteSpreadsheet (env : Env) (customerId : string) (terminalId : option string)
  : M unit :=
  tryCatch
    (reply <- storeCall env (deleteSnapshots (snapshotToDelete customerId terminalId)) ;;
     match reply with
     | None =>
         consoleError "Erro ao deletar planilha:" "error" ;;;
         throw "error"
     | Some _ => ret tt
     end)
    (fun error =>
       consoleError "Erro ao deletar planilha:" error ;;;
       throw error).

End SpreadsheetService.

(* ===================================================================== *)
(** * Period selection in the [CustomerSpreadsheet] component *)
(* ===================================================================== *)

Module CustomerSpreadsheet.
Import JsString.

(** The [useState] cells the selection depends on. *)
Record State : Type := mkState {
  spreadsheetData : option Sheet.SpreadsheetData;
  selectedMonth : string;
  availableMonths : list string;
  spreadsheetType : SpreadsheetType;
  availableDays : list string;
  selectedDay : string;
  description : string
}.

(** The [useRef] cells. *)
Record Refs : Type := mkRefs {
  userSelectedMonthRef : bool;
  userSelectedDayRef : bool;
  isInitialLoadRef : bool;
  lockSelectionRef : bool;
  lastSelectedDayRef : string;
  lastSelectedMonthRef : string;
  hasUserInteractedRef : bool;
  monthsLoadedRef : bool;
  daysLoadedRef : bool
}.

(** One mounted view: its props, its state and its refs. *)
Record View : Type := mkView {
  customerId : string;
  terminalId : option string;
  state : State;
  refs : Refs
}.

Definition initialState : State := mkState None "" [] monthly [] "" "".
Definition initialRefs : Refs := mkRefs false false true false "" "" false false false.
Definition mount (customerId : string) (terminalId : option string) : View :=
  mkView customerId terminalId initialState initialRefs.

Definition withState (f : State -> State) (v : View) : View :=
  mkView (customerId v) (terminalId v) (f (state v)) (refs v).

Definition withRefs (f : Refs -> Refs) (v : View) : View :=
  mkView (customerId v) (terminalId v) (state v) (f (refs v)).

Definition setSpreadsheetData (d : option Sheet.SpreadsheetData) : View -> View :=
  withState (fun s => mkState d (selectedMonth s) (availableMonths s) (spreadsheetType s)
                              (availableDays s) (selectedDay s) (description s)).

Definition setDescription (x : string) : View -> View :=
  withState (fun s => mkState (spreadsheetData s) (selectedMonth s) (availableMonths s)
                              (spreadsheetType s) (availableDays s) (selectedDay s) x).

Definition setSelectedMonth (m : string) : View -> View :=
  withState (fun s => mkState (spreadsheetData s) m (availableMonths s) (spreadsheetType s)
                              (availableDays s) (selectedDay s) (description s)).

Definition setAvailableMonths (l : list string) : View -> View :=
  withState (fun s => mkState (spreadsheetData s) (selectedMonth s) l (spreadsheetType s)
                              (availableDays s) (selectedDay s) (description s)).

Definition setSpreadsheetType (t : SpreadsheetType) : View -> View :=
  withState (fun s => mkState (spreadsheetData s) (selectedMonth s) (availableMonths s) t
                              (availableDays s) (selectedDay s) (description s)).

Definition setAvailableDays (l : list string) : View -> View :=
  withState (fun s => mkState (spreadsheetData s) (selectedMonth s) (availableMonths s)
                              (spreadsheetType s) l (selectedDay s) (description s)).

Definition setSelectedDay (d : string) : View -> View :=
  withState (fun s => mkState (spreadsheetData s) (selectedMonth s) (availableMonths s)
                              (spreadsheetType s) (availableDays s) d (description s)).

Definition setUserSelectedMonthRef (b : bool) : View -> View :=
  withRefs (fun r => mkRefs b (userSelectedDayRef r) (isInitialLoadRef r) (lockSelectionRef r)
                            (lastSelectedDayRef r) (lastSelectedMonthRef r)
                            (hasUserInteractedRef r) (monthsLoadedRef r) (daysLoadedRef r)).

Definition setUserSelectedDayRef (b : bool) : View -> View :=
  withRefs (fun r => mkRefs (userSelectedMonthRef r) b (isInitialLoadRef r) (lockSelectionRef r)
                            (lastSelectedDayRef r) (lastSelectedMonthRef r)
                            (hasUserInteractedRef r) (monthsLoadedRef r) (daysLoadedRef r)).

Definition setIsInitialLoadRef (b : bool) : View -> View :=
  withRefs (fun r => mkRefs (userSelectedMonthRef r) (userSelectedDayRef r) b (lockSelectionRef r)
                            (lastSelectedDayRef r) (lastSelectedMonthRef r)
                            (hasUserInteractedRef r) (monthsLoadedRef r) (daysLoadedRef r)).

Definition setLockSelectionRef (b : bool) : View -> View :=
  withRefs (fun r => mkRefs (userSelectedMonthRef r) (userSelectedDayRef r) (isInitialLoadRef r) b
                            (lastSelectedDayRef r) (lastSelectedMonthRef r)
                            (hasUserInteractedRef r) (monthsLoadedRef r) (daysLoadedRef r)).

Definition setLastSelectedDayRef (x : string) : View -> View :=
  withRefs (fun r => mkRefs (userSelectedMonthRef r) (userSelectedDayRef r) (isInitialLoadRef r)
                            (lockSelectionRef r) x (lastSelectedMonthRef r)
                            (hasUserInteractedRef r) (monthsLoadedRef r) (daysLoadedRef r)).

Definition setLastSelectedMonthRef (x : string) : View -> View :=
  withRefs (fun r => mkRefs (userSelectedMonthRef r) (userSelectedDayRef r) (isInitialLoadRef r)
                            (lockSelectionRef r) (lastSelectedDayRef r) x
                            (hasUserInteractedRef r) (monthsLoadedRef r) (daysLoadedRef r)).

Definition setHasUserInteractedRef (b : bool) : View -> View :=
  withRefs (fun r => mkRefs (userSelectedMonthRef r) (userSelectedDayRef r) (isInitialLoadRef r)
                            (lockSelectionRef r) (lastSelectedDayRef r) (lastSelectedMonthRef r)
                            b (monthsLoadedRef r) (daysLoadedRef r)).

Definition setMonthsLoadedRef (b : bool) : View -> View :=
  withRefs (fun r => mkRefs (userSelectedMonthRef r) (userSelectedDayRef r) (isInitialLoadRef r)
                            (lockSelectionRef r) (lastSelectedDayRef r) (lastSelectedMonthRef r)
                            (hasUserInteractedRef r) b (daysLoadedRef r)).

Definition setDaysLoadedRef (b : bool) : View -> View :=
  withRefs (fun r => mkRefs (userSelectedMonthRef r) (userSelectedDayRef r) (isInitialLoadRef r)
                            (lockSelectionRef r) (lastSelectedDayRef r) (lastSelectedMonthRef r)
                            (hasUserInteractedRef r) (monthsLoadedRef r) b).

(** Reading a ref, [x.current]. *)
Definition current (f : Refs -> bool) (v : View) : bool := f (refs v).

(** [updateSpreadsheetData] *)
Definition updateSpreadsheetData (d : option Sheet.SpreadsheetData) (v : View) : View :=
  let v := setSpreadsheetData d v in
  match d with
  | Some x =>
      match Sheet.description x with
      | Some t => if t =? "" then setDescription "" v else setDescription t v
      | None => setDescription "" v
      end
  | None => setDescription "" v
  end.

(** [l.sort((a, b) => a.localeCompare(b))] on period keys, which are digits
    and dashes.  The sort is in place: after it the array itself is in
    ascending order. *)
Definition sortAscending (l : list string) : list string := sortBy String.leb l.

Definition joined (l : list string) : string := String.concat "," l.

(** Truthiness of a string. *)
Definition nonEmpty (s : string) : bool := negb (s =? "").

Definition refDate (d : option Sheet.SpreadsheetData) : option string :=
  match d with
  | Some x => Sheet.referenceDate x
  | None => None
  end.

(** [spreadsheetData && spreadsheetData.referenceDate === day] *)
Definition loadedFor (d : option Sheet.SpreadsheetData) (day : string) : bool :=
  match refDate d with
  | Some x => x =? day
  | None => false
  end.

(** ** The months effect, keyed on type, customer and terminal.

    Each effect is split at its [await]: the part before it chooses a
    continuation, the continuation runs when the reply arrives.  A
    continuation sees the state of the render that created it ([seen]) and
    reads and writes the refs and the state setters of the live view. *)

Inductive MonthsTask : Type := LoadMonthsOnly | LoadMonths | NoMonthsTask.

Definition monthsEffect (v : View) : MonthsTask :=
  if current hasUserInteractedRef v then LoadMonthsOnly
  else if current lockSelectionRef v then NoMonthsTask
  else LoadMonths.

Definition loadMonthsOnly (seen : State) (months : list string) (v : View) : View :=
  let months := sortAscending months in
  let monthsString := joined months in
  let currentMonthsString := joined (sortAscending (availableMonths seen)) in
  if negb (monthsString =? currentMonthsString) then setAvailableMonths months v else v.

(** The automatic choice, shared by the two branches of [loadMonths]. *)
Definition selectFirstMonth (seen : State) (months : list string) (v : View) : View :=
  match months with
  | first :: _ =>
      if negb (current lockSelectionRef v) && negb (current hasUserInteractedRef v) then
        if negb (nonEmpty (selectedMonth seen)) && current isInitialLoadRef v then
          setIsInitialLoadRef false (setLastSelectedMonthRef first (setSelectedMonth first v))
        else v
      else v
  | [] => v
  end.

Definition loadMonths (seen : State) (months : list string) (v : View) : View :=
  let v := setMonthsLoadedRef true v in
  let months := sortAscending months in
  let monthsString := joined months in
  let currentMonthsString := joined (sortAscending (availableMonths seen)) in
  let v := if negb (monthsString =? currentMonthsString)
           then setAvailableMonths months v else v in
  match spreadsheetType seen with
  | monthly =>
      let v :=
        if negb (current lockSelectionRef v) && negb (current hasUserInteractedRef v) then
          let v := setAvailableDays [] v in
          if negb (current userSelectedDayRef v) then setSelectedDay "" v else v
        else v in
      selectFirstMonth seen months v
  | daily => selectFirstMonth seen months v
  end.

(** ** The days effect, keyed on the selected month as well. *)

Definition refreshDays (seen : State) (days : list string) (v : View) : View :=
  let days := sortAscending days in
  let daysString := joined days in
  let currentDaysString := joined (sortAscending (availableDays seen)) in
  if negb (daysString =? currentDaysString) then setAvailableDays days v else v.

Definition wantsDays (seen : State) : bool :=
  SpreadsheetType_eqb (spreadsheetType seen) daily && nonEmpty (selectedMonth seen).

Definition loadDaysOnly (seen : State) (days : list string) (v : View) : View :=
  if wantsDays seen then refreshDays seen days v else v.

Definition loadDays (seen : State) (isMounted : bool) (days : list string) (v : View) : View :=
  if wantsDays seen then
    let v := setDaysLoadedRef true v in
    if negb isMounted then v
    else if current lockSelectionRef v || current hasUserInteractedRef v
         then refreshDays seen days v
    else refreshDays seen days v
  else if SpreadsheetType_eqb (spreadsheetType seen) daily then
    if isMounted && negb (current lockSelectionRef v) && negb (current hasUserInteractedRef v)
    then setAvailableDays [] v else v
  else v.

(** ** The two snapshot effects. *)

Definition loadMonthlySpreadsheet (seen : State) (data : option Sheet.SpreadsheetData)
           (v : View) : View :=
  match spreadsheetType seen with
  | monthly =>
      if nonEmpty (selectedMonth seen) then updateSpreadsheetData data v
      else updateSpreadsheetData None v
  | daily => v
  end.

(** The branch of the daily effect after a manual choice, with its inner
    [loadOnce]. *)
Definition dailyAfterChoice (seen : State) (data : option Sheet.SpreadsheetData)
           (lastSelectedDayAtStart : string) (v : View) : View :=
  if nonEmpty (selectedDay seen) && loadedFor (spreadsheetData seen) (selectedDay seen) then v
  else if nonEmpty (selectedDay seen) && (selectedDay seen =? lastSelectedDayAtStart) then
    if loadedFor data (selectedDay seen)
       && (selectedDay seen =? lastSelectedDayRef (refs v))
    then updateSpreadsheetData data v else v
  else v.

Definition loadDailySpreadsheet (seen : State) (isMounted : bool)
           (data : option Sheet.SpreadsheetData) (v : View) : View :=
  let currentSelectedDay := selectedDay seen in
  match spreadsheetType seen with
  | daily =>
      if nonEmpty currentSelectedDay then
        if loadedFor (spreadsheetData seen) currentSelectedDay then v
        else if negb isMounted then v
        else if current lockSelectionRef v && current userSelectedDayRef v
                && negb (selectedDay seen =? lastSelectedDayRef (refs v))
                && nonEmpty (lastSelectedDayRef (refs v)) then v
        else if negb (selectedDay seen =? currentSelectedDay) then v
        else
          match data with
          | Some _ =>
              if loadedFor data currentSelectedDay then setSpreadsheetData data v else v
          | None =>
              if negb (current lockSelectionRef v) || negb (current userSelectedDayRef v)
              then updateSpreadsheetData None v else v
          end
      else
        if isMounted && negb (nonEmpty (selectedDay seen))
           && (negb (current lockSelectionRef v) || negb (current userSelectedDayRef v))
        then updateSpreadsheetData None v else v
  | monthly => v
  end.

(** ** Replies of the background refresh: a continuation of one of the
    four effects, with the state its closure saw and the data fetched. *)
Inductive Refresh : Type :=
| MonthsOnlyReply (seen : State) (months : list string)
| MonthsReply (seen : State) (months : list string)
| DaysOnlyReply (seen : State) (days : list string)
| DaysReply (seen : State) (isMounted : bool) (days : list string)
| MonthlySheetReply (seen : State) (data : option Sheet.SpreadsheetData)
| DailyChoiceReply (seen : State) (lastSelectedDayAtStart : string)
                   (data : option Sheet.SpreadsheetData)
| DailySheetReply (seen : State) (isMounted : bool) (data : option Sheet.SpreadsheetData).

Definition refresh (v : View) (r : Refresh) : View :=
  match r with
  | MonthsOnlyReply seen months => loadMonthsOnly seen months v
  | MonthsReply seen months => loadMonths seen months v
  | DaysOnlyReply seen days => loadDaysOnly seen days v
  | DaysReply seen isMounted days => loadDays seen isMounted days v
  | MonthlySheetReply seen data => loadMonthlySpreadsheet seen data v
  | DailyChoiceReply seen last data => dailyAfterChoice seen data last v
  | DailySheetReply seen isMounted data => loadDailySpreadsheet seen isMounted data v
  end.

Definition refreshAll (v : View) (rs : list Refresh) : View := fold_left refresh rs v.

(** The months effect run to its end on the current render. *)
Definition runMonthsEffect (months : list string) (v : View) : View :=
  match monthsEffect v with
  | LoadMonthsOnly => loadMonthsOnly (state v) months v
  | LoadMonths => loadMonths (state v) months v
  | NoMonthsTask => v
  end.

(** One refresh cycle on the current render: the months list, the days
    list, then the snapshot of the selected period. *)
Definition runDaysEffect (days : list string) (v : View) : View :=
  if current hasUserInteractedRef v then loadDaysOnly (state v) days v
  else if current lockSelectionRef v then v
  else loadDays (state v) true days v.

Definition runDailyEffect (data : option Sheet.SpreadsheetData) (v : View) : View :=
  if current hasUserInteractedRef v && current userSelectedDayRef v
  then dailyAfterChoice (state v) data (lastSelectedDayRef (refs v)) v
  else if current lockSelectionRef v && current userSelectedDayRef v then v
  else loadDailySpreadsheet (state v) true data v.

Definition refreshCycle (months days : list string) (data : option Sheet.SpreadsheetData)
           (v : View) : View :=
  let v := runMonthsEffect months v in
  let v := runDaysEffect days v in
  let v := loadMonthlySpreadsheet (state v) data v in
  runDailyEffect data v.

(** ** What the operator does. *)

Definition markInteraction (v : View) : View :=
  setLockSelectionRef true (setHasUserInteractedRef true v).

Inductive UserAction : Type :=
| ChooseMonth (monthValue : string) (data : option Sheet.SpreadsheetData)
| ChooseDay (dayValue : string) (data : option Sheet.SpreadsheetData)
| ClickDay (day : string) (data : option Sheet.SpreadsheetData).

(** The two month selectors. *)
Definition chooseMonth (monthValue : string) (data : option Sheet.SpreadsheetData)
           (v : View) : View :=
  let shownType := spreadsheetType (state v) in
  let v := markInteraction v in
  let v := setUserSelectedMonthRef true v in
  let v := setLastSelectedMonthRef monthValue v in
  let v := setSelectedMonth monthValue v in
  match shownType with
  | monthly =>
      if nonEmpty monthValue then setSpreadsheetData data v
      else updateSpreadsheetData None v
  | daily =>
      if negb (current userSelectedDayRef v)
      then setLastSelectedDayRef "" (setSelectedDay "" v) else v
  end.

(** The day selector. *)
Definition chooseDay (dayValue : string) (data : option Sheet.SpreadsheetData)
           (v : View) : View :=
  let v := markInteraction v in
  let v := setUserSelectedDayRef true v in
  let v := setLastSelectedDayRef dayValue v in
  let v := setSelectedDay dayValue v in
  if nonEmpty dayValue then setSpreadsheetData data v
  else updateSpreadsheetData None v.

(** A button of the grid of days. *)
Definition clickDay (day : string) (data : option Sheet.SpreadsheetData) (v : View) : View :=
  let v := markInteraction v in
  let v := setUserSelectedDayRef true v in
  let v := setLastSelectedDayRef day v in
  let v := setSelectedDay day v in
  updateSpreadsheetData data v.

Definition act (a : UserAction) (v : View) : View :=
  match a with
  | ChooseMonth monthValue data => chooseMonth monthValue data v
  | ChooseDay dayValue data => chooseDay dayValue data v
  | ClickDay day data => clickDay day data v
  end.

(** The type selector. *)
Definition changeType (t : SpreadsheetType) (v : View) : View :=
  setSelectedDay "" (setSelectedMonth "" (setSpreadsheetType t v)).

(** New props from the parent: another customer or terminal. *)
Definition changeContext (customerId : string) (terminalId : option string) (v : View)
  : View :=
  mkView customerId terminalId (state v) (refs v).

End CustomerSpreadsheet.

(* ********************************************************************* *)
(** * Properties *)
(* ********************************************************************* *)

(* ===================================================================== *)
(** ** Column mapper *)
(* ===================================================================== *)

Module ColumnMapperProps.
Import JsString ColumnMapper.

Lemma findIndexFrom_bound {A : Type} (p : A -> bool) (l : list A) :
  forall i k, findIndexFrom p l i = Some k -> (i <= k < i + List.length l)%nat.
Proof.
  induction l as [|x r IH]; intros i k H; simpl in H.
  - discriminate.
  - destruct (p x).
    + inversion H; subst. simpl. lia.
    + apply IH in H. simpl. lia.
Qed.

Lemma findIndex_bound {A : Type} (p : A -> bool) (l : list A) (k : nat) :
  findIndex p l = Some k -> (k < List.length l)%nat.
Proof.
  intros H. apply findIndexFrom_bound in H. lia.
Qed.

Lemma findByMapping_bound (entries : list (string * string)) (headers : list string)
      (fieldName : string) (k : nat) :
  findByMapping entries headers fieldName = Some k -> (k < List.length headers)%nat.
Proof.
  induction entries as [|[key mapped] rest IH]; simpl; intros H.
  - discriminate.
  - destruct (mapped =? fieldName); [|auto].
    destruct (findIndex _ headers) eqn:E; [|auto].
    inversion H; subst. eapply findIndex_bound; eauto.
Qed.

(** The resolver is total, and an index it returns is the position of a
    header. *)
Lemma findColumnIndex_in_range (headers : list string) (fieldName : string) (k : nat) :
  findColumnIndex headers fieldName = Some k -> (k < List.length headers)%nat.
Proof.
  unfold findColumnIndex, findBySimilarity. intros H.
  destruct (findIndex _ headers) eqn:E1.
  - inversion H; subst. eapply findIndex_bound; eauto.
  - destruct (findByMapping FIELD_MAPPINGS headers fieldName) eqn:E2.
    + inversion H; subst. eapply findByMapping_bound; eauto.
    + eapply findIndex_bound; eauto.
Qed.

(** The resolutions listed among the testable properties. *)
Example resolve_dataVenda :
  findColumnIndex ["Data da Venda"; "Valor Bruto"; "Bandeira"] "dataVenda" = Some 0%nat.
Proof. reflexivity. Qed.

Example resolve_valorBruto :
  findColumnIndex ["Data da Venda"; "Valor Bruto"; "Bandeira"] "valorBruto" = Some 1%nat.
Proof. reflexivity. Qed.

Example resolve_nothing :
  findColumnIndex ["Data da Venda"; "Valor Bruto"; "Bandeira"] "cpfCnpj" = None.
Proof. reflexivity. Qed.

(** C8, on the code.  The header is normalised before the comparisons of
    steps 1 and 2, the field name and the synonym keys are not.  So a
    synonym written with an accent is never equal to a header: the header
    [Horário] is not resolved to [horaVenda] although the table maps
    [horário] to it; and a header that is the field name itself
    ([dataVenda]) loses against an earlier header matched by a synonym. *)
Theorem findColumnIndex_one_sided_normalisation :
  In ("horário", "horaVenda") FIELD_MAPPINGS
  /\ normalizeColumnName "Horário" = "horario"
  /\ findColumnIndex ["Horário"] "horaVenda" = None
  /\ findColumnIndex ["Data"; "dataVenda"] "dataVenda" = Some 0%nat.
Proof.
  repeat split; try reflexivity.
  unfold FIELD_MAPPINGS. simpl. do 10 right. left. reflexivity.
Qed.

End ColumnMapperProps.

(* ===================================================================== *)
(** ** Locale numeric parser *)
(* ===================================================================== *)

Module NumericParserProps.
Import JsString JsNumber NumericParser SalesNormalizer.

Example parse_brazilian : parseValorBrasileiro "1.234,56" = 1234.56%Q.
Proof. reflexivity. Qed.

Example parse_plain : parseValorBrasileiro "1234.56" = 1234.56%Q.
Proof. reflexivity. Qed.

Example parse_currency : parseValorBrasileiro "R$ 51.242,29" = 51242.29%Q.
Proof. reflexivity. Qed.

Example parse_empty : parseValorBrasileiro "" = 0%Q.
Proof. reflexivity. Qed.

Example parse_words : parseValorBrasileiro "sem valor" = 0%Q.
Proof. reflexivity. Qed.

(** C5, on the code.  The parser of the component reads [1.234,56] as
    1234.56; the normalizer parses the same cell on its own, replacing the
    first comma and keeping the dots, and reads 1.234. *)
Theorem normalizer_keeps_thousands_dots :
  parseValorBrasileiro "1.234,56" = 1234.56%Q
  /\ valorBruto (parseRow ["Valor Bruto"] None [("Valor Bruto", CStr "1.234,56")])
     = 1.234%Q.
Proof. split; reflexivity. Qed.

End NumericParserProps.

(* ===================================================================== *)
(** ** Locale numeric parser: the three supported forms *)
(* ===================================================================== *)

Module NumericParserForms.
Import JsString JsNumber NumericParser.

(** Every character of a string satisfies a predicate. *)
Fixpoint allOf (p : ascii -> bool) (s : string) : bool :=
  match s with
  | EmptyString => true
  | String c r => p c && allOf p r
  end.

Definition digitOrDot (c : ascii) : bool := isDigit c || isByte 46 c.
Definition notDot (c : ascii) : bool := negb (isByte 46 c).
Definition notDigit (c : ascii) : bool := negb (isDigit c).

(** *** Characters *)

Lemma digit_code (c : ascii) : isDigit c = true -> (48 <= code c <= 57)%nat.
Proof.
  unfold isDigit, between. intros H. apply andb_true_iff in H.
  destruct H as [H1 H2]. apply Nat.leb_le in H1, H2. lia.
Qed.

Lemma digit_not_byte (n : nat) (c : ascii) :
  (n < 48 \/ 57 < n)%nat -> isDigit c = true -> isByte n c = false.
Proof.
  intros Hn Hc. apply digit_code in Hc. unfold isByte. apply Nat.eqb_neq. lia.
Qed.

Lemma digit_not_space (c : ascii) : isDigit c = true -> isSpace c = false.
Proof.
  intros Hc. unfold isSpace. rewrite (digit_not_byte 32 c) by (auto; lia).
  apply digit_code in Hc. unfold between. cbn [orb].
  apply andb_false_iff. right. apply Nat.leb_gt. lia.
Qed.

Lemma digit_numeric (c : ascii) : isDigit c = true -> numericChar c = true.
Proof. intros H. unfold numericChar. now rewrite H. Qed.

Lemma isByte_eqb (n : nat) (c : ascii) :
  (n < 256)%nat -> isByte n c = Ascii.eqb c (ascii_of_nat n).
Proof.
  intros Hn. unfold isByte, code.
  destruct (Ascii.eqb_spec c (ascii_of_nat n)) as [->|N].
  - rewrite nat_ascii_embedding by exact Hn. apply Nat.eqb_refl.
  - apply Nat.eqb_neq. intros E. apply N. rewrite <- E. symmetry. apply ascii_nat_embedding.
Qed.

(** *** Strings *)

Lemma allOf_app (p : ascii -> bool) (a b : string) :
  allOf p (a ++ b) = allOf p a && allOf p b.
Proof.
  induction a as [|c r IH]; cbn; [reflexivity|]. now rewrite IH, andb_assoc.
Qed.

Lemma allOf_weaken (p q : ascii -> bool) (s : string) :
  (forall c, p c = true -> q c = true) -> allOf p s = true -> allOf q s = true.
Proof.
  intros H. induction s as [|c r IH]; cbn; [reflexivity|].
  intros Hs. apply andb_true_iff in Hs. destruct Hs as [H1 H2].
  now rewrite (H c H1), IH.
Qed.

Lemma keepChars_all (p : ascii -> bool) (s : string) :
  allOf p s = true -> keepChars p s = s.
Proof.
  induction s as [|c r IH]; cbn; [reflexivity|].
  intros H. apply andb_true_iff in H. destruct H as [H1 H2].
  now rewrite H1, IH.
Qed.

Lemma keepChars_app (p : ascii -> bool) (a b : string) :
  keepChars p (a ++ b) = (keepChars p a ++ keepChars p b)%string.
Proof.
  induction a as [|c r IH]; cbn; [reflexivity|].
  destruct (p c); cbn; now rewrite IH.
Qed.

Lemma allOf_keepChars (p : ascii -> bool) (s : string) : allOf p (keepChars p s) = true.
Proof.
  induction s as [|c r IH]; cbn; [reflexivity|].
  destruct (p c) eqn:E; cbn; [now rewrite E|exact IH].
Qed.

Lemma keepChars_notDot_digits (s : string) :
  allOf digitOrDot s = true -> keepChars notDot s = keepChars isDigit s.
Proof.
  induction s as [|c r IH]; cbn; [reflexivity|].
  intros H. apply andb_true_iff in H. destruct H as [H1 H2].
  rewrite (IH H2). unfold notDot, digitOrDot in *.
  destruct (isDigit c) eqn:D.
  - now rewrite (digit_not_byte 46 c) by (auto; lia).
  - cbn in H1. now rewrite H1.
Qed.

Lemma prefix_one (c : ascii) (r : string) : prefix (String c "") (String c r) = true.
Proof. cbn. destruct (ascii_dec c c); [now destruct r | contradiction]. Qed.

Lemma includes_middle (c : ascii) (a b : string) :
  includes (a ++ String c b) (String c "") = true.
Proof.
  induction a as [|x r IH].
  - cbn [append includes]. now rewrite prefix_one.
  - cbn [append includes]. rewrite IH. apply orb_true_r.
Qed.

Lemma includes_absent (c : ascii) (s : string) :
  allOf (fun x => negb (Ascii.eqb x c)) s = true -> includes s (String c "") = false.
Proof.
  induction s as [|x r IH]; cbn [allOf includes]; [reflexivity|].
  intros H. apply andb_true_iff in H. destruct H as [H1 H2].
  rewrite (IH H2), orb_false_r. cbn.
  destruct (ascii_dec c x) as [->|N]; [|reflexivity].
  now rewrite Ascii.eqb_refl in H1.
Qed.

Lemma append_not_empty (a : string) (c : ascii) (b : string) :
  ((a ++ String c b) =? "")%string = false.
Proof. now destruct a. Qed.

Lemma replaceFirst_after_digits (d fp : string) :
  allOf isDigit d = true ->
  replaceFirst ","%char "." (d ++ String ","%char fp) = (d ++ String "."%char fp)%string.
Proof.
  induction d as [|x r IH]; cbn [append replaceFirst allOf]; [reflexivity|].
  intros H. apply andb_true_iff in H. destruct H as [H1 H2].
  change ","%char with (ascii_of_nat 44) at 1.
  rewrite <- (isByte_eqb 44 x) by lia.
  rewrite (digit_not_byte 44 x) by (auto; lia). now rewrite IH.
Qed.

Lemma takeDigits_all (s : string) :
  allOf isDigit s = true -> takeDigits s = (s, EmptyString).
Proof.
  induction s as [|c r IH]; cbn; [reflexivity|].
  intros H. apply andb_true_iff in H. destruct H as [H1 H2].
  now rewrite H1, (IH H2).
Qed.

Lemma takeDigits_until (d : string) (c : ascii) (r : string) :
  allOf isDigit d = true -> isDigit c = false ->
  takeDigits (d ++ String c r) = (d, String c r).
Proof.
  intros Hd Hc. induction d as [|x t IH]; cbn [append takeDigits].
  - now rewrite Hc.
  - cbn in Hd. apply andb_true_iff in Hd. destruct Hd as [H1 H2].
    now rewrite H1, (IH H2).
Qed.

(** *** [parseFloat] on the three forms *)

Lemma trimStart_digits_first (d : string) (c : ascii) (r : string) :
  allOf isDigit d = true -> isSpace c = false ->
  trimStart (d ++ String c r) = (d ++ String c r)%string.
Proof.
  intros Hd Hc. destruct d as [|x t]; cbn [append trimStart].
  - now rewrite Hc.
  - cbn in Hd. apply andb_true_iff in Hd. destruct Hd as [H1 _].
    now rewrite (digit_not_space x H1).
Qed.

Lemma takeSign_digits_first (d : string) (c : ascii) (r : string) :
  allOf isDigit d = true -> isByte 45 c = false -> isByte 43 c = false ->
  takeSign (d ++ String c r) = (false, (d ++ String c r)%string).
Proof.
  intros Hd H1 H2. destruct d as [|x t]; cbn [append takeSign].
  - now rewrite H1, H2.
  - cbn in Hd. apply andb_true_iff in Hd. destruct Hd as [Hx _].
    now rewrite !(digit_not_byte _ x) by (auto; lia).
Qed.

Lemma parseFloat_decimal (ip fp : string) :
  allOf isDigit ip = true -> allOf isDigit fp = true ->
  orZero (parseFloat (ip ++ String "."%char fp)) = decimal ip fp.
Proof.
  intros Hi Hf. unfold parseFloat, decimalLiteral.
  rewrite trimStart_digits_first, takeSign_digits_first by (auto; reflexivity).
  rewrite (takeDigits_until ip "."%char fp Hi eq_refl).
  cbn [takeFraction]. change (isByte 46 ".") with true. cbv iota.
  rewrite (takeDigits_all fp Hf).
  destruct ((ip =? "") && (fp =? ""))%string eqn:E.
  - apply andb_true_iff in E. destruct E as [E1 E2].
    apply String.eqb_eq in E1, E2. subst. reflexivity.
  - reflexivity.
Qed.

Lemma parseFloat_integer (ip : string) :
  allOf isDigit ip = true -> orZero (parseFloat ip) = decimal ip "".
Proof.
  intros Hi. unfold parseFloat, decimalLiteral.
  destruct ip as [|x t]; [reflexivity|].
  assert (Hx : isDigit x = true) by (cbn in Hi; apply andb_true_iff in Hi; apply Hi).
  cbn [trimStart]. rewrite (digit_not_space x Hx).
  cbn [takeSign]. rewrite !(digit_not_byte _ x) by (auto; lia).
  rewrite (takeDigits_all _ Hi). reflexivity.
Qed.

Lemma takeDigits_none (s : string) :
  allOf notDigit s = true -> takeDigits s = (EmptyString, s).
Proof.
  destruct s as [|c r]; cbn; [reflexivity|].
  intros H. apply andb_true_iff in H. destruct H as [H1 _].
  unfold notDigit in H1. apply negb_true_iff in H1. now rewrite H1.
Qed.

Lemma allOf_tail (p : ascii -> bool) (c : ascii) (r : string) :
  allOf p (String c r) = true -> allOf p r = true.
Proof. cbn. intros H. apply andb_true_iff in H. apply H. Qed.

Lemma allOf_trimStart (p : ascii -> bool) (s : string) :
  allOf p s = true -> allOf p (trimStart s) = true.
Proof.
  induction s as [|c r IH]; cbn [trimStart]; [reflexivity|].
  intros H. destruct (isSpace c); [apply IH, (allOf_tail p c r H) | exact H].
Qed.

Lemma allOf_kept (p q : ascii -> bool) (s : string) :
  allOf p s = true -> allOf p (keepChars q s) = true.
Proof.
  induction s as [|c r IH]; cbn; [reflexivity|].
  intros H. apply andb_true_iff in H. destruct H as [H1 H2].
  destruct (q c); cbn; [now rewrite H1, IH | now apply IH].
Qed.

Lemma allOf_replaceFirst (p : ascii -> bool) (s : string) :
  p "."%char = true -> allOf p s = true -> allOf p (replaceFirst ","%char "." s) = true.
Proof.
  intros Hp. induction s as [|c r IH]; cbn [replaceFirst allOf]; [reflexivity|].
  intros H. apply andb_true_iff in H. destruct H as [H1 H2].
  destruct (Ascii.eqb c ","); cbn; [now rewrite Hp, H2 | now rewrite H1, IH].
Qed.

Lemma parseFloat_no_digit (s : string) :
  allOf notDigit s = true -> parseFloat s = None.
Proof.
  intros H. apply (allOf_trimStart notDigit) in H.
  unfold parseFloat, decimalLiteral.
  assert (Hs : allOf notDigit (snd (takeSign (trimStart s))) = true).
  { destruct (trimStart s) as [|c r]; [reflexivity|]. cbn [takeSign].
    destruct (isByte 45 c); [apply (allOf_tail _ c r H)|].
    destruct (isByte 43 c); [apply (allOf_tail _ c r H) | exact H]. }
  destruct (takeSign (trimStart s)) as [neg s1]. cbn [snd] in Hs.
  rewrite (takeDigits_none s1 Hs).
  assert (Hf : fst (takeFraction s1) = EmptyString).
  { destruct s1 as [|c r]; [reflexivity|]. cbn [takeFraction].
    destruct (isByte 46 c); [|reflexivity].
    now rewrite (takeDigits_none r (allOf_tail _ c r Hs)). }
  destruct (takeFraction s1) as [fp s3]. cbn [fst] in Hf. subst fp. reflexivity.
Qed.

(** *** The parser of the component *)

Lemma digits_are_numeric (s : string) :
  allOf isDigit s = true -> allOf numericChar s = true.
Proof. apply allOf_weaken, digit_numeric. Qed.

Lemma digits_have_no_comma (s : string) :
  allOf isDigit s = true -> allOf (fun x => negb (Ascii.eqb x ","%char)) s = true.
Proof.
  apply allOf_weaken. intros c H.
  change ","%char with (ascii_of_nat 44).
  rewrite <- (isByte_eqb 44 c) by lia.
  now rewrite (digit_not_byte 44 c) by (auto; lia).
Qed.

(** X1.  Brazilian form: an integer part of digits and thousands dots, a
    comma, decimals.  The value is the number written by the digits of
    the integer part, a decimal point, and the decimals. *)
Theorem parseValorBrasileiro_brazilian (ip fp : string) :
  allOf digitOrDot ip = true -> allOf isDigit fp = true ->
  parseValorBrasileiro (ip ++ String ","%char fp) = decimal (keepChars isDigit ip) fp.
Proof.
  intros Hi Hf. unfold parseValorBrasileiro.
  rewrite append_not_empty.
  assert (Hn : allOf numericChar (ip ++ String ","%char fp) = true).
  { rewrite allOf_app. apply andb_true_iff. split.
    - apply (allOf_weaken digitOrDot); [|exact Hi].
      intros c Hc. unfold digitOrDot, numericChar in *.
      apply orb_true_iff in Hc. destruct Hc as [-> | ->]; [reflexivity|].
      now rewrite !orb_true_r.
    - cbn [allOf]. now rewrite (digits_are_numeric fp Hf). }
  rewrite (keepChars_all _ _ Hn), includes_middle. cbn [negb].
  rewrite keepChars_app. cbn [keepChars].
  change (negb (isByte 46 ",")) with true. cbv iota.
  change (fun c : ascii => negb (isByte 46 c)) with notDot.
  rewrite (keepChars_notDot_digits ip Hi).
  rewrite (keepChars_all notDot fp).
  - rewrite replaceFirst_after_digits by apply allOf_keepChars.
    apply parseFloat_decimal; [apply allOf_keepChars | exact Hf].
  - apply (allOf_weaken isDigit); [|exact Hf].
    intros c Hc. unfold notDot. now rewrite (digit_not_byte 46 c) by (auto; lia).
Qed.

Lemma parseValorBrasileiro_brazilian_witness :
  parseValorBrasileiro "1.234,56" = decimal "1234" "56".
Proof.
  apply (parseValorBrasileiro_brazilian "1.234" "56"); reflexivity.
Defined.

(** Plain form: digits, a dot, decimals. *)
Theorem parseValorBrasileiro_plain (ip fp : string) :
  allOf isDigit ip = true -> allOf isDigit fp = true ->
  parseValorBrasileiro (ip ++ String "."%char fp) = decimal ip fp.
Proof.
  intros Hi Hf. unfold parseValorBrasileiro.
  rewrite append_not_empty.
  assert (Hn : allOf numericChar (ip ++ String "."%char fp) = true).
  { rewrite allOf_app, (digits_are_numeric ip Hi). cbn [allOf andb].
    now rewrite (digits_are_numeric fp Hf). }
  rewrite (keepChars_all _ _ Hn).
  rewrite (includes_absent ","%char).
  - cbn [negb]. destruct (includes _ "."); apply parseFloat_decimal; assumption.
  - rewrite allOf_app, (digits_have_no_comma ip Hi). cbn [allOf andb].
    now rewrite (digits_have_no_comma fp Hf).
Qed.

(** Integer form. *)
Theorem parseValorBrasileiro_integer (ip : string) :
  allOf isDigit ip = true -> parseValorBrasileiro ip = decimal ip "".
Proof.
  intros Hi. unfold parseValorBrasileiro.
  destruct (ip =? "")%string eqn:E.
  - apply String.eqb_eq in E. subst. reflexivity.
  - rewrite (keepChars_all _ _ (digits_are_numeric ip Hi)).
    rewrite (includes_absent ","%char ip (digits_have_no_comma ip Hi)).
    cbn [negb]. destruct (includes _ "."); apply parseFloat_integer; assumption.
Qed.

(** X2.  Input without a digit, the empty string included, is 0. *)
Theorem parseValorBrasileiro_no_digit (s : string) :
  allOf notDigit s = true -> parseValorBrasileiro s = 0%Q.
Proof.
  intros H. unfold parseValorBrasileiro.
  destruct (s =? "")%string; [reflexivity|].
  pose proof (allOf_kept notDigit numericChar s H) as H1.
  destruct (negb (includes (keepChars numericChar s) ",")).
  - destruct (includes _ "."); now rewrite (parseFloat_no_digit _ H1).
  - rewrite parseFloat_no_digit; [reflexivity|].
    apply allOf_replaceFirst; [reflexivity|]. apply allOf_kept. exact H1.
Qed.

Lemma parseValorBrasileiro_no_digit_witness :
  parseValorBrasileiro "R$ -" = 0%Q.
Proof.
  apply (parseValorBrasileiro_no_digit "R$ -"). reflexivity.
Defined.

End NumericParserForms.

(* ===================================================================== *)
(** ** Metrics aggregator *)
(* ===================================================================== *)

Module MetricsProps.
Import JsString JsNumber Metrics.

(** A snapshot of a customer with the given headers and rows. *)
Definition sheetOf (headers : list string) (data : list row) : Sheet.SpreadsheetData :=
  Sheet.mkSpreadsheetData None "customer-1" None "vendas.xlsx" 0 "2024-05" None
                          (Some monthly) data headers [] None.

(** The sum of the sales-count column over all rows. *)
Definition countColumnSum (qh : option string) (data : list row) : Q :=
  fold_left (fun total r => addTo total (quantityOf (at_ qh r))) data 0.

Lemma accumulate_totalVendas (qh bh lh : option string) (data : list row) :
  forall m,
    totalVendas (fold_left (accumulateRow qh bh lh) data m)
    = fold_left (fun total r => addTo total (quantityOf (at_ qh r))) data (totalVendas m).
Proof.
  induction data as [|r rest IH]; intros m; simpl.
  - reflexivity.
  - rewrite IH. reflexivity.
Qed.


(** What the code computes for [totalVendas] once a sales-count column was
    found: the column sum, unless that sum is zero, in which case the rows
    that hold some value are counted. *)
Lemma totalVendas_with_count_column (sp : Sheet.SpreadsheetData) (customerTax : option Q)
      (h : string) :
  quantidadeHeader (Sheet.headers sp) = Some h ->
  totalVendas (calculateSpreadsheetMetrics sp customerTax)
  = if isZero (countColumnSum (Some h) (Sheet.data sp))
    then inject_Z (Z.of_nat (List.length (List.filter rowHasData (Sheet.data sp))))
    else countColumnSum (Some h) (Sheet.data sp).
Proof.
  intros Hq. unfold calculateSpreadsheetMetrics. cbn [totalVendas].
  rewrite Hq, accumulate_totalVendas. cbn [totalVendas isFound negb].
  rewrite andb_false_r. reflexivity.
Qed.

(** A sheet whose sales-count column holds one zero. *)
Definition zeroCountSheet : Sheet.SpreadsheetData :=
  sheetOf ["Quantidade de Vendas"; "Valor Bruto"]
          [[("Quantidade de Vendas", CNum 0); ("Valor Bruto", CNum 100)]].

(** C4, on the code.  The column [Quantidade de Vendas] is found and its
    sum over the rows is zero, yet [totalVendas] is 1: the last fallback
    tests the total only, not whether a column was found, and counts the
    row. *)
Theorem totalVendas_row_count_over_zero_sum :
  quantidadeHeader (Sheet.headers zeroCountSheet) = Some "Quantidade de Vendas"
  /\ countColumnSum (Some "Quantidade de Vendas") (Sheet.data zeroCountSheet) == 0
  /\ totalVendas (calculateSpreadsheetMetrics zeroCountSheet None) == 1.
Proof. repeat split. Qed.

(** The same with a column that sums to zero over two rows. *)
Example totalVendas_cancelling_rows :
  let sp := sheetOf ["Qtd Vendas"]
                    [[("Qtd Vendas", CNum 5)]; [("Qtd Vendas", CNum (-5))]] in
  totalVendas (calculateSpreadsheetMetrics sp None) == 2.
Proof. reflexivity. Qed.

(** The gross total keeps zero and negative values. *)
Example gross_total_keeps_all_values :
  let sp := sheetOf ["Valor Bruto"]
                    [[("Valor Bruto", CNum 100)]; [("Valor Bruto", CNum 0)];
                     [("Valor Bruto", CNum (-50))]; [("Valor Bruto", CNum 200)]] in
  valorBrutoTotal (calculateSpreadsheetMetrics sp None) == 250.
Proof. reflexivity. Qed.

(** *** Fee rate *)



(** The fee values the code reads from a column: in row order, the cells
    that hold a number greater than zero. *)
Definition feesRead (h : string) (data : list row) : list Q :=
  List.flat_map (fun r => match feeOf (rowGet r h) with
                          | Some t => [t]
                          | None => []
                          end) data.



Lemma feesRead_positive (h : string) (data : list row) (t : Q) :
  In t (feesRead h data) -> 0 < t.
Proof.
  unfold feesRead. rewrite in_flat_map. intros [r [_ Hin]].
  unfold feeOf in Hin.
  destruct (match rowGet r h with
            | Some (CNum q) => Some q
            | Some (CStr s) => _
            | _ => None
            end) as [x|]; [|contradiction].
  destruct (isPositive x) eqn:Hp; [|contradiction].
  destruct Hin as [<-|[]].
  unfold isPositive in Hp. apply negb_true_iff in Hp.
  destruct (Qlt_le_dec 0 x) as [Hlt|Hle]; [exact Hlt|].
  apply Qle_bool_iff in Hle. congruence.
Qed.




End MetricsProps.

(* ===================================================================== *)
(** ** Sorting *)
(* ===================================================================== *)

Lemma insertBy_perm {A : Type} (le : A -> A -> bool) (x : A) (l : list A) :
  Permutation (insertBy le x l) (x :: l).
Proof.
  induction l as [|y r IH]; simpl.
  - apply Permutation_refl.
  - destruct (le x y).
    + apply Permutation_refl.
    + eapply Permutation_trans; [apply perm_skip, IH | apply perm_swap].
Qed.

Lemma sortBy_perm {A : Type} (le : A -> A -> bool) (l : list A) :
  Permutation (sortBy le l) l.
Proof.
  induction l as [|x r IH]; simpl.
  - apply Permutation_refl.
  - eapply Permutation_trans; [apply insertBy_perm | apply perm_skip, IH].
Qed.

Lemma sortBy_In {A : Type} (le : A -> A -> bool) (l : list A) (x : A) :
  In x (sortBy le l) <-> In x l.
Proof.
  split; apply Permutation_in; [|apply Permutation_sym]; apply sortBy_perm.
Qed.

Lemma sortBy_length {A : Type} (le : A -> A -> bool) (l : list A) :
  List.length (sortBy le l) = List.length l.
Proof. apply Permutation_length, sortBy_perm. Qed.

(* ===================================================================== *)
(** ** Period selection *)
(* ===================================================================== *)

Module SelectionProps.
Import CustomerSpreadsheet.

(** The selected keys of a view. *)
Definition selection (v : View) : string * string :=
  (selectedMonth (state v), selectedDay (state v)).

Lemma updateSpreadsheetData_frame (d : option Sheet.SpreadsheetData) (v : View) :
  selection (updateSpreadsheetData d v) = selection v
  /\ refs (updateSpreadsheetData d v) = refs v.
Proof.
  unfold updateSpreadsheetData.
  destruct d as [x|]; [destruct (Sheet.description x) as [t|]; [destruct (t =? "")%string|]|];
    split; reflexivity.
Qed.

Ltac split_ifs :=
  repeat match goal with
         | |- context [if ?b then _ else _] => destruct b
         | |- context [match ?x with Some _ => _ | None => _ end] => destruct x
         end.

(** Once the operator has interacted, a reply of the background refresh
    leaves the selected month and day as they are, and the refs too
    (except the two flags that record that a list was loaded). *)
Lemma refresh_after_interaction (v : View) (r : Refresh) :
  hasUserInteractedRef (refs v) = true ->
  selection (refresh v r) = selection v
  /\ hasUserInteractedRef (refs (refresh v r)) = true.
Proof.
  intros H. destruct v as [cid tid st rf]. destruct rf. cbn in H. subst.
  destruct r; cbn [refresh].
  - unfold loadMonthsOnly. split_ifs; split; reflexivity.
  - unfold loadMonths, selectFirstMonth, current.
    destruct (negb (joined (sortAscending months)
                    =? joined (sortAscending (availableMonths seen)))%string);
      destruct (spreadsheetType seen); cbn; rewrite ?andb_false_r;
      destruct (sortAscending months); split; reflexivity.
  - unfold loadDaysOnly, refreshDays. split_ifs; split; reflexivity.
  - unfold loadDays, refreshDays, current.
    destruct (wantsDays seen); [destruct (negb isMounted)|];
      cbn; rewrite ?orb_true_r, ?andb_false_r; split_ifs; split; reflexivity.
  - unfold loadMonthlySpreadsheet.
    destruct (spreadsheetType seen); [|split; reflexivity].
    destruct (nonEmpty (selectedMonth seen));
      (split; [apply updateSpreadsheetData_frame
              | rewrite (proj2 (updateSpreadsheetData_frame _ _)); reflexivity]).
  - unfold dailyAfterChoice.
    repeat match goal with
           | |- context [if ?b then _ else _] => destruct b
           end;
      try (split; reflexivity);
      (split; [apply updateSpreadsheetData_frame
              | rewrite (proj2 (updateSpreadsheetData_frame _ _)); reflexivity]).
  - unfold loadDailySpreadsheet.
    destruct (spreadsheetType seen); [split; reflexivity|].
    repeat match goal with
           | |- context [if ?b then _ else _] => destruct b
           | |- context [match ?x with Some _ => _ | None => _ end] => destruct x
           end;
      try (split; reflexivity);
      (split; [apply updateSpreadsheetData_frame
              | rewrite (proj2 (updateSpreadsheetData_frame _ _)); reflexivity]).
Qed.

Lemma refreshAll_after_interaction (rs : list Refresh) :
  forall v,
    hasUserInteractedRef (refs v) = true ->
    selection (refreshAll v rs) = selection v.
Proof.
  induction rs as [|r rest IH]; intros v H.
  - reflexivity.
  - destruct (refresh_after_interaction v r H) as [Hs Hi].
    change (selection (refreshAll (refresh v r) rest) = selection v).
    rewrite (IH _ Hi). exact Hs.
Qed.

(** The key the operator chose. *)
Definition chosen (a : UserAction) (v : View) : Prop :=
  match a with
  | ChooseMonth monthValue _ => selectedMonth (state v) = monthValue
  | ChooseDay dayValue _ => selectedDay (state v) = dayValue
  | ClickDay day _ => selectedDay (state v) = day
  end.

Lemma act_marks_interaction (a : UserAction) (v : View) :
  hasUserInteractedRef (refs (act a v)) = true /\ chosen a (act a v).
Proof.
  destruct a as [m d|x d|x d]; cbn [act chosen].
  - unfold chooseMonth.
    destruct (spreadsheetType (state v)).
    + destruct (nonEmpty m); [split; reflexivity|].
      destruct (updateSpreadsheetData_frame None
                  (setSelectedMonth m (setLastSelectedMonthRef m
                     (setUserSelectedMonthRef true (markInteraction v))))) as [Hs Hr].
      rewrite Hr. split; [reflexivity|].
      apply (f_equal fst) in Hs. exact Hs.
    + destruct (negb _); split; reflexivity.
  - unfold chooseDay.
    destruct (nonEmpty x); [split; reflexivity|].
    destruct (updateSpreadsheetData_frame None
                (setSelectedDay x (setLastSelectedDayRef x
                   (setUserSelectedDayRef true (markInteraction v))))) as [Hs Hr].
    rewrite Hr. split; [reflexivity|].
    apply (f_equal snd) in Hs. exact Hs.
  - unfold clickDay.
    destruct (updateSpreadsheetData_frame d
                (setSelectedDay x (setLastSelectedDayRef x
                   (setUserSelectedDayRef true (markInteraction v))))) as [Hs Hr].
    rewrite Hr. split; [reflexivity|].
    apply (f_equal snd) in Hs. exact Hs.
Qed.

(** C1.  After an explicit choice of a month or a day, any sequence of
    replies of the background refresh (months list, days list, snapshot
    content; whatever state their closures saw, whatever they fetched)
    leaves the selected month and the selected day as the choice left
    them, and the chosen key is still the selected one. *)
Theorem selection_stable_after_choice (v : View) (a : UserAction) (rs : list Refresh) :
  selection (refreshAll (act a v) rs) = selection (act a v)
  /\ chosen a (refreshAll (act a v) rs).
Proof.
  destruct (act_marks_interaction a v) as [Hi Hc].
  pose proof (refreshAll_after_interaction rs (act a v) Hi) as Hs.
  split; [exact Hs|].
  unfold selection in Hs. inversion Hs as [[Hm Hd]].
  destruct a; cbn [chosen] in *; congruence.
Qed.

(** A whole refresh cycle run on the current render is such a sequence. *)
Lemma refreshCycle_after_interaction (months days : list string)
      (data : option Sheet.SpreadsheetData) (v : View) :
  hasUserInteractedRef (refs v) = true ->
  selection (refreshCycle months days data v) = selection v
  /\ hasUserInteractedRef (refs (refreshCycle months days data v)) = true.
Proof.
  intros H. unfold refreshCycle.
  assert (H1 : selection (runMonthsEffect months v) = selection v
               /\ hasUserInteractedRef (refs (runMonthsEffect months v)) = true).
  { unfold runMonthsEffect, monthsEffect, current. rewrite H.
    apply (refresh_after_interaction v (MonthsOnlyReply (state v) months) H). }
  destruct H1 as [S1 I1]. set (v1 := runMonthsEffect months v) in *.
  assert (H2 : selection (runDaysEffect days v1) = selection v1
               /\ hasUserInteractedRef (refs (runDaysEffect days v1)) = true).
  { unfold runDaysEffect, current. rewrite I1.
    apply (refresh_after_interaction v1 (DaysOnlyReply (state v1) days) I1). }
  destruct H2 as [S2 I2]. set (v2 := runDaysEffect days v1) in *.
  destruct (refresh_after_interaction v2 (MonthlySheetReply (state v2) data) I2) as [S3 I3].
  cbn [refresh] in S3, I3. set (v3 := loadMonthlySpreadsheet (state v2) data v2) in *.
  assert (H4 : selection (runDailyEffect data v3) = selection v3
               /\ hasUserInteractedRef (refs (runDailyEffect data v3)) = true).
  { unfold runDailyEffect, current. rewrite I3. cbn [andb].
    destruct (userSelectedDayRef (refs v3)).
    - apply (refresh_after_interaction
               v3 (DailyChoiceReply (state v3) (lastSelectedDayRef (refs v3)) data) I3).
    - rewrite andb_false_r.
      apply (refresh_after_interaction v3 (DailySheetReply (state v3) true data) I3). }
  destruct H4 as [S4 I4]. split; [congruence | exact I4].
Qed.

(** The scenario of the testable properties: the first load selects a
    month, the operator picks 2024-04, ten refresh cycles follow, with the
    list unchanged or changed. *)
Definition firstLoad : View :=
  runMonthsEffect ["2024-05"; "2024-04"] (mount "customer-1" None).

Definition afterPick : View := act (ChooseMonth "2024-04" None) firstLoad.

Fixpoint cycles (n : nat) (months : list string) (v : View) : View :=
  match n with
  | O => v
  | S k => cycles k ("2024-06" :: months) (refreshCycle months [] None v)
  end.

Example ten_cycles_keep_the_pick :
  selectedMonth (state (cycles 10 ["2024-05"; "2024-04"] afterPick)) = "2024-04".
Proof. reflexivity. Qed.

(** *** Switching type or context *)

(** The most recent of a list of period keys. *)
Definition mostRecent (months : list string) : string :=
  hd "" (sortBy (fun a b => String.leb b a) months).

(** The view is fresh when it has neither selected by itself nor seen the
    operator choose. *)
Definition fresh (v : View) : bool :=
  isInitialLoadRef (refs v) && negb (hasUserInteractedRef (refs v))
  && negb (lockSelectionRef (refs v)).

(** C6 as stated fails: after the first load has selected a month, a
    switch to the daily type empties the selection and the next load of
    the months list selects nothing, where the claim has the most recent
    month 2024-05 selected again. *)
Lemma type_switch_does_not_reselect :
  selectedMonth (state firstLoad) <> ""
  /\ selectedMonth
       (state (runMonthsEffect ["2024-05"; "2024-04"] (changeType daily firstLoad))) = ""
  /\ selectedMonth
       (state (runMonthsEffect ["2024-05"; "2024-04"] (changeType daily firstLoad)))
     <> mostRecent ["2024-05"; "2024-04"].
Proof. repeat split; vm_compute; discriminate. Qed.

(** The same after a choice of the operator, for a switch of type and for
    a switch of customer and terminal: nothing is selected anew. *)
Example switch_after_choice :
  selection (runMonthsEffect ["2024-05"; "2024-04"] (changeType daily afterPick)) = ("", "")
  /\ selection (runMonthsEffect ["2024-05"; "2024-04"]
                                (changeContext "customer-2" (Some "T2") afterPick))
     = ("2024-04", "").
Proof. split; reflexivity. Qed.

Lemma selectFirstMonth_spec (seen : State) (months : list string) (v : View) :
  selection (selectFirstMonth seen months v)
  = if fresh v && negb (nonEmpty (selectedMonth seen))
    then match months with
         | first :: _ => (first, selectedDay (state v))
         | [] => selection v
         end
    else selection v.
Proof.
  unfold selectFirstMonth, fresh, current.
  destruct months as [|first rest].
  - now destruct (_ && _).
  - destruct (lockSelectionRef (refs v)), (hasUserInteractedRef (refs v)),
      (isInitialLoadRef (refs v)), (nonEmpty (selectedMonth seen)); reflexivity.
Qed.

Lemma loadMonths_selectedMonth (seen : State) (months : list string) (v : View) :
  selectedMonth (state (loadMonths seen months v))
  = if fresh v && negb (nonEmpty (selectedMonth seen))
    then match sortAscending months with
         | first :: _ => first
         | [] => selectedMonth (state v)
         end
    else selectedMonth (state v).
Proof.
  destruct v as [cid ctid st rf]. destruct rf as [um ud il lk ld lm hi ml dl].
  unfold loadMonths, selectFirstMonth, fresh, current.
  match goal with
  | |- context [negb (String.eqb ?a ?b)] => destruct (negb (String.eqb a b))
  end;
    destruct (spreadsheetType seen), (sortAscending months), lk, hi, il, ud,
      (nonEmpty (selectedMonth seen)); reflexivity.
Qed.

Lemma sortAscending_nil (months : list string) :
  sortAscending months = [] -> months = [].
Proof.
  intros E. apply length_zero_iff_nil.
  unfold sortAscending in E.
  rewrite <- (sortBy_length String.leb months), E. reflexivity.
Qed.

(** C6, amended.  A switch of type empties the selected month and day and
    leaves the refs as they are; a switch of customer or terminal changes
    neither the state nor the refs.  On the next load of the months list
    after a switch of type, a month of the list is selected by the view
    itself only if the view is still fresh (it has never selected by
    itself and the operator has never chosen) and the list is not empty;
    otherwise the selected month stays empty. *)
Theorem switch_keeps_refs (v : View) (t : SpreadsheetType) (c : string)
        (tid : option string) (months : list string) :
  selection (changeType t v) = ("", "")
  /\ refs (changeType t v) = refs v
  /\ state (changeContext c tid v) = state v
  /\ refs (changeContext c tid v) = refs v
  /\ (if fresh v && negb (match months with [] => true | _ => false end)
      then In (selectedMonth (state (runMonthsEffect months (changeType t v)))) months
      else selectedMonth (state (runMonthsEffect months (changeType t v))) = "").
Proof.
  repeat split.
  unfold runMonthsEffect, monthsEffect, current.
  change (refs (changeType t v)) with (refs v).
  destruct (hasUserInteractedRef (refs v)) eqn:Hi.
  - unfold fresh. rewrite Hi, andb_false_r. cbn [andb negb].
    unfold loadMonthsOnly. now destruct (negb _).
  - destruct (lockSelectionRef (refs v)) eqn:Hl.
    + unfold fresh. rewrite Hl, andb_false_r. reflexivity.
    + rewrite loadMonths_selectedMonth.
      assert (Hf : fresh (changeType t v) = fresh v) by reflexivity.
      rewrite Hf.
      change (nonEmpty (selectedMonth (state (changeType t v)))) with false.
      cbn [negb]. rewrite andb_true_r.
      change (selectedMonth (state (changeType t v))) with "".
      destruct (fresh v); cbn [andb].
      * destruct months as [|m0 ms]; cbn [negb]; [reflexivity|].
        destruct (sortAscending (m0 :: ms)) as [|first rest] eqn:Es.
        -- apply sortAscending_nil in Es. discriminate.
        -- apply (sortBy_In String.leb (m0 :: ms) first).
           unfold sortAscending in Es. rewrite Es. left. reflexivity.
      * reflexivity.
Qed.

End SelectionProps.

(* ===================================================================== *)
(** ** The monad: what a computation leaves untouched *)
(* ===================================================================== *)

(** A computation that never changes the table of snapshots. *)
Definition keepsSheets {A : Type} (c : M A) : Prop :=
  forall w, spreadsheets (snd (c w)) = spreadsheets w.

Lemma keeps_ret {A : Type} (a : A) : keepsSheets (ret a).
Proof. intros w. reflexivity. Qed.

Lemma keeps_throw {A : Type} (e : string) : keepsSheets (@throw A e).
Proof. intros w. reflexivity. Qed.

Lemma keeps_bind {A B : Type} (c : M A) (k : A -> M B) :
  keepsSheets c -> (forall a, keepsSheets (k a)) -> keepsSheets (bind c k).
Proof.
  intros Hc Hk w. unfold bind. specialize (Hc w).
  destruct (c w) as [[a|e] w1]; simpl in *.
  - rewrite Hk. exact Hc.
  - exact Hc.
Qed.

Lemma keeps_tryCatch {A : Type} (c : M A) (h : string -> M A) :
  keepsSheets c -> (forall e, keepsSheets (h e)) -> keepsSheets (tryCatch c h).
Proof.
  intros Hc Hh w. unfold tryCatch. specialize (Hc w).
  destruct (c w) as [[a|e] w1]; simpl in *.
  - exact Hc.
  - rewrite Hh. exact Hc.
Qed.

Lemma keeps_logTo (e : LogEntry) : keepsSheets (logTo e).
Proof. intros w. reflexivity. Qed.

Lemma keeps_serviceCall {A : Type} (env : Env) (name : string) (a : A) :
  keepsSheets (serviceCall env name a).
Proof. intros w. unfold serviceCall. destruct (faultAt env (clock w)); reflexivity. Qed.

Lemma keeps_storeCall {A : Type} (env : Env) (op : World -> A * World) :
  (forall w, spreadsheets (snd (op w)) = spreadsheets w) ->
  keepsSheets (storeCall env op).
Proof.
  intros Hop w. unfold storeCall. destruct (faultAt env (clock w)); [reflexivity|].
  specialize (Hop (tickWorld w)). destruct (op (tickWorld w)) as [a w2]. exact Hop.
Qed.

Lemma keeps_dateNow (env : Env) : keepsSheets (dateNow env).
Proof. intros w. reflexivity. Qed.

Lemma keeps_mathRandom (env : Env) : keepsSheets (mathRandom env).
Proof. intros w. reflexivity. Qed.

Create HintDb frame.
#[export] Hint Resolve keeps_ret keeps_throw keeps_logTo keeps_serviceCall
  keeps_dateNow keeps_mathRandom : frame.

Ltac frame :=
  repeat first
    [ apply keeps_bind
    | apply keeps_tryCatch
    | apply keeps_storeCall; intros; reflexivity
    | progress (unfold consoleLog, consoleError)
    | solve [auto with frame]
    | match goal with
      | |- forall _, keepsSheets _ => intro
      | |- keepsSheets (match ?x with _ => _ end) => destruct x
      end ].

(* ===================================================================== *)
(** ** Saving a snapshot *)
(* ===================================================================== *)

Module SaveProps.
Import TransferService SpreadsheetService.

Lemma keeps_getTransfers (env : Env) : keepsSheets (getTransfers env).
Proof. unfold getTransfers. frame. Qed.

Lemma keeps_getTransferById (env : Env) (id : string) : keepsSheets (getTransferById env id).
Proof. unfold getTransferById. frame. Qed.

Lemma keeps_createTransfer (env : Env) (t : NewTransfer) : keepsSheets (createTransfer env t).
Proof. unfold createTransfer. frame. Qed.

Lemma keeps_updateTransfer (env : Env) (id : string) (u : TransferUpdates) :
  keepsSheets (updateTransfer env id u).
Proof.
  unfold updateTransfer. apply keeps_tryCatch; [|frame].
  apply keeps_bind; [apply keeps_getTransferById|].
  intros [current|]; [|apply keeps_ret].
  apply keeps_bind.
  - apply keeps_storeCall. intros w. reflexivity.
  - frame.
Qed.

#[export] Hint Resolve keeps_getTransfers keeps_getTransferById keeps_createTransfer
  keeps_updateTransfer : frame.

Lemma keeps_createTransferFromSpreadsheet (env : Env) (s : Sheet.SpreadsheetData) :
  keepsSheets (createTransferFromSpreadsheet env s).
Proof.
  unfold createTransferFromSpreadsheet, getCustomerCardValues, getCustomers,
    calculateSpreadsheetMetrics, getCustomerTax.
  apply keeps_tryCatch; [|frame].
  apply keeps_bind; [frame|]. intros _.
  apply keeps_bind; [apply keeps_getTransfers|]. intros allTransfers.
  destruct (List.find _ _) as [existing|].
  - apply keeps_bind; [frame|]. intros _.
    apply keeps_bind; [frame|]. intros _.
    apply keeps_bind; [frame|]. intros cv.
    apply keeps_bind; [frame|]. intros metrics.
    destruct (entryValues cv metrics) as [[vb tx] vl].
    destruct (JsNumber.isPositive vb); frame.
  - apply keeps_bind; [frame|]. intros _.
    apply keeps_bind; [frame|]. intros cv.
    apply keeps_bind; [frame|]. intros metrics.
    destruct (entryValues cv metrics) as [[vb tx] vl].
    destruct (negb (JsNumber.isPositive vb)); frame.
Qed.

(** The reconciliation step returns normally whatever happens inside it,
    leaves the snapshots alone, and logs the exception it caught. *)
Lemma reconcile_never_throws (env : Env) (s : Sheet.SpreadsheetData) (w : World) :
  exists w',
    reconcile env s w = (Ok tt, w')
    /\ spreadsheets w' = spreadsheets w
    /\ forall e w1,
        bind (consoleLog "📊 Iniciando criação automática de repasse para planilha:")
             (fun _ => bind (createTransferFromSpreadsheet env s)
                            (fun _ => consoleLog
                                        "✅ Processo de criação/atualização de repasse concluído"))
             w = (Thrown e, w1) ->
        console w' = console w1 ++ [LogError "❌ Erro ao criar repasse automaticamente:" e].
Proof.
  assert (K : keepsSheets (reconcile env s)).
  { unfold reconcile. apply keeps_tryCatch; [|frame].
    apply keeps_bind; [frame|]. intros _.
    apply keeps_bind; [apply keeps_createTransferFromSpreadsheet|]. frame. }
  specialize (K w). unfold reconcile, tryCatch in *.
  destruct (bind _ _ w) as [[[]|e] w1] eqn:E.
  - exists w1. split; [reflexivity|]. split; [exact K|].
    intros e' w1' H. discriminate.
  - eexists. split; [reflexivity|]. split; [exact K|].
    intros e' w1' H. inversion H; subst. reflexivity.
Qed.

(** The snapshot as written and the world after the write. *)
Definition written (env : Env) (spreadsheet : Sheet.SpreadsheetData)
  : M Sheet.SpreadsheetData :=
  bind (prepare env spreadsheet)
       (fun spreadsheetToSave =>
          bind (persist env spreadsheetToSave) (fun _ => ret spreadsheetToSave)).

(** C9.  When the snapshot has been written, [saveSpreadsheet] returns
    normally whatever the reconciliation step does (any outside call it
    makes may fail): the snapshots are as the write left them, and an
    exception of the reconciliation is in the console. *)
Theorem save_survives_reconciliation (env : Env) (spreadsheet s : Sheet.SpreadsheetData)
        (w w1 : World) :
  written env spreadsheet w = (Ok s, w1) ->
  exists w2,
    saveSpreadsheet env spreadsheet w = (Ok tt, w2)
    /\ spreadsheets w2 = spreadsheets w1
    /\ forall e w',
        createTransferFromSpreadsheet env s
          (snd (consoleLog "📊 Iniciando criação automática de repasse para planilha:" w1))
        = (Thrown e, w') ->
        In (LogError "❌ Erro ao criar repasse automaticamente:" e) (console w2).
Proof.
  intros H. unfold written, bind in H.
  destruct (prepare env spreadsheet w) as [[s0|e0] w0] eqn:Ep; [|discriminate].
  destruct (persist env s0 w0) as [[[]|e1] w0'] eqn:Ew; [|discriminate].
  cbn in H. inversion H; subst. clear H.
  destruct (reconcile_never_throws env s w1) as [w2 [Hr [Hs Hl]]].
  exists w2. split; [|split].
  - unfold saveSpreadsheet, tryCatch, bind. rewrite Ep, Ew, Hr. reflexivity.
  - exact Hs.
  - intros e w' Hc.
    rewrite (Hl e w').
    + apply in_or_app. right. left. reflexivity.
    + unfold bind at 1. cbn [consoleLog logTo].
      unfold bind. cbn [consoleLog logTo snd] in Hc. rewrite Hc. reflexivity.
Qed.

(** *** A run with every call of the reconciliation failing *)

(** The reader is three hours behind UTC; the calls numbered 3 and up fail
    (the fee rate, the lookup and the write of the snapshot come first). *)
Definition failingEnv : Env :=
  mkEnv (fun _ => (-10800000)%Z) (fun n => (3 <=? n)%nat)
        (fun n => (1717243200000 + Z.of_nat n)%Z) (fun _ => "k3x9q2m1a")
        (fun _ => None) (fun _ _ _ _ _ => None)
        [("customer-1", "Loja Um")] (fun s => s).

Definition workingEnv : Env :=
  mkEnv (fun _ => (-10800000)%Z) (fun _ => false)
        (fun n => (1717243200000 + Z.of_nat n)%Z) (fun _ => "k3x9q2m1a")
        (fun _ => None) (fun _ _ _ _ _ => None)
        [("customer-1", "Loja Um")] (fun s => s).

Definition emptyWorld : World := mkWorld [] [] [] 0.

(** A monthly upload for May 2024 with one sale of 100. *)
Definition mayUpload (terminalId : option string) : Sheet.SpreadsheetData :=
  Sheet.mkSpreadsheetData None "customer-1" terminalId "maio.xlsx" 1717243200000
                          "2024-05" None (Some monthly)
                          [[("Valor Bruto", CNum 100)]] ["Valor Bruto"] [] None.

Lemma save_survives_reconciliation_witness :
  exists s w1,
    written failingEnv (mayUpload None) emptyWorld = (Ok s, w1)
    /\ exists w2,
        saveSpreadsheet failingEnv (mayUpload None) emptyWorld = (Ok tt, w2)
        /\ spreadsheets w2 = spreadsheets w1
        /\ forall e w',
            createTransferFromSpreadsheet failingEnv s
              (snd (consoleLog "📊 Iniciando criação automática de repasse para planilha:" w1))
            = (Thrown e, w') ->
            In (LogError "❌ Erro ao criar repasse automaticamente:" e) (console w2).
Proof.
  eexists. eexists. split.
  - vm_compute. reflexivity.
  - apply (save_survives_reconciliation failingEnv (mayUpload None)).
    vm_compute. reflexivity.
Defined.

(** In that run the card values cannot be read, the exception reaches the
    inner [catch], and the save returns normally with the snapshot stored. *)
Example failing_reconciliation_is_logged :
  fst (saveSpreadsheet failingEnv (mayUpload None) emptyWorld) = Ok tt
  /\ List.length (spreadsheets (snd (saveSpreadsheet failingEnv (mayUpload None) emptyWorld)))
     = 1%nat
  /\ In (LogError "❌ Erro ao criar repasse automaticamente:" "getCustomerCardValues")
        (console (snd (saveSpreadsheet failingEnv (mayUpload None) emptyWorld))).
Proof.
  repeat split. vm_compute. do 5 right. left. reflexivity.
Qed.

(** *** Monthly snapshots of one month *)

Definition option_eqb (a b : option string) : bool :=
  match a, b with
  | Some x, Some y => x =? y
  | None, None => true
  | _, _ => false
  end.

(** The monthly snapshots stored for a customer, a terminal (or none) and
    a month. *)
Definition monthlySnapshots (customerId : string) (terminalId : option string)
           (referenceMonth : string) (w : World) : list SpreadsheetsTable.t :=
  List.filter (fun r => (SpreadsheetsTable.customer_id r =? customerId)
                        && option_eqb (SpreadsheetsTable.terminal_id r) terminalId
                        && (SpreadsheetsTable.reference_month r =? referenceMonth)
                        && SpreadsheetType_eqb (SpreadsheetsTable.type r) monthly)
              (spreadsheets w).

(** The world after a first upload. *)
Definition afterFirstSave (terminalId : option string) : World :=
  snd (saveSpreadsheet workingEnv (mayUpload terminalId) emptyWorld).

Definition afterSecondSave (terminalId : option string) : World :=
  snd (saveSpreadsheet workingEnv (mayUpload terminalId) (afterFirstSave terminalId)).

(** C3, on the code.  With a terminal the second save replaces the
    snapshot of the month.  Without one the lookup compares the column
    [terminal_id] with a null value through [.eq], which no row satisfies
    (the other queries use [.is(.., null)]); the second save inserts, and
    two monthly snapshots are stored for the customer and the month. *)
Theorem monthly_save_without_terminal_duplicates :
  List.length (monthlySnapshots "customer-1" (Some "T1") "2024-05"
                                (afterSecondSave (Some "T1"))) = 1%nat
  /\ List.length (monthlySnapshots "customer-1" None "2024-05" (afterFirstSave None)) = 1%nat
  /\ List.length (monthlySnapshots "customer-1" None "2024-05" (afterSecondSave None)) = 2%nat.
Proof. repeat split. Qed.

End SaveProps.

(* ===================================================================== *)
(** ** Dates *)
(* ===================================================================== *)

Module DateProps.
Import JsString JsNumber JsDate TransferService.
Local Open Scope Z_scope.

Lemma DayFromYear_mono (a b : Z) : a <= b -> DayFromYear a <= DayFromYear b.
Proof. unfold DayFromYear. intros. Z.div_mod_to_equations. lia. Qed.

(** [YearFromDay] is the year function of the standard: the largest year
    that starts on or before the day. *)
Lemma YearFromDay_spec (d : Z) :
  DayFromYear (YearFromDay d) <= d < DayFromYear (YearFromDay d + 1).
Proof.
  unfold YearFromDay.
  destruct (Z.ltb_spec d (DayFromYear (1970 + 400 * d / 146097))).
  - unfold DayFromYear in *. Z.div_mod_to_equations. lia.
  - destruct (Z.leb_spec (DayFromYear (1970 + 400 * d / 146097 + 1)) d).
    + unfold DayFromYear in *. Z.div_mod_to_equations. lia.
    + unfold DayFromYear in *. Z.div_mod_to_equations. lia.
Qed.

Lemma YearFromDay_unique (y d : Z) :
  DayFromYear y <= d < DayFromYear (y + 1) -> YearFromDay d = y.
Proof.
  intros H. pose proof (YearFromDay_spec d) as S.
  destruct (Z.lt_trichotomy (YearFromDay d) y) as [L|[E|G]]; [|exact E|].
  - pose proof (DayFromYear_mono (YearFromDay d + 1) y ltac:(lia)). lia.
  - pose proof (DayFromYear_mono (y + 1) (YearFromDay d) ltac:(lia)). lia.
Qed.

Lemma DayFromYear_next (y : Z) :
  DayFromYear (y + 1) = DayFromYear y + (if isLeapYear y then 366 else 365).
Proof.
  unfold DayFromYear, isLeapYear.
  destruct (Z.eqb_spec (y mod 4) 0), (Z.eqb_spec (y mod 100) 0), (Z.eqb_spec (y mod 400) 0);
    cbn [negb andb orb]; Z.div_mod_to_equations; lia.
Qed.

(** The reader's offset from UTC stays within twelve hours. *)
Definition offsetWithinHalfDay (tza : Z) : Prop := - 43200000 <= tza < 43200000.

Lemma Day_of_noon (day tza : Z) :
  offsetWithinHalfDay tza -> Day (MakeDate day 43200000 + tza) = day.
Proof.
  unfold offsetWithinHalfDay, Day, MakeDate, msPerDay. intros H.
  symmetry. apply (Z.div_unique _ _ _ (43200000 + tza)); lia.
Qed.

(** Days in month [m] (1-based) of year [y]. *)
Definition daysInMonth (y m : Z) : Z :=
  match m with
  | 2 => if isLeapYear y then 29 else 28
  | 4 | 6 | 9 | 11 => 30
  | _ => 31
  end.

Definition validDate (y m d : Z) : Prop :=
  1 <= m <= 12 /\ 1 <= d <= daysInMonth y m.

Ltac by_cases :=
  repeat match goal with
         | |- context [?a <? ?b] => destruct (Z.ltb_spec a b); try lia
         end;
  try lia.

(** For a given month: the number of days before it, and its length. *)
Ltac month_case :=
  cbn beta iota in *;
  repeat match goal with
         | |- context [monthStart (?m - 1) ?l] =>
             let i := eval compute in (m - 1) in
             change (monthStart (m - 1) l) with (monthStart i l)
         end;
  cbn [monthStart].

Definition leapDay (y : Z) : Z := if isLeapYear y then 1 else 0.

Lemma dayWithinYear_bounds (y m d : Z) :
  validDate y m d ->
  0 <= monthStart (m - 1) (leapDay y) + d - 1 < (if isLeapYear y then 366 else 365).
Proof.
  unfold validDate, daysInMonth, leapDay. intros [Hm Hd].
  assert (Hc : m = 1 \/ m = 2 \/ m = 3 \/ m = 4 \/ m = 5 \/ m = 6 \/ m = 7 \/ m = 8
               \/ m = 9 \/ m = 10 \/ m = 11 \/ m = 12) by lia.
  revert Hd. destruct (isLeapYear y); intros Hd;
    repeat (destruct Hc as [->|Hc]; [month_case; lia|]); subst m; month_case; lia.
Qed.

Lemma monthOfDay_monthStart (y m d : Z) :
  validDate y m d ->
  monthOfDay (monthStart (m - 1) (leapDay y) + d - 1) (leapDay y) = m - 1.
Proof.
  unfold validDate, daysInMonth, leapDay, monthOfDay. intros [Hm Hd].
  assert (Hc : m = 1 \/ m = 2 \/ m = 3 \/ m = 4 \/ m = 5 \/ m = 6 \/ m = 7 \/ m = 8
               \/ m = 9 \/ m = 10 \/ m = 11 \/ m = 12) by lia.
  revert Hd. destruct (isLeapYear y); intros Hd;
    repeat (destruct Hc as [->|Hc]; [month_case; by_cases|]); subst m; month_case; by_cases.
Qed.

(** The local calendar fields of noon UTC of a day are those of the day,
    for an offset within twelve hours: what storing noon is meant to
    achieve. *)
Lemma local_fields_of_noon (y m d tza : Z) :
  validDate y m d -> offsetWithinHalfDay tza ->
  YearFromTime (MakeDate (MakeDay y (m - 1) d) 43200000 + tza) = y
  /\ MonthFromTime (MakeDate (MakeDay y (m - 1) d) 43200000 + tza) = m - 1
  /\ DateFromTime (MakeDate (MakeDay y (m - 1) d) 43200000 + tza) = d.
Proof.
  intros Hv Htz.
  set (t := MakeDate (MakeDay y (m - 1) d) 43200000 + tza).
  assert (Hday : Day t = MakeDay y (m - 1) d) by (apply Day_of_noon; exact Htz).
  assert (Hmk : MakeDay y (m - 1) d
                = DayFromYear y + monthStart (m - 1) (leapDay y) + d - 1).
  { destruct Hv as [Hm _]. unfold MakeDay, leapDay.
    rewrite (Z.div_small (m - 1) 12), (Z.mod_small (m - 1) 12), Z.add_0_r by lia.
    reflexivity. }
  clearbody t.
  pose proof (dayWithinYear_bounds y m d Hv) as Hb.
  assert (Hy : YearFromTime t = y).
  { unfold YearFromTime. rewrite Hday, Hmk. apply YearFromDay_unique.
    rewrite DayFromYear_next. lia. }
  assert (Hw : DayWithinYear t = monthStart (m - 1) (leapDay y) + d - 1).
  { unfold DayWithinYear. rewrite Hy, Hday, Hmk. lia. }
  assert (Hl : InLeapYear t = leapDay y).
  { unfold InLeapYear. rewrite Hy. reflexivity. }
  assert (Hmo : MonthFromTime t = m - 1).
  { unfold MonthFromTime. rewrite Hw, Hl. apply monthOfDay_monthStart. exact Hv. }
  split; [exact Hy|]. split; [exact Hmo|].
  unfold DateFromTime. rewrite Hmo, Hw, Hl. lia.
Qed.

(** *** The date column of the ledger *)

(** The text [transferToDb] writes for a date of year [y]. *)
Definition noonText (y : Z) : string := (showZ y ++ "T12:00:00.000Z")%string.

(** The first day of year [y], as [normalizeDate] renders it. *)
Definition newYearText (y : Z) : string := (showZ y ++ "-01-01")%string.

Definition option_Z_eqb (a b : option Z) : bool :=
  match a, b with
  | Some x, Some y => x =? y
  | None, None => true
  | _, _ => false
  end.

Definition option_string_eqb (a b : option string) : bool :=
  match a, b with
  | Some x, Some y => (x =? y)%string
  | None, None => true
  | _, _ => false
  end.

(** What the code does with the two texts of a year, apart from the
    reader's offset. *)
Definition yearTextsRead (y : Z) : bool :=
  negb (noonText y =? "")%string
  && negb (trim (noonText y) =? "")%string
  && negb (isYMD (noonText y))
  && option_Z_eqb (parseDate (noonText y)) (Some (MakeDate (MakeDay y 0 1) 43200000))
  && isYMD (newYearText y)
  && option_string_eqb (dataEnvioToDb (newYearText y)) (Some (noonText y)).

(** The integers from [lo], [n] of them. *)
Fixpoint upFrom (lo : Z) (n : nat) : list Z :=
  match n with
  | O => []
  | S k => lo :: upFrom (lo + 1) k
  end.

Lemma upFrom_In (n : nat) :
  forall lo y, lo <= y < lo + Z.of_nat n -> In y (upFrom lo n).
Proof.
  induction n as [|k IH]; intros lo y H.
  - lia.
  - cbn [upFrom]. destruct (Z.eq_dec lo y) as [E|N].
    + left. exact E.
    + right. apply IH. lia.
Qed.

Definition fourDigitYears : list Z := upFrom 1000 (Z.to_nat 9000).

Lemma fourDigitYears_all : forallb yearTextsRead fourDigitYears = true.
Proof. vm_compute. reflexivity. Qed.

Lemma yearTextsRead_four_digits (y : Z) :
  1000 <= y <= 9999 -> yearTextsRead y = true.
Proof.
  intros H. pose proof fourDigitYears_all as A.
  rewrite forallb_forall in A. apply A.
  unfold fourDigitYears. apply upFrom_In. rewrite Z2Nat.id; lia.
Qed.

Lemma option_Z_eqb_eq (a b : option Z) : option_Z_eqb a b = true -> a = b.
Proof.
  destruct a, b; cbn; intros H; try discriminate; [|reflexivity].
  apply Z.eqb_eq in H. now subst.
Qed.

Lemma option_string_eqb_eq (a b : option string) : option_string_eqb a b = true -> a = b.
Proof.
  destruct a, b; cbn; intros H; try discriminate; [|reflexivity].
  apply String.eqb_eq in H. now subst.
Qed.

(** The reader's offset is within twelve hours at every instant. *)
Definition readerWithinHalfDay (env : Env) : Prop :=
  forall t, offsetWithinHalfDay (LocalTZA env t).

Lemma formatLocalDate_new_year (y tza : Z) :
  offsetWithinHalfDay tza ->
  formatLocalDate (MakeDate (MakeDay y 0 1) 43200000 + tza) = newYearText y.
Proof.
  intros Htz.
  assert (Hv : validDate y 1 1) by (unfold validDate, daysInMonth; lia).
  destruct (local_fields_of_noon y 1 1 tza Hv Htz) as [Hy [Hm Hd]].
  change (1 - 1) with 0 in *.
  unfold formatLocalDate. rewrite Hy, Hm, Hd. reflexivity.
Qed.

(** Reading the text of a year gives the first of January of that year. *)
Lemma normalizeDate_noonText (env : Env) (y : Z) :
  readerWithinHalfDay env -> 1000 <= y <= 9999 ->
  normalizeDate env (Some (noonText y)) = newYearText y.
Proof.
  intros Htz Hy. pose proof (yearTextsRead_four_digits y Hy) as R.
  unfold yearTextsRead in R. repeat rewrite andb_true_iff in R.
  destruct R as [[[[[R1 R2] R3] R4] _] _].
  apply negb_true_iff in R1, R2, R3. apply option_Z_eqb_eq in R4.
  unfold normalizeDate. rewrite R1, R2, R3, R4. cbn [orb].
  apply formatLocalDate_new_year, Htz.
Qed.

(** Writing the first of January of a year gives back the text of the
    year. *)
Lemma dataEnvioToDb_newYearText (y : Z) :
  1000 <= y <= 9999 -> dataEnvioToDb (newYearText y) = Some (noonText y).
Proof.
  intros Hy. pose proof (yearTextsRead_four_digits y Hy) as R.
  unfold yearTextsRead in R. repeat rewrite andb_true_iff in R.
  destruct R as [_ R]. now apply option_string_eqb_eq.
Qed.

(** C10, on the code.  [dateMatch[1]] is the first group of
    [/^(\d{4})-(\d{2})-(\d{2})/], the year alone: for 15 January 2024
    the text written is [2024T12:00:00.000Z], which is noon UTC of
    1 January, and the date read back three hours west of UTC is
    2024-01-01.  The same for 31 December. *)
Theorem noon_text_keeps_only_the_year :
  dataEnvioToDb "2024-01-15" = Some "2024T12:00:00.000Z"
  /\ parseDate "2024T12:00:00.000Z" = parseDate "2024-01-01T12:00:00.000Z"
  /\ normalizeDate SaveProps.workingEnv (dataEnvioToDb "2024-01-15") = "2024-01-01"
  /\ normalizeDate SaveProps.workingEnv (dataEnvioToDb "2024-12-31") = "2024-01-01".
Proof. repeat split. Qed.


End DateProps.

(* ===================================================================== *)
(** ** The monad: computations that return *)
(* ===================================================================== *)

(** [returns c w P]: from world [w] the computation [c] returns normally,
    with a value and a world that satisfy [P]. *)
Definition returns {A : Type} (c : M A) (w : World) (P : A -> World -> Prop) : Prop :=
  exists a w', c w = (Ok a, w') /\ P a w'.

Lemma returns_ret {A : Type} (a : A) (w : World) (P : A -> World -> Prop) :
  P a w -> returns (ret a) w P.
Proof. intros H. exists a, w. split; [reflexivity | exact H]. Qed.

Lemma returns_bind {A B : Type} (c : M A) (k : A -> M B) (w : World)
      (P : B -> World -> Prop) :
  returns c w (fun a w1 => returns (k a) w1 P) -> returns (bind c k) w P.
Proof.
  intros [a [w1 [Hc [b [w2 [Hk HP]]]]]]. exists b, w2. split; [|exact HP].
  unfold bind. rewrite Hc. exact Hk.
Qed.

Lemma returns_tryCatch {A : Type} (c : M A) (h : string -> M A) (w : World)
      (P : A -> World -> Prop) :
  returns c w P -> returns (tryCatch c h) w P.
Proof.
  intros [a [w1 [Hc HP]]]. exists a, w1. split; [|exact HP].
  unfold tryCatch. rewrite Hc. reflexivity.
Qed.

Lemma returns_weaken {A : Type} (c : M A) (w : World) (P Q : A -> World -> Prop) :
  returns c w P -> (forall a w', P a w' -> Q a w') -> returns c w Q.
Proof. intros [a [w1 [Hc HP]]] H. exists a, w1. split; [exact Hc | apply H, HP]. Qed.

Lemma returns_logTo (e : LogEntry) (w : World) (P : unit -> World -> Prop) :
  P tt (mkWorld (spreadsheets w) (transfers w) (console w ++ [e]) (clock w)) ->
  returns (logTo e) w P.
Proof. intros H. eexists. eexists. split; [reflexivity | exact H]. Qed.

Lemma returns_dateNow (env : Env) (w : World) (P : Z -> World -> Prop) :
  P (nowAt env (clock w)) w -> returns (dateNow env) w P.
Proof. intros H. eexists. eexists. split; [reflexivity | exact H]. Qed.

Lemma returns_mathRandom (env : Env) (w : World) (P : string -> World -> Prop) :
  P (randomAt env (clock w)) w -> returns (mathRandom env) w P.
Proof. intros H. eexists. eexists. split; [reflexivity | exact H]. Qed.

(** No outside call fails. *)
Definition noFaults (env : Env) : Prop := forall n, faultAt env n = false.

Lemma returns_storeCall {A : Type} (env : Env) (op : World -> A * World) (w : World)
      (P : option A -> World -> Prop) :
  noFaults env ->
  P (Some (fst (op (tickWorld w)))) (snd (op (tickWorld w))) ->
  returns (storeCall env op) w P.
Proof.
  intros Hf H. eexists. eexists. split; [|exact H].
  unfold storeCall. rewrite Hf. destruct (op (tickWorld w)). reflexivity.
Qed.

Lemma returns_serviceCall {A : Type} (env : Env) (name : string) (a : A) (w : World)
      (P : A -> World -> Prop) :
  noFaults env -> P a (tickWorld w) -> returns (serviceCall env name a) w P.
Proof.
  intros Hf H. eexists. eexists. split; [|exact H].
  unfold serviceCall. rewrite Hf. reflexivity.
Qed.

(* ===================================================================== *)
(** ** The ledger under reconciliation *)
(* ===================================================================== *)

Module LedgerProps.
Import JsString JsNumber TransferService SpreadsheetService DateProps.

(** The ledger as the application reads it. *)
Definition ledger (env : Env) (w : World) : list Transfer :=
  List.map (dbToTransfer env) (transfers w).

(** What a reconciliation must leave alone in an entry: everything but
    the three amounts. *)
Definition fixedPart (t : Transfer)
  : string * string * string * string * option string * option string * Z :=
  (id t, periodo t, status t, dataEnvio t, customerId t, customerName t, createdAt t).

(** The entry of a snapshot: same customer, same period label. *)
Definition entryOf (spreadsheet : Sheet.SpreadsheetData) (label : string) (t : Transfer)
  : bool :=
  sameCustomer spreadsheet t && samePeriod (Some label) t.

(** A date column written through [transferToDb]: empty, or the text of a
    year of four digits. *)
Definition writtenDate (r : TransfersTable.t) : Prop :=
  match TransfersTable.data_envio r with
  | None => True
  | Some s => exists y, (1000 <= y <= 9999)%Z /\ s = noonText y
  end.

(** Updates of the amounts only. *)
Definition amountsOnly (u : TransferUpdates) : Prop :=
  u_periodo u = None /\ u_status u = None /\ u_dataEnvio u = None
  /\ u_customerId u = None /\ u_customerName u = None.

Lemma orString_orNull (p : option string) :
  orString (orNull (Some (orString p ""))) "" = orString p "".
Proof.
  destruct p as [s|]; cbn; [|reflexivity].
  destruct (s =? "") eqn:E; cbn; [reflexivity|]. rewrite E. cbn. now rewrite E.
Qed.

Lemma orString_status (st : option string) :
  orString (Some (orString (Some (orString st "pendente")) "pendente")) "pendente"
  = orString st "pendente".
Proof.
  destruct st as [s|]; cbn; [|reflexivity].
  destruct (s =? "") eqn:E; cbn; [reflexivity|]. rewrite E. cbn. now rewrite E.
Qed.

Lemma orNull_idem (x : option string) : orNull (orNull x) = orNull x.
Proof.
  destruct x as [s|]; cbn; [|reflexivity].
  destruct (s =? "") eqn:E; cbn; [reflexivity|]. now rewrite E.
Qed.

Lemma orNull_nonEmpty (s : string) : s <> "" -> orNull (Some s) = Some s.
Proof.
  intros H. cbn. destruct (s =? "") eqn:E; [|reflexivity].
  apply String.eqb_eq in E. contradiction.
Qed.

Lemma orString_label (label : string) : orString (orNull (Some label)) "" = label.
Proof.
  cbn. destruct (label =? "") eqn:E; cbn.
  - apply String.eqb_eq in E. now subst.
  - now rewrite E.
Qed.

Lemma normalizeDate_rewritten (env : Env) (r : TransfersTable.t) :
  readerWithinHalfDay env -> writtenDate r ->
  normalizeDate env (dataEnvioToDb (normalizeDate env (TransfersTable.data_envio r)))
  = normalizeDate env (TransfersTable.data_envio r).
Proof.
  intros Htz Hw. unfold writtenDate in Hw.
  destruct (TransfersTable.data_envio r) as [s|]; [|reflexivity].
  destruct Hw as [y [Hy ->]].
  rewrite (normalizeDate_noonText env y Htz Hy).
  rewrite (dataEnvioToDb_newYearText y Hy).
  apply normalizeDate_noonText; assumption.
Qed.

(** Reading a row, merging new amounts and writing it back leaves the
    fixed part of the entry as it was. *)
Lemma rewrite_keeps_fixedPart (env : Env) (r : TransfersTable.t) (u : TransferUpdates) :
  readerWithinHalfDay env -> writtenDate r -> amountsOnly u ->
  fixedPart (dbToTransfer env
               (toRow (TransfersTable.id r) (TransfersTable.created_at r)
                      (transferToDb (merge (dbToTransfer env r) u))))
  = fixedPart (dbToTransfer env r).
Proof.
  intros Htz Hw [U1 [U2 [U3 [U4 U5]]]].
  destruct u as [up ub ut ul us ud uc un]. cbn in U1, U2, U3, U4, U5. subst.
  unfold fixedPart.
  cbn [id periodo status dataEnvio customerId customerName createdAt
       dbToTransfer toRow transferToDb merge
       TransfersTable.id TransfersTable.periodo TransfersTable.status
       TransfersTable.data_envio TransfersTable.customer_id TransfersTable.customer_name
       TransfersTable.created_at
       d_periodo d_status d_data_envio d_customer_id d_customer_name
       n_periodo n_status n_dataEnvio n_customerId n_customerName
       u_periodo u_status u_dataEnvio u_customerId u_customerName].
  rewrite orString_orNull, orString_status, !orNull_idem.
  rewrite (normalizeDate_rewritten env r Htz Hw). reflexivity.
Qed.

Lemma rewrite_keeps_writtenDate (env : Env) (r : TransfersTable.t) (u : TransferUpdates) :
  readerWithinHalfDay env -> writtenDate r -> amountsOnly u ->
  writtenDate (toRow (TransfersTable.id r) (TransfersTable.created_at r)
                     (transferToDb (merge (dbToTransfer env r) u))).
Proof.
  intros Htz Hw [_ [_ [U3 _]]].
  destruct u as [up ub ut ul us ud uc un]. cbn in U3. subst.
  unfold writtenDate in *.
  cbn [dataEnvio dbToTransfer toRow transferToDb merge TransfersTable.data_envio
       d_data_envio n_dataEnvio u_dataEnvio].
  destruct (TransfersTable.data_envio r) as [s|]; [|exact I].
  destruct Hw as [y [Hy ->]].
  rewrite (normalizeDate_noonText env y Htz Hy), (dataEnvioToDb_newYearText y Hy).
  exists y. split; [exact Hy | reflexivity].
Qed.

Section Reconciliation.

Variable env : Env.
Hypothesis no_faults : noFaults env.
Hypothesis reader_offset : readerWithinHalfDay env.

(** The relation between a row before and after a reconciliation that
    found the entry [i]. *)
Definition amountsChanged (i : string) (r r' : TransfersTable.t) : Prop :=
  fixedPart (dbToTransfer env r') = fixedPart (dbToTransfer env r)
  /\ writtenDate r'
  /\ (TransfersTable.id r <> i -> r' = r).

Lemma getTransfers_returns (w : World) :
  returns (getTransfers env) w
          (fun ts w' => transfers w' = transfers w
                        /\ forall t, In t ts <-> In t (ledger env w)).
Proof.
  unfold getTransfers. apply returns_tryCatch.
  apply returns_bind. apply returns_storeCall; [exact no_faults|].
  cbn [fst snd]. apply returns_ret. split; [reflexivity|].
  intros t. rewrite sortBy_In. unfold ledger. rewrite !in_map_iff.
  change (transfers (tickWorld w)) with (transfers w).
  split; intros [r [E H]]; exists r; (split; [exact E|]).
  - apply (sortBy_In dbBefore (transfers w) r). exact H.
  - apply (sortBy_In dbBefore (transfers w) r). exact H.
Qed.

Lemma getTransferById_returns (i : string) (w : World) :
  returns (getTransferById env i) w
          (fun found w' =>
             transfers w' = transfers w
             /\ match found with
                | Some t =>
                    exists r, t = dbToTransfer env r
                              /\ List.filter (fun x => TransfersTable.id x =? i) (transfers w)
                                 = [r]
                | None => True
                end).
Proof.
  unfold getTransferById. apply returns_tryCatch.
  apply returns_bind. apply returns_storeCall; [exact no_faults|].
  cbn [fst snd].
  change (transfers (tickWorld w)) with (transfers w).
  destruct (List.filter _ (transfers w)) as [|r [|r2 rest]] eqn:F; cbn [maybeSingle].
  - apply returns_ret. split; [reflexivity | exact I].
  - apply returns_ret. split; [reflexivity|]. exists r. split; reflexivity.
  - apply returns_ret. split; [reflexivity | exact I].
Qed.

Lemma Forall2_map_self {A : Type} (R : A -> A -> Prop) (f : A -> A) (l : list A) :
  (forall x, In x l -> R x (f x)) -> Forall2 R l (List.map f l).
Proof.
  induction l as [|x r IH]; intros H; cbn.
  - constructor.
  - constructor; [apply H; left; reflexivity|]. apply IH. intros y Hy. apply H. right. exact Hy.
Qed.

Lemma Forall2_refl_on {A : Type} (R : A -> A -> Prop) (l : list A) :
  (forall x, In x l -> R x x) -> Forall2 R l l.
Proof.
  intros H. rewrite <- (map_id l) at 2. apply Forall2_map_self. exact H.
Qed.

Lemma updateTransfer_returns (i : string) (u : TransferUpdates) (w : World) :
  Forall writtenDate (transfers w) -> amountsOnly u ->
  returns (updateTransfer env i u) w
          (fun _ w' => Forall2 (amountsChanged i) (transfers w) (transfers w')).
Proof.
  intros Hw Hu. rewrite Forall_forall in Hw.
  unfold updateTransfer. apply returns_tryCatch. apply returns_bind.
  eapply returns_weaken; [apply getTransferById_returns|].
  intros found w1 [Ht Hfound]. cbn beta.
  destruct found as [current|].
  - destruct Hfound as [r0 [-> F]].
    apply returns_bind. apply returns_storeCall; [exact no_faults|].
    unfold updateRows. cbn [fst snd].
    change (transfers (tickWorld w1)) with (transfers w1). rewrite Ht.
    assert (G : Forall2 (amountsChanged i) (transfers w)
                        (List.map (fun r => if TransfersTable.id r =? i
                                            then toRow (TransfersTable.id r)
                                                       (TransfersTable.created_at r)
                                                       (transferToDb (merge (dbToTransfer env r0) u))
                                            else r) (transfers w))).
    { apply Forall2_map_self. intros x Hx.
      destruct (TransfersTable.id x =? i) eqn:E.
      - assert (Hin : In x (List.filter (fun x => TransfersTable.id x =? i) (transfers w)))
          by (apply filter_In; split; assumption).
        rewrite F in Hin. destruct Hin as [<-|[]].
        split; [|split].
        + apply rewrite_keeps_fixedPart; auto.
        + apply rewrite_keeps_writtenDate; auto.
        + intros N. apply String.eqb_eq in E. contradiction.
      - split; [reflexivity|]. split; [apply Hw, Hx | reflexivity]. }
    match goal with
    | |- returns (match ?x with _ => _ end) _ _ => destruct x as [data|]
    end.
    + apply returns_ret. exact G.
    + apply returns_bind. apply returns_logTo. apply returns_ret. exact G.
  - apply returns_ret. rewrite Ht. apply Forall2_refl_on.
    intros x Hx. split; [reflexivity|]. split; [apply Hw, Hx | reflexivity].
Qed.

Lemma createTransfer_returns (transfer : NewTransfer) (w : World) :
  returns (createTransfer env transfer) w
          (fun _ w' => exists newId now,
               transfers w' = transfers w ++ [toRow newId now (transferToDb transfer)]).
Proof.
  unfold createTransfer. apply returns_tryCatch.
  apply returns_bind, returns_dateNow.
  apply returns_bind, returns_mathRandom.
  apply returns_bind. apply returns_storeCall; [exact no_faults|].
  cbn [fst snd insertTransfer]. apply returns_ret.
  eexists. eexists. reflexivity.
Qed.

Lemma getCustomerCardValues_returns (spreadsheet : Sheet.SpreadsheetData) (w : World)
      (P : option CardValues -> World -> Prop) :
  (forall cv, P cv (tickWorld w)) ->
  returns (getCustomerCardValues env spreadsheet) w P.
Proof.
  intros H. unfold getCustomerCardValues.
  apply returns_serviceCall; [exact no_faults | apply H].
Qed.

Lemma calculateSpreadsheetMetrics_returns (spreadsheet : Sheet.SpreadsheetData) (w : World)
      (P : Metrics.SpreadsheetMetrics -> World -> Prop) :
  (forall m, P m (tickWorld w)) ->
  returns (calculateSpreadsheetMetrics env spreadsheet) w P.
Proof.
  intros H. unfold calculateSpreadsheetMetrics, getCustomerTax.
  apply returns_bind, returns_serviceCall; [exact no_faults|].
  apply returns_ret, H.
Qed.

(** What the lookup of the reconciler finds. *)
Lemma lookup_finds_entry (spreadsheet : Sheet.SpreadsheetData) (label : string)
      (allTransfers : list Transfer) (w : World) :
  (forall t, In t allTransfers <-> In t (ledger env w)) ->
  match List.find (fun t => sameCustomer spreadsheet t && samePeriod (Some label) t)
                  (List.filter (sameCustomer spreadsheet) allTransfers) with
  | Some existing =>
      In existing (ledger env w) /\ entryOf spreadsheet label existing = true
      /\ existsb (entryOf spreadsheet label) (ledger env w) = true
  | None => existsb (entryOf spreadsheet label) (ledger env w) = false
  end.
Proof.
  intros Hin.
  destruct (List.find _ _) as [existing|] eqn:F.
  - apply find_some in F. destruct F as [F1 F2].
    apply filter_In in F1. destruct F1 as [F1 _]. apply Hin in F1.
    split; [exact F1|]. split; [exact F2|].
    apply existsb_exists. exists existing. split; [exact F1 | exact F2].
  - destruct (existsb _ _) eqn:E; [|reflexivity].
    apply existsb_exists in E. destruct E as [t [T1 T2]].
    pose proof (find_none _ _ F t) as N. cbn beta in N.
    unfold entryOf in T2. rewrite T2 in N. apply N.
    apply filter_In. split; [apply Hin, T1|].
    apply andb_true_iff in T2. apply T2.
Qed.

(** The effect of a reconciliation on the ledger, by whether the lookup
    finds an entry. *)
Definition reconciled (spreadsheet : Sheet.SpreadsheetData) (label : string)
           (w w' : World) : Prop :=
  if existsb (entryOf spreadsheet label) (ledger env w)
  then exists existing,
      In existing (ledger env w)
      /\ entryOf spreadsheet label existing = true
      /\ Forall2 (amountsChanged (id existing)) (transfers w) (transfers w')
  else transfers w' = transfers w
       \/ exists r, transfers w' = transfers w ++ [r]
                    /\ entryOf spreadsheet label (dbToTransfer env r) = true.

Lemma createTransferFromSpreadsheet_reconciles (spreadsheet : Sheet.SpreadsheetData)
      (label : string) (w : World) :
  Forall writtenDate (transfers w) ->
  Sheet.customerId spreadsheet <> "" ->
  periodoOf env spreadsheet = Some label ->
  returns (createTransferFromSpreadsheet env spreadsheet) w
          (fun _ w' => reconciled spreadsheet label w w').
Proof.
  intros Hw Hc Hl. unfold reconciled.
  unfold createTransferFromSpreadsheet. apply returns_tryCatch. rewrite Hl.
  apply returns_bind, returns_logTo.
  apply returns_bind. eapply returns_weaken; [apply getTransfers_returns|].
  intros allTransfers w1 [Ht Hin]. cbn beta. cbn [transfers] in Ht.
  pose proof (lookup_finds_entry spreadsheet label allTransfers w Hin) as L.
  destruct (List.find _ _) as [existing|].
  - destruct L as [L1 [L2 L3]]. rewrite L3.
    apply returns_bind, returns_logTo.
    apply returns_bind, returns_logTo.
    apply returns_bind, getCustomerCardValues_returns. intros cv.
    apply returns_bind, calculateSpreadsheetMetrics_returns. intros m.
    destruct (entryValues cv m) as [[valorBruto taxas] valorLiquido].
    destruct (isPositive valorBruto).
    + apply returns_bind. eapply returns_weaken.
      * apply updateTransfer_returns.
        -- cbn [transfers tickWorld]. rewrite Ht. exact Hw.
        -- repeat split.
      * intros updated w2 H. cbn beta in H. apply returns_logTo. cbn [transfers].
        exists existing. split; [exact L1|]. split; [exact L2|].
        cbn [transfers tickWorld] in H. rewrite Ht in H. exact H.
    + apply returns_ret. exists existing. split; [exact L1|]. split; [exact L2|].
      cbn [transfers tickWorld]. rewrite Ht.
      apply Forall2_refl_on. intros x Hx.
      split; [reflexivity|]. split; [|reflexivity].
      rewrite Forall_forall in Hw. apply Hw, Hx.
  - rewrite L.
    apply returns_bind, returns_logTo.
    apply returns_bind, getCustomerCardValues_returns. intros cv.
    apply returns_bind, calculateSpreadsheetMetrics_returns. intros m.
    destruct (entryValues cv m) as [[valorBruto taxas] valorLiquido].
    destruct (negb (isPositive valorBruto)).
    + apply returns_logTo. left. cbn [transfers tickWorld]. exact Ht.
    + unfold getCustomers.
      apply returns_bind, returns_serviceCall; [exact no_faults|].
      apply returns_bind. eapply returns_weaken; [apply createTransfer_returns|].
      intros created w2 [newId [now H]]. apply returns_logTo. right. cbn [transfers].
      cbn [transfers tickWorld] in H.
      rewrite Ht in H. eexists. split; [exact H|].
      unfold entryOf, sameCustomer, samePeriod.
      cbn [customerId periodo dbToTransfer toRow transferToDb
           TransfersTable.customer_id TransfersTable.periodo
           d_customer_id d_periodo n_customerId n_periodo].
      rewrite orNull_idem, (orNull_nonEmpty _ Hc), orString_label, !String.eqb_refl.
      reflexivity.
Qed.

(** The entries of the ledger for a customer and a period label. *)
Definition entries (spreadsheet : Sheet.SpreadsheetData) (label : string) (w : World)
  : list Transfer :=
  List.filter (entryOf spreadsheet label) (ledger env w).

Lemma entryOf_fixedPart (spreadsheet : Sheet.SpreadsheetData) (label : string)
      (t t' : Transfer) :
  fixedPart t' = fixedPart t -> entryOf spreadsheet label t' = entryOf spreadsheet label t.
Proof.
  unfold fixedPart, entryOf, sameCustomer, samePeriod. intros H.
  inversion H as [[H1 H2 H3 H4 H5 H6 H7]]. now rewrite H2, H5.
Qed.

Lemma entries_unchanged (spreadsheet : Sheet.SpreadsheetData) (label i : string)
      (l l' : list TransfersTable.t) :
  Forall2 (amountsChanged i) l l' ->
  List.length (List.filter (entryOf spreadsheet label) (List.map (dbToTransfer env) l'))
  = List.length (List.filter (entryOf spreadsheet label) (List.map (dbToTransfer env) l)).
Proof.
  induction 1 as [|r r' l l' [H _] _ IH]; [reflexivity|].
  cbn [List.map List.filter].
  rewrite (entryOf_fixedPart spreadsheet label _ _ H).
  destruct (entryOf spreadsheet label (dbToTransfer env r)); cbn [List.length]; now rewrite IH.
Qed.

Lemma existsb_false_filter {A : Type} (p : A -> bool) (l : list A) :
  existsb p l = false -> List.filter p l = [].
Proof.
  induction l as [|x r IH]; cbn; [reflexivity|].
  destruct (p x); cbn; [discriminate | exact IH].
Qed.

(** A ledger with at most one entry for the customer and the period label
    has at most one after a reconciliation. *)
Lemma reconciliation_never_duplicates (spreadsheet : Sheet.SpreadsheetData)
      (label : string) (w : World) :
  Forall writtenDate (transfers w) ->
  Sheet.customerId spreadsheet <> "" ->
  periodoOf env spreadsheet = Some label ->
  (List.length (entries spreadsheet label w) <= 1)%nat ->
  returns (createTransferFromSpreadsheet env spreadsheet) w
          (fun _ w' => (List.length (entries spreadsheet label w') <= 1)%nat).
Proof.
  intros Hw Hc Hl H1.
  eapply returns_weaken; [apply createTransferFromSpreadsheet_reconciles; eassumption|].
  intros u w' H. cbn beta in H. unfold reconciled, entries, ledger in *.
  destruct (existsb _ _) eqn:E.
  - destruct H as [existing [_ [_ F]]].
    rewrite (entries_unchanged spreadsheet label _ _ _ F). exact H1.
  - apply existsb_false_filter in E.
    destruct H as [->|[r [-> Hr]]].
    + exact H1.
    + rewrite map_app, filter_app, length_app. unfold ledger in E. rewrite E.
      cbn [List.map List.filter]. rewrite Hr. cbn. lia.
Qed.


End Reconciliation.


(** The same snapshot saved twice: one entry, whose status and sent date
    the second reconciliation has not changed. *)
Example reconciled_twice :
  List.map fixedPart (ledger SaveProps.workingEnv (SaveProps.afterSecondSave None))
  = List.map fixedPart (ledger SaveProps.workingEnv (SaveProps.afterFirstSave None))
  /\ List.map status (ledger SaveProps.workingEnv (SaveProps.afterSecondSave None))
     = ["pendente"].
Proof. split; reflexivity. Qed.

(** The hypothesis on the store is needed.  [getTransfers] answers a failed
    query with the empty list; a reconciliation whose lookup is the one
    request the store does not answer finds no entry and writes a second
    one. *)
Definition lookupFaultEnv : Env :=
  mkEnv (LocalTZA SaveProps.workingEnv)
        (fun n => Nat.eqb n (clock (SaveProps.afterFirstSave None)))
        (nowAt SaveProps.workingEnv) (randomAt SaveProps.workingEnv)
        (customerTaxOf SaveProps.workingEnv) (cardValuesOf SaveProps.workingEnv)
        (customers SaveProps.workingEnv) (toLocaleDateString SaveProps.workingEnv).

Example unanswered_lookup_adds_an_entry :
  List.map periodo
           (ledger lookupFaultEnv
                   (snd (createTransferFromSpreadsheet lookupFaultEnv (SaveProps.mayUpload None)
                                                       (SaveProps.afterFirstSave None))))
  = ["Maio/2024"; "Maio/2024"].
Proof. reflexivity. Qed.

End LedgerProps.

(* ===================================================================== *)
(** ** Monthly snapshots of a terminal *)
(* ===================================================================== *)

Module SnapshotStoreProps.
Import SpreadsheetService SaveProps.

(** The predicate of the lookup, for a terminal, is the key of the
    snapshot. *)
Lemma isExistingMonthly_key (customerId terminal referenceMonth : string)
      (r : SpreadsheetsTable.t) :
  terminal <> "" ->
  isExistingMonthly customerId (Some terminal) referenceMonth r
  = (SpreadsheetsTable.customer_id r =? customerId)
    && option_eqb (SpreadsheetsTable.terminal_id r) (Some terminal)
    && (SpreadsheetsTable.reference_month r =? referenceMonth)
    && SpreadsheetType_eqb (SpreadsheetsTable.type r) monthly.
Proof.
  intros Ht. unfold isExistingMonthly, pgEq, orNull, option_eqb.
  destruct (terminal =? "") eqn:E; [apply String.eqb_eq in E; contradiction|].
  destruct (SpreadsheetsTable.type r); reflexivity.
Qed.

Lemma filter_map_same {A : Type} (p : A -> bool) (f : A -> A) (l : list A) :
  (forall x, In x l -> p (f x) = p x) ->
  List.filter p (List.map f l) = List.map f (List.filter p l).
Proof.
  induction l as [|x r IH]; intros H; cbn; [reflexivity|].
  rewrite (H x (or_introl eq_refl)).
  destruct (p x); cbn; rewrite IH; auto; intros y Hy; apply H; right; exact Hy.
Qed.

(** X3.  With a terminal, a store that answers and identifiers that identify,
    the write of a monthly snapshot whose month already has one leaves
    exactly one for the key: the new one. *)
Lemma persist_replaces_for_terminal (env : Env) (s : Sheet.SpreadsheetData)
      (terminal i : string) (existing : SpreadsheetsTable.t) (w : World) :
  noFaults env ->
  sheetType s = monthly ->
  Sheet.terminalId s = Some terminal -> terminal <> "" ->
  monthlySnapshots (Sheet.customerId s) (Some terminal) (Sheet.referenceMonth s) w
  = [existing] ->
  SpreadsheetsTable.id existing = Some i ->
  (forall r, In r (spreadsheets w) -> SpreadsheetsTable.id r = Some i -> r = existing) ->
  returns (persist env s) w
          (fun _ w' =>
             monthlySnapshots (Sheet.customerId s) (Some terminal) (Sheet.referenceMonth s) w'
             = [spreadsheetToDb s]).
Proof.
  intros Hf Hm Ht Hne Hone Hid Huniq.
  set (key := fun r => (SpreadsheetsTable.customer_id r =? Sheet.customerId s)
                       && option_eqb (SpreadsheetsTable.terminal_id r) (Some terminal)
                       && (SpreadsheetsTable.reference_month r =? Sheet.referenceMonth s)
                       && SpreadsheetType_eqb (SpreadsheetsTable.type r) monthly).
  assert (Hk : forall r, isExistingMonthly (Sheet.customerId s) (Some terminal)
                                           (Sheet.referenceMonth s) r = key r)
    by (intros r; apply isExistingMonthly_key, Hne).
  assert (Hnew : key (spreadsheetToDb s) = true).
  { unfold key, spreadsheetToDb. cbn. rewrite Ht, Hm, !String.eqb_refl. cbn.
    destruct (terminal =? "") eqn:E; [apply String.eqb_eq in E; contradiction|].
    cbn. now rewrite String.eqb_refl. }
  unfold persist. rewrite Hm, Ht.
  apply returns_bind. apply returns_storeCall; [exact Hf|].
  unfold selectExistingMonthly. cbn [fst snd].
  change (spreadsheets (tickWorld w)) with (spreadsheets w).
  rewrite (filter_ext _ _ Hk). fold key.
  change (List.filter key (spreadsheets w))
    with (monthlySnapshots (Sheet.customerId s) (Some terminal) (Sheet.referenceMonth s) w).
  rewrite Hone. cbn [maybeSingle].
  apply returns_bind. apply returns_storeCall; [exact Hf|].
  unfold updateSpreadsheet. cbn [fst snd]. apply returns_ret.
  unfold monthlySnapshots. cbn [spreadsheets].
  change (spreadsheets (tickWorld (tickWorld w))) with (spreadsheets w).
  fold key. rewrite filter_map_same.
  - change (List.filter key (spreadsheets w))
      with (monthlySnapshots (Sheet.customerId s) (Some terminal)
                             (Sheet.referenceMonth s) w).
    rewrite Hone. cbn [List.map]. rewrite Hid. cbn [pgEq].
    now rewrite String.eqb_refl.
  - intros r Hr. rewrite Hid. unfold pgEq.
    destruct (SpreadsheetsTable.id r) as [c|] eqn:Ec; [|reflexivity].
    destruct (c =? i) eqn:E; [|reflexivity].
    apply String.eqb_eq in E. subst c.
    rewrite (Huniq r Hr Ec), Hnew.
    assert (Hin : In existing (monthlySnapshots (Sheet.customerId s) (Some terminal)
                                                (Sheet.referenceMonth s) w))
      by (rewrite Hone; left; reflexivity).
    apply filter_In in Hin. symmetry. apply Hin.
Qed.

Lemma persist_replaces_for_terminal_witness :
  returns (persist workingEnv (mayUpload (Some "T1"))) (afterFirstSave (Some "T1"))
          (fun _ w' =>
             monthlySnapshots "customer-1" (Some "T1") "2024-05" w'
             = [spreadsheetToDb (mayUpload (Some "T1"))]).
Proof.
  eapply (persist_replaces_for_terminal workingEnv (mayUpload (Some "T1")) "T1").
  - intros n. reflexivity.
  - reflexivity.
  - reflexivity.
  - discriminate.
  - vm_compute. reflexivity.
  - vm_compute. reflexivity.
  - intros r H E. vm_compute in H. destruct H as [<-|[]]. reflexivity.
Defined.

End SnapshotStoreProps.

(* ===================================================================== *)
(** ** Sorting: order *)
(* ===================================================================== *)

Section SortedBy.

Context {A : Type} (le : A -> A -> bool).
Hypothesis le_total : forall a b, le a b = true \/ le b a = true.
Hypothesis le_trans : forall a b c, le a b = true -> le b c = true -> le a c = true.

Lemma insertBy_sorted (x : A) (l : list A) :
  StronglySorted (fun a b => le a b = true) l ->
  StronglySorted (fun a b => le a b = true) (insertBy le x l).
Proof.
  induction 1 as [|y r Hr IH Hy]; cbn [insertBy].
  - constructor; constructor.
  - destruct (le x y) eqn:E.
    + constructor; [constructor; assumption|].
      constructor; [exact E|].
      rewrite Forall_forall in *. intros z Hz. apply (le_trans x y z E), Hy, Hz.
    + constructor; [exact IH|].
      rewrite Forall_forall in *. intros z Hz.
      apply (Permutation_in _ (insertBy_perm le x r)) in Hz.
      destruct Hz as [<-|Hz]; [|apply Hy, Hz].
      destruct (le_total x y) as [H|H]; [congruence | exact H].
Qed.

Lemma sortBy_sorted (l : list A) : StronglySorted (fun a b => le a b = true) (sortBy le l).
Proof.
  induction l as [|x r IH]; cbn [sortBy fold_right].
  - constructor.
  - apply insertBy_sorted, IH.
Qed.

End SortedBy.

Lemma ascii_compare_spec (a b : ascii) :
  CompareSpec (a = b) (N_of_ascii a < N_of_ascii b)%N (N_of_ascii b < N_of_ascii a)%N
              (Ascii.compare a b).
Proof.
  unfold Ascii.compare.
  destruct (N.compare_spec (N_of_ascii a) (N_of_ascii b)) as [H|H|H]; constructor; auto.
  apply (f_equal ascii_of_N) in H. now rewrite !ascii_N_embedding in H.
Qed.

Lemma string_leb_trans (a b c : string) :
  String.leb a b = true -> String.leb b c = true -> String.leb a c = true.
Proof.
  unfold String.leb. revert b c.
  induction a as [|x r IH]; intros [|y s] [|z t]; cbn [String.compare]; try congruence.
  intros H1 H2.
  destruct (ascii_compare_spec x y) as [->|Hxy|Hxy];
    destruct (ascii_compare_spec y z) as [->|Hyz|Hyz]; try discriminate.
  - destruct (ascii_compare_spec z z) as [_|H|H]; try lia. apply (IH s t H1 H2).
  - destruct (ascii_compare_spec y z) as [->|H|H]; try lia; reflexivity.
  - destruct (ascii_compare_spec x z) as [->|H|H]; try lia; reflexivity.
  - destruct (ascii_compare_spec x z) as [->|H|H]; try lia; reflexivity.
Qed.

(** Keys in descending order. *)
Definition descending (l : list string) : Prop :=
  StronglySorted (fun a b => String.leb b a = true) l.

Lemma sortDescending_descending (l : list string) :
  descending (SpreadsheetService.sortDescending l).
Proof.
  unfold descending, SpreadsheetService.sortDescending.
  apply (sortBy_sorted (fun a b => String.leb b a)).
  - intros a b. destruct (String.leb_total a b); auto.
  - intros a b c H1 H2. apply (string_leb_trans c b a H2 H1).
Qed.

(* ===================================================================== *)
(** ** Column mapper: what an answer means *)
(* ===================================================================== *)

Module ColumnResolutionProps.
Import JsString ColumnMapper.

(** The three ways a header answers for a field, as the code compares
    them: the normalised header is the field name; it is a key of the
    synonym table mapped to the field; it contains the normalised field
    name or is contained in it. *)
Definition exactMatch (fieldName h : string) : bool :=
  normalizeColumnName h =? fieldName.

Definition synonymMatch (fieldName h : string) : bool :=
  existsb (fun entry => (snd entry =? fieldName) && (normalizeColumnName h =? fst entry))
          FIELD_MAPPINGS.

Definition similarMatch (fieldName h : string) : bool :=
  includes (normalizeColumnName h) (normalizeColumnName fieldName)
  || includes (normalizeColumnName fieldName) (normalizeColumnName h).

Definition answersFor (fieldName h : string) : bool :=
  exactMatch fieldName h || synonymMatch fieldName h || similarMatch fieldName h.

Lemma findIndexFrom_some {A : Type} (p : A -> bool) (l : list A) :
  forall i k, findIndexFrom p l i = Some k ->
              exists x, nth_error l (k - i) = Some x /\ p x = true /\ (i <= k)%nat.
Proof.
  induction l as [|x r IH]; intros i k H; cbn in H; [discriminate|].
  destruct (p x) eqn:E.
  - inversion H; subst. exists x. rewrite Nat.sub_diag. repeat split; auto.
  - destruct (IH _ _ H) as [y [Hy [Py Hle]]]. exists y.
    replace (k - i)%nat with (S (k - S i)) by lia. repeat split; auto. lia.
Qed.

Lemma findIndex_some {A : Type} (p : A -> bool) (l : list A) (k : nat) :
  findIndex p l = Some k -> exists x, nth_error l k = Some x /\ p x = true.
Proof.
  intros H. destruct (findIndexFrom_some p l 0 k H) as [x [Hx [Px _]]].
  rewrite Nat.sub_0_r in Hx. exists x. split; assumption.
Qed.

Lemma findIndexFrom_none {A : Type} (p : A -> bool) (l : list A) :
  forall i, findIndexFrom p l i = None <-> forall x, In x l -> p x = false.
Proof.
  induction l as [|x r IH]; intros i; cbn.
  - split; [intros _ y [] | reflexivity].
  - destruct (p x) eqn:E.
    + split; [discriminate|]. intros H. rewrite (H x (or_introl eq_refl)) in E. discriminate.
    + rewrite IH. split.
      * intros H y [<-|Hy]; [exact E | apply H, Hy].
      * intros H y Hy. apply H. right. exact Hy.
Qed.

Lemma findIndex_none {A : Type} (p : A -> bool) (l : list A) :
  findIndex p l = None <-> forall x, In x l -> p x = false.
Proof. apply findIndexFrom_none. Qed.

Lemma findByMapping_some (entries : list (string * string)) (headers : list string)
      (fieldName : string) (k : nat) :
  findByMapping entries headers fieldName = Some k ->
  exists h, nth_error headers k = Some h
            /\ existsb (fun entry => (snd entry =? fieldName)
                                     && (normalizeColumnName h =? fst entry)) entries = true.
Proof.
  induction entries as [|[key mapped] rest IH]; cbn [findByMapping]; intros H.
  - discriminate.
  - cbn [existsb fst snd]. destruct (mapped =? fieldName) eqn:Em.
    + destruct (findIndex _ headers) as [i|] eqn:Ei.
      * inversion H; subst. destruct (findIndex_some _ _ _ Ei) as [h [Hh Ph]].
        exists h. split; [exact Hh|]. cbn beta in Ph. rewrite Ph. reflexivity.
      * destruct (IH H) as [h [Hh Ph]]. exists h. split; [exact Hh|].
        rewrite Ph. apply orb_true_r.
    + destruct (IH H) as [h [Hh Ph]]. exists h. split; [exact Hh|].
      rewrite Ph. apply orb_true_r.
Qed.

Lemma findByMapping_none (entries : list (string * string)) (headers : list string)
      (fieldName : string) :
  findByMapping entries headers fieldName = None <->
  forall h, In h headers ->
            existsb (fun entry => (snd entry =? fieldName)
                                  && (normalizeColumnName h =? fst entry)) entries = false.
Proof.
  induction entries as [|[key mapped] rest IH]; cbn [findByMapping existsb fst snd].
  - split; [intros _ h _; reflexivity | reflexivity].
  - destruct (mapped =? fieldName) eqn:Em; cbn [andb].
    + destruct (findIndex _ headers) as [i|] eqn:Ei.
      * split; [discriminate|]. intros H.
        destruct (findIndex_some _ _ _ Ei) as [h [Hh Ph]]. cbn beta in Ph.
        apply nth_error_In in Hh. specialize (H h Hh). rewrite Ph in H. discriminate.
      * rewrite IH. rewrite findIndex_none in Ei. split.
        -- intros H h Hh. rewrite (Ei h Hh). apply H, Hh.
        -- intros H h Hh. specialize (H h Hh). rewrite (Ei h Hh) in H. exact H.
    + exact IH.
Qed.

Lemma includes_empty (s : string) : includes s "" = true.
Proof. destruct s; reflexivity. Qed.

Lemma resolution (headers : list string) (fieldName : string) :
  match findColumnIndex headers fieldName with
  | Some k => exists h, nth_error headers k = Some h /\ answersFor fieldName h = true
  | None => forall h, In h headers -> answersFor fieldName h = false
  end.
Proof.
  unfold findColumnIndex, findBySimilarity, answersFor, exactMatch, synonymMatch,
    similarMatch.
  destruct (findIndex (fun h => normalizeColumnName h =? fieldName) headers) as [i|] eqn:E1;
    cbv iota beta.
  - destruct (findIndex_some _ _ _ E1) as [h [Hh Ph]]. exists h. split; [exact Hh|].
    cbn beta in Ph. now rewrite Ph.
  - destruct (findByMapping FIELD_MAPPINGS headers fieldName) as [i|] eqn:E2; cbv iota beta.
    + destruct (findByMapping_some _ _ _ _ E2) as [h [Hh Ph]]. exists h.
      split; [exact Hh|]. rewrite Ph. now rewrite orb_true_r.
    + match goal with
      | |- context [findIndex ?p headers] => destruct (findIndex p headers) as [i|] eqn:E3
      end; cbv iota beta.
      * destruct (findIndex_some _ _ _ E3) as [h [Hh Ph]]. exists h.
        split; [exact Hh|]. cbn beta zeta in Ph. rewrite Ph. now rewrite orb_true_r.
      * intros h Hh.
        rewrite findIndex_none in E1, E3. rewrite findByMapping_none in E2.
        rewrite (E1 h Hh), (E2 h Hh). cbn [orb]. apply (E3 h Hh).
Qed.

(** X4.  An index [findColumnIndex] returns is the position of a header that
    answers for the field in one of the three ways. *)
Theorem findColumnIndex_points_at_a_match (headers : list string) (fieldName : string)
        (k : nat) :
  findColumnIndex headers fieldName = Some k ->
  exists h, nth_error headers k = Some h /\ answersFor fieldName h = true.
Proof.
  intros H. pose proof (resolution headers fieldName) as R. rewrite H in R. exact R.
Qed.

Lemma findColumnIndex_points_at_a_match_witness :
  findColumnIndex ["Data"; "Valor Bruto"] "valorBruto" = Some 1%nat
  /\ exists h, nth_error ["Data"; "Valor Bruto"] 1 = Some h
               /\ answersFor "valorBruto" h = true.
Proof.
  split; [reflexivity|].
  apply (findColumnIndex_points_at_a_match ["Data"; "Valor Bruto"] "valorBruto" 1).
  reflexivity.
Defined.

(** X5.  [findColumnIndex] returns [null] exactly when no header answers for the
    field in any of the three ways. *)
Theorem findColumnIndex_null_iff_no_match (headers : list string) (fieldName : string) :
  findColumnIndex headers fieldName = None <->
  forall h, In h headers -> answersFor fieldName h = false.
Proof.
  pose proof (resolution headers fieldName) as R. split.
  - intros H. rewrite H in R. exact R.
  - intros H. destruct (findColumnIndex headers fieldName) as [k|]; [|reflexivity].
    destruct R as [h [Hh Ph]]. apply nth_error_In in Hh.
    rewrite (H h Hh) in Ph. discriminate.
Qed.

Lemma findColumnIndex_null_iff_no_match_witness :
  findColumnIndex ["Data"; "Cliente"] "valorBruto" = None
  /\ answersFor "valorBruto" "Cliente" = false.
Proof.
  split; [reflexivity|].
  apply (proj1 (findColumnIndex_null_iff_no_match ["Data"; "Cliente"] "valorBruto")).
  - reflexivity.
  - right. left. reflexivity.
Defined.

(** X6.  A header that is blank once normalised is contained in every field
    name: with such a header among the columns every field is resolved to
    some column. *)
Theorem blank_header_answers_for_every_field (headers : list string) (fieldName h : string) :
  In h headers -> normalizeColumnName h = "" ->
  exists k, findColumnIndex headers fieldName = Some k.
Proof.
  intros Hin Hb. pose proof (resolution headers fieldName) as R.
  destruct (findColumnIndex headers fieldName) as [k|]; [exists k; reflexivity|].
  specialize (R h Hin). unfold answersFor, similarMatch in R.
  rewrite Hb, includes_empty, !orb_true_r in R. discriminate.
Qed.

Lemma blank_header_answers_for_every_field_witness :
  In "  " ["Data"; "  "] /\ normalizeColumnName "  " = ""
  /\ exists k, findColumnIndex ["Data"; "  "] "valorBruto" = Some k.
Proof.
  split; [right; left; reflexivity|]. split; [reflexivity|].
  apply (blank_header_answers_for_every_field ["Data"; "  "] "valorBruto" "  ").
  - right. left. reflexivity.
  - reflexivity.
Defined.

End ColumnResolutionProps.

(* ===================================================================== *)
(** ** Metrics: empty sheets, sheets in parts *)
(* ===================================================================== *)

Module MetricsTotalsProps.
Import JsString JsNumber Metrics.

(** A sheet without rows has every total at zero, whatever its headers;
    its fee rate is the customer's when one is set and zero otherwise. *)
Lemma metrics_totals_without_rows (sp : Sheet.SpreadsheetData) (customerTax : option Q) :
  Sheet.data sp = [] ->
  calculateSpreadsheetMetrics sp customerTax
  = mkMetrics 0 (List.length (Sheet.headers sp)) 0 0 0
              (match customerTax with
               | Some rate => rate
               | None => 0
               end).
Proof.
  intros H. unfold calculateSpreadsheetMetrics. rewrite H. cbn [fold_left List.length].
  cbn [totalVendas valorBrutoTotal valorLiquidoTotal taxaMedia totalLinhas totalColunas].
  assert (Hz : isZero 0 = true) by reflexivity.
  assert (Hp : isPositive 0 = false) by reflexivity.
  rewrite Hz, Hp. cbn [andb List.filter List.length Z.of_nat].
  replace (if negb (isFound (quantidadeHeader (Sheet.headers sp))) then inject_Z 0 else 0)
    with 0%Q by (destruct (negb _); reflexivity).
  rewrite Hz. f_equal.
  - now destruct (_ || _).
  - destruct customerTax as [rate|]; [reflexivity|].
    destruct (taxaHeader (Sheet.headers sp)); reflexivity.
Qed.

Lemma accumulate_valorBruto (qh bh lh : option string) (data : list row) :
  forall m,
    valorBrutoTotal (fold_left (accumulateRow qh bh lh) data m)
    = fold_left (fun total r => addTo total (amountOf (at_ bh r))) data (valorBrutoTotal m).
Proof.
  induction data as [|r rest IH]; intros m; simpl.
  - reflexivity.
  - rewrite IH. reflexivity.
Qed.




End MetricsTotalsProps.

(* ===================================================================== *)
(** ** Amounts typed and amounts read *)
(* ===================================================================== *)

Module AmountTextProps.
Import JsString JsNumber NumericParser Metrics NumericParserForms.

Lemma keepChars_twice (p : ascii -> bool) (s : string) :
  keepChars p (keepChars p s) = keepChars p s.
Proof. apply keepChars_all, allOf_keepChars. Qed.

(** X8.  What [normalizarEntrada] drops of an entry does not count: the parser
    reads the same number from the entry as typed and as normalised. *)
Theorem normalizarEntrada_keeps_the_value (valor : string) :
  parseValorBrasileiro (normalizarEntrada valor) = parseValorBrasileiro valor.
Proof.
  unfold parseValorBrasileiro, normalizarEntrada.
  rewrite keepChars_twice.
  destruct (valor =? "")%string eqn:E.
  - apply String.eqb_eq in E. subst. reflexivity.
  - destruct (keepChars numericChar valor =? "")%string eqn:K; [|reflexivity].
    apply String.eqb_eq in K. rewrite K. reflexivity.
Qed.

(** *** The amount cells of the metrics *)

Definition noSpace (c : ascii) : bool := negb (isSpace c).

Lemma trimEnd_no_space (s : string) : allOf noSpace s = true -> trimEnd s = s.
Proof.
  induction s as [|c r IH]; cbn [allOf trimEnd]; [reflexivity|].
  intros H. apply andb_true_iff in H. destruct H as [Hc Hr].
  rewrite (IH Hr). unfold noSpace in Hc. apply negb_true_iff in Hc. now rewrite Hc.
Qed.

Lemma trim_no_space (s : string) : allOf noSpace s = true -> trim s = s.
Proof.
  intros H. unfold trim.
  assert (E : trimStart s = s).
  { destruct s as [|c r]; [reflexivity|]. cbn in *. apply andb_true_iff in H.
    destruct H as [Hc _]. unfold noSpace in Hc. apply negb_true_iff in Hc. now rewrite Hc. }
  rewrite E. apply trimEnd_no_space, H.
Qed.

(** A character of an amount: a digit, a dot or the comma. *)
Definition amountChar (c : ascii) : bool :=
  isDigit c || isByte 46 c || isByte 44 c.

Lemma amountChar_no_space (c : ascii) : amountChar c = true -> noSpace c = true.
Proof.
  unfold amountChar, noSpace, isSpace, isByte, between. intros H.
  apply negb_true_iff. destruct (isDigit c) eqn:D.
  - apply digit_not_space in D. exact D.
  - cbn in H. apply orb_true_iff in H.
    destruct H as [H|H]; apply Nat.eqb_eq in H; rewrite H; reflexivity.
Qed.

Lemma amountChar_no_currency (c : ascii) :
  amountChar c = true -> negb (isByte 82 c || isByte 36 c || isSpace c) = true.
Proof.
  intros H. pose proof (amountChar_no_space c H) as Hs.
  unfold noSpace in Hs. apply negb_true_iff in Hs. rewrite Hs.
  unfold amountChar in H. destruct (isDigit c) eqn:D.
  - now rewrite !(digit_not_byte _ c) by (auto; lia).
  - cbn in H. apply orb_true_iff in H. unfold isByte in *.
    destruct H as [H|H]; apply Nat.eqb_eq in H; rewrite H; reflexivity.
Qed.

Lemma brazilian_amountChars (ip fp : string) :
  allOf digitOrDot ip = true -> allOf isDigit fp = true ->
  allOf amountChar (ip ++ String ","%char fp) = true.
Proof.
  intros Hi Hf. rewrite allOf_app. apply andb_true_iff. split.
  - apply (allOf_weaken digitOrDot); [|exact Hi].
    intros c Hc. unfold digitOrDot, amountChar in *. now rewrite Hc.
  - cbn [allOf]. apply andb_true_iff. split; [reflexivity|].
    apply (allOf_weaken isDigit); [|exact Hf].
    intros c Hc. unfold amountChar. now rewrite Hc.
Qed.

Lemma parseFloat_decimal_some (ip fp : string) :
  allOf isDigit ip = true -> allOf isDigit fp = true ->
  ip <> "" \/ fp <> "" ->
  parseFloat (ip ++ String "."%char fp) = Some (decimal ip fp).
Proof.
  intros Hi Hf Hne. unfold parseFloat, decimalLiteral.
  rewrite trimStart_digits_first, takeSign_digits_first by (auto; reflexivity).
  rewrite (takeDigits_until ip "."%char fp Hi eq_refl).
  cbn [takeFraction]. change (isByte 46 ".") with true. cbv iota.
  rewrite (takeDigits_all fp Hf).
  destruct ((ip =? "") && (fp =? ""))%string eqn:E; [|reflexivity].
  apply andb_true_iff in E. destruct E as [E1 E2].
  apply String.eqb_eq in E1, E2. destruct Hne; contradiction.
Qed.

Lemma includes_dot_or_digits (ip : string) :
  allOf digitOrDot ip = true ->
  forall rest, includes (ip ++ rest) "." = true \/ allOf isDigit ip = true.
Proof.
  induction ip as [|c r IH]; intros H rest; [right; reflexivity|].
  cbn [allOf] in H. apply andb_true_iff in H. destruct H as [Hc Hr].
  unfold digitOrDot in Hc. destruct (isDigit c) eqn:D.
  - destruct (IH Hr rest) as [Hin|Hd].
    + left. cbn [append includes]. rewrite Hin. apply orb_true_r.
    + right. cbn [allOf]. now rewrite D, Hd.
  - cbn in Hc. left. unfold isByte, code in Hc. apply Nat.eqb_eq in Hc.
    assert (Ec : c = "."%char).
    { rewrite <- (ascii_nat_embedding c), Hc. reflexivity. }
    subst c. cbn [append includes]. now rewrite prefix_one.
Qed.

Lemma amount_text_read (ip fp : string) :
  allOf digitOrDot ip = true -> allOf isDigit fp = true ->
  keepChars isDigit ip <> "" \/ fp <> "" ->
  amountOf (Some (CStr (ip ++ String ","%char fp)))
  = Some (decimal (keepChars isDigit ip) fp).
Proof.
  intros Hi Hf Hne. unfold amountOf. rewrite append_not_empty.
  pose proof (brazilian_amountChars ip fp Hi Hf) as Ha.
  rewrite (trim_no_space _ (allOf_weaken _ _ _ amountChar_no_space Ha)).
  rewrite includes_middle. cbn [andb].
  assert (Hs : stripCurrency (ip ++ String ","%char fp) = (ip ++ String ","%char fp)%string).
  { unfold stripCurrency. apply keepChars_all.
    apply (allOf_weaken amountChar); [apply amountChar_no_currency | exact Ha]. }
  rewrite Hs.
  assert (Hd : allOf isDigit (keepChars isDigit ip) = true) by apply allOf_keepChars.
  assert (Hfp : keepChars (fun c => negb (isByte 46 c)) fp = fp).
  { apply keepChars_all. apply (allOf_weaken isDigit); [|exact Hf].
    intros c Hc. now rewrite (digit_not_byte 46 c) by (auto; lia). }
  destruct (includes (ip ++ String ","%char fp) ".") eqn:Edot.
  - rewrite keepChars_app. cbn [keepChars].
    change (negb (isByte 46 ",")) with true. cbv iota.
    change (fun c => negb (isByte 46 c)) with notDot.
    rewrite (keepChars_notDot_digits ip Hi).
    fold notDot in Hfp. rewrite Hfp.
    rewrite (replaceFirst_after_digits _ fp Hd).
    apply parseFloat_decimal_some; assumption.
  - destruct (includes_dot_or_digits ip Hi (String ","%char fp)) as [H|H]; [congruence|].
    rewrite (keepChars_all _ _ H) in *.
    rewrite (replaceFirst_after_digits _ fp H).
    apply parseFloat_decimal_some; assumption.
Qed.

(** X9.  The metrics read an amount written the Brazilian way exactly: a sheet
    whose only gross cell holds digits and thousands dots, a comma and
    decimals has that number as its gross total. *)
Theorem metrics_read_brazilian_amounts (ip fp : string) (customerTax : option Q) :
  allOf digitOrDot ip = true -> allOf isDigit fp = true ->
  keepChars isDigit ip <> "" \/ fp <> "" ->
  valorBrutoTotal
    (calculateSpreadsheetMetrics
       (MetricsProps.sheetOf ["Valor Bruto"]
                             [[("Valor Bruto", CStr (ip ++ String ","%char fp))]])
       customerTax)
  == decimal (keepChars isDigit ip) fp.
Proof.
  intros Hi Hf Hne. unfold calculateSpreadsheetMetrics. cbn [valorBrutoTotal].
  rewrite MetricsTotalsProps.accumulate_valorBruto.
  change (valorBrutoHeader (Sheet.headers (MetricsProps.sheetOf ["Valor Bruto"] _)))
    with (Some "Valor Bruto").
  cbn [Sheet.data MetricsProps.sheetOf fold_left at_ rowGet valorBrutoTotal].
  change ("Valor Bruto" =? "Valor Bruto")%string with true. cbv iota.
  rewrite (amount_text_read ip fp Hi Hf Hne). cbn [addTo]. ring.
Qed.

Lemma metrics_read_brazilian_amounts_witness :
  valorBrutoTotal
    (calculateSpreadsheetMetrics
       (MetricsProps.sheetOf ["Valor Bruto"] [[("Valor Bruto", CStr "1.234,56")]]) None)
  == 123456 # 100.
Proof.
  assert (E : decimal (keepChars isDigit "1.234") "56" == 123456 # 100) by reflexivity.
  rewrite <- E.
  apply (metrics_read_brazilian_amounts "1.234" "56" None).
  - reflexivity.
  - reflexivity.
  - left. vm_compute. discriminate.
Defined.

End AmountTextProps.

(* ===================================================================== *)
(** ** Ledger access: reads, lookups, deletion *)
(* ===================================================================== *)

Module TransferAccessProps.
Import JsString JsNumber JsDate TransferService DateProps LedgerProps.

(** X10.  [getTransfers] never throws and writes nothing: when the store answers
    it returns every stored transfer once, as [dbToTransfer] reads it; when
    the store does not, it returns the empty list. *)
Theorem getTransfers_reads_every_row (env : Env) (w : World) :
  exists ts w',
    getTransfers env w = (Ok ts, w')
    /\ transfers w' = transfers w
    /\ spreadsheets w' = spreadsheets w
    /\ (if faultAt env (clock w) then ts = []
        else Permutation ts (ledger env w)).
Proof.
  unfold getTransfers, tryCatch, bind, storeCall.
  destruct (faultAt env (clock w)).
  - eexists. eexists. cbn. repeat split.
  - eexists. eexists. cbn. repeat split.
    eapply Permutation_trans; [apply sortBy_perm|].
    apply Permutation_map, sortBy_perm.
Qed.

(** The rows that do not carry the identifier. *)
Definition without (i : string) (rows : list TransfersTable.t) : list TransfersTable.t :=
  List.filter (fun r => negb (TransfersTable.id r =? i)) rows.

Lemma without_has_no_row (i : string) (rows : list TransfersTable.t) (r : TransfersTable.t) :
  In r (without i rows) -> TransfersTable.id r <> i.
Proof.
  unfold without. rewrite filter_In. intros [_ H] E.
  apply negb_true_iff, String.eqb_neq in H. contradiction.
Qed.

Lemma deleteTransfer_run (env : Env) (i : string) (w : World) :
  exists deleted w',
    deleteTransfer env i w = (Ok deleted, w')
    /\ spreadsheets w' = spreadsheets w
    /\ (if deleted
        then transfers w' = without i (transfers w)
        else transfers w' = transfers w
             /\ console w' = console w
                             ++ [LogError "Erro ao deletar repasse do Supabase:" "error"]).
Proof.
  unfold deleteTransfer, tryCatch, bind, storeCall.
  destruct (faultAt env (clock w)).
  - exists false. eexists. cbn. repeat split.
  - exists true. eexists. cbn. repeat split.
Qed.

(** X11.  [deleteTransfer] never throws.  When it returns [true] the rows with
    the identifier are gone and the other rows are as they were, in their
    order; when it returns [false] the ledger is as it was and the failure
    is on the console.  The snapshots are not touched. *)
Theorem deleteTransfer_removes_the_row (env : Env) (i : string) (w : World) :
  exists deleted w',
    deleteTransfer env i w = (Ok deleted, w')
    /\ spreadsheets w' = spreadsheets w
    /\ (if deleted
        then transfers w' = without i (transfers w)
             /\ ~ In i (List.map TransfersTable.id (transfers w'))
        else transfers w' = transfers w
             /\ console w' = console w
                             ++ [LogError "Erro ao deletar repasse do Supabase:" "error"]).
Proof.
  destruct (deleteTransfer_run env i w) as [deleted [w' [E [Hs H]]]].
  exists deleted, w'. split; [exact E|]. split; [exact Hs|].
  destruct deleted; [|exact H].
  split; [exact H|]. rewrite H, in_map_iff. intros [r [Hr Hin]].
  apply without_has_no_row in Hin. contradiction.
Qed.

Lemma no_row_with_id (i : string) (rows : list TransfersTable.t) :
  (forall r, In r rows -> TransfersTable.id r <> i) ->
  List.filter (fun r => TransfersTable.id r =? i) rows = [].
Proof.
  induction rows as [|x rest IH]; intros H; [reflexivity|]. cbn.
  destruct (TransfersTable.id x =? i) eqn:E.
  - apply String.eqb_eq in E. exfalso. apply (H x); [left; reflexivity | exact E].
  - apply IH. intros r Hr. apply H. right. exact Hr.
Qed.

Lemma getTransferById_absent (env : Env) (i : string) (w : World) :
  (forall r, In r (transfers w) -> TransfersTable.id r <> i) ->
  exists w', getTransferById env i w = (Ok None, w') /\ transfers w' = transfers w.
Proof.
  intros H. unfold getTransferById, tryCatch, bind, storeCall.
  destruct (faultAt env (clock w)).
  - eexists. cbn. split; reflexivity.
  - cbn [fst snd].
    change (transfers (tickWorld w)) with (transfers w).
    rewrite (no_row_with_id i (transfers w) H). cbn. eexists. split; reflexivity.
Qed.

(** X12.  A transfer that was deleted is not found any more, whether or not the
    store answers the lookup. *)
Theorem deleted_transfer_is_not_found (env env' : Env) (i : string) (w w' : World) :
  deleteTransfer env i w = (Ok true, w') ->
  exists w'', getTransferById env' i w' = (Ok None, w'').
Proof.
  intros E. destruct (deleteTransfer_run env i w) as [deleted [w1 [E1 [_ H]]]].
  rewrite E in E1. inversion E1; subst deleted w1.
  destruct (getTransferById_absent env' i w') as [w'' [G _]].
  - intros r Hr. rewrite H in Hr. apply without_has_no_row in Hr. exact Hr.
  - exists w''. exact G.
Qed.

(** The identifier of the entry the first upload of May created. *)
Definition firstTransferId : string := "transfer_1717243200007_k3x9q2m1a".

Lemma deleted_transfer_is_not_found_witness :
  List.map TransfersTable.id (transfers (SaveProps.afterFirstSave None)) = [firstTransferId]
  /\ exists w'',
      getTransferById SaveProps.workingEnv firstTransferId
        (snd (deleteTransfer SaveProps.workingEnv firstTransferId
                             (SaveProps.afterFirstSave None)))
      = (Ok None, w'').
Proof.
  split; [vm_compute; reflexivity|].
  apply (deleted_transfer_is_not_found SaveProps.workingEnv SaveProps.workingEnv
           firstTransferId (SaveProps.afterFirstSave None)).
  vm_compute. reflexivity.
Defined.

(** X13.  An update of an identifier the ledger does not hold returns [null] and
    writes nothing, whether or not the store answers. *)
Theorem updateTransfer_of_unknown_id (env : Env) (i : string) (u : TransferUpdates)
        (w : World) :
  (forall r, In r (transfers w) -> TransfersTable.id r <> i) ->
  exists w', updateTransfer env i u w = (Ok None, w') /\ transfers w' = transfers w.
Proof.
  intros H. destruct (getTransferById_absent env i w H) as [w1 [G Ht]].
  unfold updateTransfer, tryCatch, bind. rewrite G. cbn.
  exists w1. split; [reflexivity | exact Ht].
Qed.

Definition grossOnly : TransferUpdates :=
  mkUpdates None (Some 10) None None None None None None.

Lemma updateTransfer_of_unknown_id_witness :
  exists w',
    updateTransfer SaveProps.workingEnv "transfer_0" grossOnly (SaveProps.afterFirstSave None)
    = (Ok None, w')
    /\ transfers w' = transfers (SaveProps.afterFirstSave None).
Proof.
  apply (updateTransfer_of_unknown_id SaveProps.workingEnv "transfer_0" grossOnly
           (SaveProps.afterFirstSave None)).
  intros r H. vm_compute in H. destruct H as [<-|[]]. vm_compute. discriminate.
Defined.

(** The identifier [createTransfer] gives to a transfer created in world
    [w]: [`transfer_${Date.now()}_${random}`]. *)
Definition transferIdAt (env : Env) (w : World) : string :=
  "transfer_" ++ showZ (nowAt env (clock w)) ++ "_" ++ randomAt env (clock w).

(** X14.  With a store that answers and an identifier that no row carries yet,
    the transfer [createTransfer] returns is the one [getTransferById]
    finds under its identifier. *)
Theorem created_transfer_is_found (env : Env) (transfer : NewTransfer) (w : World) :
  noFaults env ->
  (forall r, In r (transfers w) -> TransfersTable.id r <> transferIdAt env w) ->
  exists t w1 w2,
    createTransfer env transfer w = (Ok t, w1)
    /\ id t = transferIdAt env w
    /\ getTransferById env (id t) w1 = (Ok (Some t), w2).
Proof.
  intros Hf Hfresh.
  unfold createTransfer, getTransferById, tryCatch, bind, dateNow, mathRandom, storeCall.
  rewrite (Hf (clock w)). cbn [fst snd insertTransfer ret].
  eexists. eexists. eexists. split; [reflexivity|]. split; [reflexivity|].
  cbn [clock tickWorld]. rewrite (Hf (S (clock w))).
  cbn [transfers tickWorld id dbToTransfer toRow TransfersTable.id].
  rewrite filter_app.
  fold (transferIdAt env w).
  rewrite (no_row_with_id (transferIdAt env w) (transfers w) Hfresh).
  cbn [List.filter app TransfersTable.id].
  rewrite String.eqb_refl. reflexivity.
Qed.

Definition juneTransfer : NewTransfer :=
  mkNewTransfer (Some "Junho/2024") 200 10 190 "pendente" "2024-07-01"
                (Some "customer-1") (Some "Loja Um").

Lemma created_transfer_is_found_witness :
  exists t w1 w2,
    createTransfer SaveProps.workingEnv juneTransfer (SaveProps.afterFirstSave None)
    = (Ok t, w1)
    /\ id t = transferIdAt SaveProps.workingEnv (SaveProps.afterFirstSave None)
    /\ getTransferById SaveProps.workingEnv (id t) w1 = (Ok (Some t), w2).
Proof.
  apply (created_transfer_is_found SaveProps.workingEnv juneTransfer
           (SaveProps.afterFirstSave None)).
  - intros n. reflexivity.
  - intros r H. vm_compute in H. destruct H as [<-|[]]. vm_compute. discriminate.
Defined.

End TransferAccessProps.

(* ===================================================================== *)
(** ** Reading a date column *)
(* ===================================================================== *)

Module NormalizeDateProps.
Import JsString JsNumber JsDate TransferService DateProps.
Local Open Scope Z_scope.
Local Open Scope string_scope.


(** A string that starts with a character that is not white space is not
    blank. *)
Lemma trim_not_blank (c : ascii) (r : string) :
  isSpace c = false -> (trim (String c r) =? "") = false.
Proof.
  intros H. unfold trim. cbn [trimStart]. rewrite H. cbn [trimEnd]. rewrite H.
  reflexivity.
Qed.

Lemma digitsN_first (n : nat) (acc : Z) (s : string) (v : Z) (rest : string) :
  digitsN (S n) acc s = Some (v, rest) ->
  exists c r, s = String c r /\ isSpace c = false.
Proof.
  cbn [digitsN]. destruct s as [|c r]; [discriminate|].
  destruct (isDigit c) eqn:E; [|discriminate]. intros _.
  exists c, r. split; [reflexivity|].
  apply NumericParserForms.digit_not_space. exact E.
Qed.

(** X15.  A text that is a date [YYYY-MM-DD] is returned as it is, whatever the
    reader's offset; the month and the day are not checked. *)
Theorem normalizeDate_keeps_a_date (env : Env) (s : string) :
  isYMD s = true -> normalizeDate env (Some s) = s.
Proof.
  intros H. unfold normalizeDate. rewrite H.
  assert (F : exists c r, s = String c r /\ isSpace c = false).
  { unfold isYMD, matchYMD in H.
    destruct (digitsN 4 0 s) as [[v rest]|] eqn:E; [|discriminate].
    apply (digitsN_first 3 0 s v rest E). }
  destruct F as [c [r [-> Hc]]].
  rewrite (trim_not_blank c r Hc). reflexivity.
Qed.

Lemma normalizeDate_keeps_a_date_witness :
  isYMD "2024-02-31" = true
  /\ normalizeDate SaveProps.workingEnv (Some "2024-02-31") = "2024-02-31".
Proof.
  split; [reflexivity|].
  apply (normalizeDate_keeps_a_date SaveProps.workingEnv "2024-02-31"). reflexivity.
Defined.











Lemma append_assoc (a b c : string) : ((a ++ b) ++ c = a ++ (b ++ c))%string.
Proof. induction a as [|x r IH]; cbn; [reflexivity | now rewrite IH]. Qed.




End NormalizeDateProps.

(* ===================================================================== *)
(** ** Reading snapshots: lists of snapshots, months and days *)
(* ===================================================================== *)

Module SnapshotListProps.
Import JsString SpreadsheetService.

(** The snapshots of a customer (and of a terminal, when one is given) as
    the application reads them. *)
Definition snapshotsOf (env : Env) (customerId : string) (terminalId : option string)
           (w : World) : list Sheet.SpreadsheetData :=
  List.map (dbToSpreadsheet env)
           (List.filter (snapshotOfCustomer customerId terminalId) (spreadsheets w)).

(** Most recent upload first. *)
Definition latestFirst (l : list Sheet.SpreadsheetData) : Prop :=
  StronglySorted (fun a b => (Sheet.uploadedAt b <= Sheet.uploadedAt a)%Z) l.

Lemma StronglySorted_map {A B : Type} (R : A -> A -> Prop) (R' : B -> B -> Prop)
      (f : A -> B) (l : list A) :
  (forall a b, R a b -> R' (f a) (f b)) ->
  StronglySorted R l -> StronglySorted R' (List.map f l).
Proof.
  intros H. induction 1 as [|x r Hr IH Hx]; cbn; constructor; [exact IH|].
  rewrite Forall_forall in *. intros y Hy. apply in_map_iff in Hy.
  destruct Hy as [z [<- Hz]]. apply H, Hx, Hz.
Qed.

Lemma rows_latest_first (rows : list SpreadsheetsTable.t) :
  StronglySorted (fun a b => uploadedAfter a b = true) (sortBy uploadedAfter rows).
Proof.
  apply sortBy_sorted; unfold uploadedAfter.
  - intros a b.
    destruct (Z.leb_spec (SpreadsheetsTable.uploaded_at b) (SpreadsheetsTable.uploaded_at a));
      [left; reflexivity | right; apply Z.leb_le; lia].
  - intros a b c H1 H2. apply Z.leb_le in H1, H2. apply Z.leb_le. lia.
Qed.

Lemma read_latest_first (env : Env) (rows : list SpreadsheetsTable.t) :
  latestFirst (List.map (dbToSpreadsheet env) (sortBy uploadedAfter rows)).
Proof.
  unfold latestFirst.
  apply (StronglySorted_map (fun a b => uploadedAfter a b = true)); [|apply rows_latest_first].
  intros a b H. unfold uploadedAfter in H. apply Z.leb_le in H. exact H.
Qed.

Lemma pgEq_same (a b : string) : pgEq (Some a) (Some b) = true <-> b = a.
Proof. unfold pgEq. apply String.eqb_eq. Qed.

Lemma snapshotOfCustomer_customer (customerId : string) (terminalId : option string)
      (r : SpreadsheetsTable.t) :
  snapshotOfCustomer customerId terminalId r = true ->
  SpreadsheetsTable.customer_id r = customerId.
Proof.
  unfold snapshotOfCustomer. intros H. apply andb_true_iff in H.
  apply pgEq_same, H.
Qed.

Lemma getSpreadsheetsByCustomerId_run (env : Env) (customerId : string)
      (terminalId : option string) (w : World) :
  exists l,
    getSpreadsheetsByCustomerId env customerId terminalId w
    = (Ok l, if faultAt env (clock w)
             then mkWorld (spreadsheets w) (transfers w)
                          (console w ++ [LogError "Erro ao buscar planilhas do cliente:"
                                                  "error"])
                          (S (clock w))
             else tickWorld w)
    /\ l = if faultAt env (clock w) then []
           else List.map (dbToSpreadsheet env)
                         (sortBy uploadedAfter
                                 (List.filter (snapshotOfCustomer customerId terminalId)
                                              (spreadsheets w))).
Proof.
  unfold getSpreadsheetsByCustomerId, tryCatch, bind, storeCall, selectRows.
  destruct (faultAt env (clock w)); eexists; split; reflexivity.
Qed.

(** X17.  [getSpreadsheetsByCustomerId] never throws and writes nothing.  When
    the store answers it returns every snapshot of the customer (of the
    terminal, when one is given) once, the most recent upload first; when
    the store does not answer it returns the empty list. *)
Theorem getSpreadsheetsByCustomerId_lists_the_customer (env : Env) (customerId : string)
        (terminalId : option string) (w : World) :
  exists l w',
    getSpreadsheetsByCustomerId env customerId terminalId w = (Ok l, w')
    /\ spreadsheets w' = spreadsheets w
    /\ transfers w' = transfers w
    /\ Forall (fun s => Sheet.customerId s = customerId) l
    /\ latestFirst l
    /\ (if faultAt env (clock w) then l = []
        else Permutation l (snapshotsOf env customerId terminalId w)).
Proof.
  destruct (getSpreadsheetsByCustomerId_run env customerId terminalId w) as [l [E Hl]].
  exists l. eexists. split; [exact E|].
  destruct (faultAt env (clock w)); subst l.
  - repeat split; constructor.
  - repeat split.
    + apply Forall_forall. intros s Hs. apply in_map_iff in Hs.
      destruct Hs as [r [<- Hr]]. apply sortBy_In, filter_In in Hr.
      apply (snapshotOfCustomer_customer _ _ _ (proj2 Hr)).
    + apply read_latest_first.
    + apply Permutation_map, sortBy_perm.
Qed.

(** *** Months *)

(** The loop that fills the set of months. *)
Definition noteMonth (months : list string) (s : Sheet.SpreadsheetData) : list string :=
  if Sheet.referenceMonth s =? "" then months else setAdd months (Sheet.referenceMonth s).

Lemma existsb_eqb_In (x : string) (l : list string) :
  existsb (String.eqb x) l = true <-> In x l.
Proof.
  rewrite existsb_exists. split.
  - intros [y [Hy E]]. apply String.eqb_eq in E. now subst.
  - intros H. exists x. split; [exact H | apply String.eqb_refl].
Qed.

Lemma setAdd_In (set : list string) (x y : string) :
  In y (setAdd set x) <-> In y set \/ y = x.
Proof.
  unfold setAdd. destruct (existsb (String.eqb x) set) eqn:E.
  - apply existsb_eqb_In in E. split; [auto|]. intros [H| ->]; assumption.
  - rewrite in_app_iff. cbn. intuition.
Qed.

Lemma setAdd_NoDup (set : list string) (x : string) : NoDup set -> NoDup (setAdd set x).
Proof.
  intros H. unfold setAdd. destruct (existsb (String.eqb x) set) eqn:E; [exact H|].
  apply NoDup_app; [exact H | repeat constructor; intros [] |].
  intros y Hy [<-|[]].
  apply existsb_eqb_In in Hy. congruence.
Qed.

Lemma noteMonth_all (l : list Sheet.SpreadsheetData) :
  forall months,
    NoDup months ->
    NoDup (fold_left noteMonth l months)
    /\ forall m, In m (fold_left noteMonth l months)
                 <-> In m months
                     \/ (m <> "" /\ exists s, In s l /\ Sheet.referenceMonth s = m).
Proof.
  induction l as [|s rest IH]; intros months Hn; cbn [fold_left].
  - split; [exact Hn|]. intros m. split; [auto|]. intros [H|[_ [s [[] _]]]]. exact H.
  - assert (Hn' : NoDup (noteMonth months s)).
    { unfold noteMonth. destruct (_ =? ""); [exact Hn | apply setAdd_NoDup, Hn]. }
    destruct (IH _ Hn') as [H1 H2]. split; [exact H1|].
    intros m. rewrite H2. unfold noteMonth.
    destruct (Sheet.referenceMonth s =? "") eqn:E.
    + apply String.eqb_eq in E. split.
      * intros [H|[Hm [x [Hx Ex]]]]; [left; exact H|].
        right. split; [exact Hm|]. exists x. split; [right; exact Hx | exact Ex].
      * intros [H|[Hm [x [[<-|Hx] Ex]]]]; [left; exact H | congruence |].
        right. split; [exact Hm|]. exists x. split; assumption.
    + apply String.eqb_neq in E. rewrite setAdd_In. split.
      * intros [[H| ->]|[Hm [x [Hx Ex]]]].
        -- left; exact H.
        -- right. split; [exact E|]. exists s. split; [left; reflexivity | reflexivity].
        -- right. split; [exact Hm|]. exists x. split; [right; exact Hx | exact Ex].
      * intros [H|[Hm [x [[<-|Hx] Ex]]]].
        -- left. left. exact H.
        -- left. right. symmetry. exact Ex.
        -- right. split; [exact Hm|]. exists x. split; assumption.
Qed.

(** X18.  [getAvailableMonths] never throws and writes nothing.  It lists each
    month once, the most recent first; when the store answers, the months
    listed are those of the snapshots of the customer (of the terminal,
    when one is given) that have the type asked for. *)
Theorem getAvailableMonths_lists_each_month_once (env : Env) (customerId : string)
        (terminalId : option string) (type : SpreadsheetType) (w : World) :
  exists months w',
    getAvailableMonths env customerId terminalId type w = (Ok months, w')
    /\ spreadsheets w' = spreadsheets w
    /\ NoDup months
    /\ descending months
    /\ (if faultAt env (clock w) then months = []
        else forall m,
            In m months <->
            m <> ""
            /\ exists r, In r (spreadsheets w)
                         /\ snapshotOfCustomer customerId terminalId r = true
                         /\ SpreadsheetsTable.type r = type
                         /\ Sheet.referenceMonth (dbToSpreadsheet env r) = m).
Proof.
  destruct (getSpreadsheetsByCustomerId_run env customerId terminalId w) as [l [E Hl]].
  unfold getAvailableMonths, tryCatch, bind. rewrite E. cbn [ret].
  change (fun months s => if Sheet.referenceMonth s =? "" then months
                          else setAdd months (Sheet.referenceMonth s)) with noteMonth.
  set (filtered := List.filter (fun s => SpreadsheetType_eqb (sheetType s) type) l).
  destruct (noteMonth_all filtered [] (NoDup_nil _)) as [Hn Hm].
  eexists. eexists. split; [reflexivity|].
  split; [destruct (faultAt env (clock w)); reflexivity|].
  split; [apply (Permutation_NoDup (Permutation_sym (sortBy_perm _ _)) Hn)|].
  split; [apply sortDescending_descending|].
  destruct (faultAt env (clock w)) eqn:F.
  - subst l. reflexivity.
  - intros m. unfold sortDescending. rewrite sortBy_In, Hm. subst filtered l.
    split.
    + intros [[]|[Hne [s [Hs Es]]]]. split; [exact Hne|].
      apply filter_In in Hs. destruct Hs as [Hs Ht].
      apply in_map_iff in Hs. destruct Hs as [r [<- Hr]].
      apply sortBy_In, filter_In in Hr. destruct Hr as [Hr Hc].
      exists r. repeat split; try assumption.
      cbn in Ht. destruct (SpreadsheetsTable.type r), type; try discriminate; reflexivity.
    + intros [Hne [r [Hr [Hc [Ht Es]]]]]. right. split; [exact Hne|].
      exists (dbToSpreadsheet env r). split; [|exact Es].
      apply filter_In. split.
      * apply in_map. apply sortBy_In, filter_In. split; assumption.
      * cbn. rewrite Ht. destruct type; reflexivity.
Qed.

(** *** Days *)

Lemma mapGet_None (m : list (string * Z)) (k : string) :
  mapGet m k = None <-> ~ In k (List.map fst m).
Proof.
  induction m as [|[k' v] rest IH]; cbn.
  - split; [intros _ [] | reflexivity].
  - destruct (k' =? k) eqn:E.
    + apply String.eqb_eq in E. split; [discriminate|]. intros H. exfalso. apply H. now left.
    + apply String.eqb_neq in E. rewrite IH. intuition.
Qed.

Lemma mapSet_keys_present (m : list (string * Z)) (k : string) (v : Z) :
  In k (List.map fst m) -> List.map fst (mapSet m k v) = List.map fst m.
Proof.
  induction m as [|[k' v'] rest IH]; cbn; [intros []|].
  destruct (k' =? k) eqn:E.
  - apply String.eqb_eq in E. subst. reflexivity.
  - apply String.eqb_neq in E. intros [H|H]; [contradiction|]. cbn. now rewrite IH.
Qed.

Lemma mapSet_keys_absent (m : list (string * Z)) (k : string) (v : Z) :
  ~ In k (List.map fst m) -> List.map fst (mapSet m k v) = List.map fst m ++ [k].
Proof.
  induction m as [|[k' v'] rest IH]; cbn; [reflexivity|].
  intros H. destruct (k' =? k) eqn:E.
  - apply String.eqb_eq in E. exfalso. apply H. now left.
  - cbn. rewrite IH; [reflexivity|]. intuition.
Qed.

(** The keys of [daysMap] after one row: the day of the row is added at the
    end when it is new. *)
Lemma noteDay_keys (daysMap : list (string * Z)) (row : SpreadsheetsTable.t) :
  List.map fst (noteDay daysMap row)
  = match SpreadsheetsTable.reference_date row with
    | Some d => if d =? "" then List.map fst daysMap else setAdd (List.map fst daysMap) d
    | None => List.map fst daysMap
    end.
Proof.
  unfold noteDay. destruct (SpreadsheetsTable.reference_date row) as [d|]; [|reflexivity].
  destruct (d =? ""); [reflexivity|]. unfold setAdd.
  destruct (mapGet daysMap d) as [v|] eqn:G.
  - assert (Hin : In d (List.map fst daysMap)).
    { destruct (in_dec string_dec d (List.map fst daysMap)) as [H|H]; [exact H|].
      apply mapGet_None in H. congruence. }
    rewrite (proj2 (existsb_eqb_In d _) Hin).
    destruct (v <? _)%Z; [apply mapSet_keys_present, Hin | reflexivity].
  - apply mapGet_None in G.
    destruct (existsb (String.eqb d) (List.map fst daysMap)) eqn:E.
    + apply existsb_eqb_In in E. contradiction.
    + apply mapSet_keys_absent, G.
Qed.

Lemma noteDay_all (rows : list SpreadsheetsTable.t) :
  forall daysMap,
    NoDup (List.map fst daysMap) ->
    NoDup (List.map fst (fold_left noteDay rows daysMap))
    /\ forall d, In d (List.map fst (fold_left noteDay rows daysMap))
                 <-> In d (List.map fst daysMap)
                     \/ (d <> "" /\ exists r, In r rows
                                              /\ SpreadsheetsTable.reference_date r = Some d).
Proof.
  induction rows as [|row rest IH]; intros daysMap Hn; cbn [fold_left].
  - split; [exact Hn|]. intros d. split; [auto|]. intros [H|[_ [r [[] _]]]]. exact H.
  - assert (Hn' : NoDup (List.map fst (noteDay daysMap row))).
    { rewrite noteDay_keys. destruct (SpreadsheetsTable.reference_date row) as [d|];
        [|exact Hn]. destruct (d =? ""); [exact Hn | apply setAdd_NoDup, Hn]. }
    destruct (IH _ Hn') as [H1 H2]. split; [exact H1|].
    intros d. rewrite H2, noteDay_keys.
    destruct (SpreadsheetsTable.reference_date row) as [d0|] eqn:Ed.
    + destruct (d0 =? "") eqn:E.
      * apply String.eqb_eq in E. subst d0. split.
        -- intros [H|[Hd [r [Hr Er]]]]; [left; exact H|].
           right. split; [exact Hd|]. exists r. split; [right; exact Hr | exact Er].
        -- intros [H|[Hd [r [[<-|Hr] Er]]]]; [left; exact H | congruence |].
           right. split; [exact Hd|]. exists r. split; assumption.
      * apply String.eqb_neq in E. rewrite setAdd_In. split.
        -- intros [[H| ->]|[Hd [r [Hr Er]]]].
           ++ left; exact H.
           ++ right. split; [exact E|]. exists row. split; [left; reflexivity | exact Ed].
           ++ right. split; [exact Hd|]. exists r. split; [right; exact Hr | exact Er].
        -- intros [H|[Hd [r [[<-|Hr] Er]]]].
           ++ left. left. exact H.
           ++ left. right. congruence.
           ++ right. split; [exact Hd|]. exists r. split; assumption.
    + split.
      * intros [H|[Hd [r [Hr Er]]]]; [left; exact H|].
        right. split; [exact Hd|]. exists r. split; [right; exact Hr | exact Er].
      * intros [H|[Hd [r [[<-|Hr] Er]]]]; [left; exact H | congruence |].
        right. split; [exact Hd|]. exists r. split; assumption.
Qed.

(** X19.  [getAvailableDays] never throws and writes nothing.  It lists each day
    once, the most recent first; when the store answers, the days listed
    are the reference dates of the daily snapshots selected for the
    customer, the terminal (or no terminal) and the month. *)
Theorem getAvailableDays_lists_each_day_once (env : Env) (customerId : string)
        (terminalId referenceMonth : option string) (w : World) :
  exists days w',
    getAvailableDays env customerId terminalId referenceMonth w = (Ok days, w')
    /\ spreadsheets w' = spreadsheets w
    /\ NoDup days
    /\ descending days
    /\ (if faultAt env (clock w) then days = []
        else forall d,
            In d days <->
            d <> ""
            /\ exists r, In r (spreadsheets w)
                         /\ dailySnapshotOf customerId terminalId referenceMonth r = true
                         /\ SpreadsheetsTable.reference_date r = Some d).
Proof.
  unfold getAvailableDays, tryCatch, bind, storeCall, selectRows.
  destruct (faultAt env (clock w)).
  - eexists. eexists. split; [reflexivity|]. cbn.
    repeat split; constructor.
  - cbn [fst snd ret].
    set (rows := sortBy uploadedAfter _).
    destruct (noteDay_all rows [] (NoDup_nil _)) as [Hn Hd].
    eexists. eexists. split; [reflexivity|].
    split; [reflexivity|].
    split; [apply (Permutation_NoDup (Permutation_sym (sortBy_perm _ _)) Hn)|].
    split; [apply sortDescending_descending|].
    intros d. unfold sortDescending. rewrite sortBy_In, Hd. subst rows.
    change (spreadsheets (tickWorld w)) with (spreadsheets w).
    split.
    + intros [[]|[Hne [r [Hr Er]]]]. split; [exact Hne|].
      apply sortBy_In, filter_In in Hr. exists r. intuition.
    + intros [Hne [r [Hr [Hp Er]]]]. right. split; [exact Hne|].
      exists r. split; [|exact Er]. apply sortBy_In, filter_In. split; assumption.
Qed.

End SnapshotListProps.

(* ===================================================================== *)
(** ** Reading snapshots: the snapshot of a period *)
(* ===================================================================== *)

Module SnapshotReadProps.
Import JsString SpreadsheetService SnapshotListProps.

(** A row is the latest upload among the rows a filter selects. *)
Definition latestAmong (p : SpreadsheetsTable.t -> bool) (rows : list SpreadsheetsTable.t)
           (r : SpreadsheetsTable.t) : Prop :=
  In r rows /\ p r = true
  /\ forall r', In r' rows -> p r' = true ->
                (SpreadsheetsTable.uploaded_at r' <= SpreadsheetsTable.uploaded_at r)%Z.

Definition noneAmong (p : SpreadsheetsTable.t -> bool) (rows : list SpreadsheetsTable.t)
  : Prop :=
  forall r, In r rows -> p r = false.

Lemma selectLatest_spec (p : SpreadsheetsTable.t -> bool) (rows : list SpreadsheetsTable.t) :
  match firstn 1 (sortBy uploadedAfter (List.filter p rows)) with
  | [] => noneAmong p rows
  | [r] => latestAmong p rows r
  | _ => False
  end.
Proof.
  pose proof (rows_latest_first (List.filter p rows)) as Hs.
  pose proof (sortBy_In uploadedAfter (List.filter p rows)) as Hin.
  destruct (sortBy uploadedAfter (List.filter p rows)) as [|x t]; cbn [firstn].
  - intros r Hr. destruct (p r) eqn:E; [|reflexivity].
    exfalso. apply (proj2 (Hin r)). apply filter_In. split; assumption.
  - assert (Hx : In x (List.filter p rows)) by (apply Hin; left; reflexivity).
    apply filter_In in Hx. destruct Hx as [Hx Px].
    split; [exact Hx|]. split; [exact Px|].
    intros r' Hr' Pr'.
    assert (H : In r' (x :: t)) by (apply Hin, filter_In; split; assumption).
    destruct H as [<-|H]; [lia|].
    apply StronglySorted_inv in Hs. destruct Hs as [_ Hall].
    rewrite Forall_forall in Hall. specialize (Hall r' H).
    unfold uploadedAfter in Hall. apply Z.leb_le in Hall. exact Hall.
Qed.

(** What a read of one snapshot returns when the store answers: nothing
    when the filter selects no row, otherwise the latest upload among the
    rows it selects. *)
Definition latestRead (env : Env) (p : SpreadsheetsTable.t -> bool) (w : World)
           (res : option Sheet.SpreadsheetData) : Prop :=
  match res with
  | None => noneAmong p (spreadsheets w)
  | Some s => exists r, latestAmong p (spreadsheets w) r /\ s = dbToSpreadsheet env r
  end.

Lemma latestRead_of_selectLatest (env : Env) (p : SpreadsheetsTable.t -> bool) (w : World) :
  latestRead env p w
             (match firstn 1 (sortBy uploadedAfter (List.filter p (spreadsheets w))) with
              | [] => None
              | first :: _ => Some (dbToSpreadsheet env first)
              end).
Proof.
  pose proof (selectLatest_spec p (spreadsheets w)) as H.
  destruct (firstn 1 _) as [|x [|y t]]; cbn [latestRead].
  - exact H.
  - exists x. split; [exact H | reflexivity].
  - contradiction.
Qed.

(** X20.  [getSpreadsheetByCustomerId] never throws and writes nothing.  When the
    store answers it returns the latest upload among the snapshots of the
    customer that belong to no terminal and have the type (and the month,
    when one is given), or [null] when there is none; when the store does
    not answer it returns [null]. *)
Theorem getSpreadsheetByCustomerId_returns_the_latest (env : Env) (customerId : string)
        (referenceMonth : option string) (type : SpreadsheetType) (w : World) :
  exists res w',
    getSpreadsheetByCustomerId env customerId referenceMonth type w = (Ok res, w')
    /\ spreadsheets w' = spreadsheets w
    /\ (if faultAt env (clock w) then res = None
        else latestRead env (generalSnapshotOf customerId referenceMonth type) w res)
    /\ forall s, res = Some s ->
                 Sheet.customerId s = customerId /\ Sheet.terminalId s = None
                 /\ Sheet.type s = Some type.
Proof.
  unfold getSpreadsheetByCustomerId, tryCatch, bind, storeCall, selectLatest.
  destruct (faultAt env (clock w)).
  - eexists. eexists. cbn. repeat split; try reflexivity; discriminate.
  - cbn [fst snd]. change (spreadsheets (tickWorld w)) with (spreadsheets w).
    pose proof (latestRead_of_selectLatest
                  env (generalSnapshotOf customerId referenceMonth type) w) as H.
    destruct (firstn 1 _) as [|x t]; cbn [ret].
    + eexists. eexists. split; [reflexivity|]. repeat split; try exact H; discriminate.
    + eexists. eexists. split; [reflexivity|]. split; [reflexivity|]. split; [exact H|].
      intros s Hs. inversion Hs; subst s. clear Hs.
      destruct H as [r [[_ [Pr _]] E]]. rewrite E.
      unfold generalSnapshotOf in Pr. repeat (apply andb_true_iff in Pr; destruct Pr as [Pr ?]).
      cbn [dbToSpreadsheet Sheet.customerId Sheet.terminalId Sheet.type].
      split; [apply pgEq_same; assumption|].
      split.
      * destruct (SpreadsheetsTable.terminal_id r); [discriminate | reflexivity].
      * unfold typeIs, pgEq in *.
        destruct (SpreadsheetsTable.type r), type; try discriminate; reflexivity.
Qed.

(** X21.  [getSpreadsheetByTerminalId], likewise, returns the latest upload among
    the snapshots of the terminal that have the type (and the customer and
    the month, when they are given). *)
Theorem getSpreadsheetByTerminalId_returns_the_latest (env : Env) (terminalId : string)
        (customerId referenceMonth : option string) (type : SpreadsheetType) (w : World) :
  exists res w',
    getSpreadsheetByTerminalId env terminalId customerId referenceMonth type w = (Ok res, w')
    /\ spreadsheets w' = spreadsheets w
    /\ (if faultAt env (clock w) then res = None
        else latestRead env (terminalSnapshotOf terminalId customerId referenceMonth type)
                        w res).
Proof.
  unfold getSpreadsheetByTerminalId, tryCatch, bind, storeCall, selectLatest.
  destruct (faultAt env (clock w)).
  - eexists. eexists. cbn. repeat split.
  - cbn [fst snd]. change (spreadsheets (tickWorld w)) with (spreadsheets w).
    pose proof (latestRead_of_selectLatest
                  env (terminalSnapshotOf terminalId customerId referenceMonth type) w) as H.
    destruct (firstn 1 _) as [|x t]; cbn [ret];
      eexists; eexists; (split; [reflexivity|]); (split; [reflexivity | exact H]).
Qed.

Lemma selectLatestSingle_spec (env : Env) (p : SpreadsheetsTable.t -> bool) (w : World) :
  exists found,
    selectLatestSingle p w = (Some found, w)
    /\ latestRead env p w (option_map (dbToSpreadsheet env) found).
Proof.
  unfold selectLatestSingle, selectLatest. cbn [fst].
  pose proof (selectLatest_spec p (spreadsheets w)) as H.
  destruct (firstn 1 _) as [|x [|y t]]; cbn [maybeSingle].
  - exists None. split; [reflexivity | exact H].
  - exists (Some x). split; [reflexivity|]. exists x. split; [exact H | reflexivity].
  - contradiction.
Qed.

(** X22.  With a store that answers, [getSpreadsheetByDate] for a terminal
    returns the latest daily snapshot of the terminal for the day when
    there is one; otherwise the latest daily snapshot of the customer for
    the day that belongs to no terminal; otherwise [null]. *)
Theorem getSpreadsheetByDate_prefers_the_terminal (env : Env) (customerId referenceDate
        terminal : string) (w : World) :
  noFaults env -> referenceDate <> "" -> terminal <> "" ->
  exists res w',
    getSpreadsheetByDate env customerId referenceDate (Some terminal) w = (Ok res, w')
    /\ spreadsheets w' = spreadsheets w
    /\ let own := dailySnapshotOn customerId (Some terminal) (trim referenceDate) in
       let general := dailySnapshotOn customerId None (trim referenceDate) in
       match res with
       | Some s =>
           exists r, s = dbToSpreadsheet env r
                     /\ (latestAmong own (spreadsheets w) r
                         \/ (noneAmong own (spreadsheets w)
                             /\ latestAmong general (spreadsheets w) r))
       | None => noneAmong own (spreadsheets w) /\ noneAmong general (spreadsheets w)
       end.
Proof.
  intros Hf Hd Ht.
  unfold getSpreadsheetByDate.
  destruct (referenceDate =? "") eqn:Ed; [apply String.eqb_eq in Ed; contradiction|].
  unfold orNull. destruct (terminal =? "") eqn:Et; [apply String.eqb_eq in Et; contradiction|].
  unfold tryCatch, bind, storeCall. rewrite (Hf (clock w)).
  destruct (selectLatestSingle_spec
              env (dailySnapshotOn customerId (Some terminal) (trim referenceDate))
              (tickWorld w)) as [own [E1 H1]].
  rewrite E1. change (spreadsheets (tickWorld w)) with (spreadsheets w) in H1.
  destruct own as [r|].
  - cbn [ret]. eexists. eexists. split; [reflexivity|]. split; [reflexivity|].
    cbv zeta. destruct H1 as [r0 [L E]]. inversion E; subst.
    cbn [option_map] in *. exists r0. split; [exact E | left; exact L].
  - cbn [clock tickWorld]. rewrite (Hf (S (clock w))).
    destruct (selectLatestSingle_spec
                env (dailySnapshotOn customerId None (trim referenceDate))
                (tickWorld (tickWorld w))) as [general [E2 H2]].
    change (mkWorld (spreadsheets w) (transfers w) (console w) (S (clock w)))
      with (tickWorld w).
    rewrite E2.
    change (spreadsheets (tickWorld (tickWorld w))) with (spreadsheets w) in H2.
    cbn [option_map latestRead] in H1.
    destruct general as [r|]; cbn [ret].
    + eexists. eexists. split; [reflexivity|]. split; [reflexivity|].
      cbv zeta. destruct H2 as [r0 [L E]].
      exists r0. split; [exact E | right; split; [exact H1 | exact L]].
    + eexists. eexists. split; [reflexivity|]. split; [reflexivity|].
      cbv zeta. split; [exact H1 | exact H2].
Qed.

(** A daily upload of terminal T1 for 15 June 2024, sent on 1 July. *)
Definition dailyUpload : Sheet.SpreadsheetData :=
  Sheet.mkSpreadsheetData None "customer-1" (Some "T1") "dia.xlsx" 1719835200000
                          "" (Some "2024-06-15") (Some daily)
                          [[("Valor Bruto", CNum 50)]] ["Valor Bruto"] [] None.

Definition afterDailySave : World :=
  snd (saveSpreadsheet SaveProps.workingEnv dailyUpload (SaveProps.afterFirstSave None)).

Lemma getSpreadsheetByDate_prefers_the_terminal_witness :
  exists res w',
    getSpreadsheetByDate SaveProps.workingEnv "customer-1" "2024-06-15" (Some "T1") afterDailySave
    = (Ok res, w')
    /\ spreadsheets w' = spreadsheets afterDailySave
    /\ let own := dailySnapshotOn "customer-1" (Some "T1") (trim "2024-06-15") in
       let general := dailySnapshotOn "customer-1" None (trim "2024-06-15") in
       match res with
       | Some s =>
           exists r, s = dbToSpreadsheet SaveProps.workingEnv r
                     /\ (latestAmong own (spreadsheets afterDailySave) r
                         \/ (noneAmong own (spreadsheets afterDailySave)
                             /\ latestAmong general (spreadsheets afterDailySave) r))
       | None => noneAmong own (spreadsheets afterDailySave)
                 /\ noneAmong general (spreadsheets afterDailySave)
       end.
Proof.
  apply (getSpreadsheetByDate_prefers_the_terminal SaveProps.workingEnv "customer-1" "2024-06-15" "T1"
           afterDailySave).
  - intros n. reflexivity.
  - discriminate.
  - discriminate.
Defined.

(** *** Deleting *)

(** X23.  [deleteSpreadsheet] either returns, and then the snapshots of the
    customer for the terminal (for no terminal, when none is given) are
    gone and every other snapshot is kept in its place, or throws, and
    then the snapshots are as they were and the failure is on the console.
    The ledger is not touched either way. *)
Theorem deleteSpreadsheet_removes_the_key (env : Env) (customerId : string)
        (terminalId : option string) (w : World) :
  exists res w',
    deleteSpreadsheet env customerId terminalId w = (res, w')
    /\ transfers w' = transfers w
    /\ match res with
       | Ok _ =>
           spreadsheets w'
           = List.filter (fun r => negb (snapshotToDelete customerId terminalId r))
                         (spreadsheets w)
       | Thrown _ =>
           spreadsheets w' = spreadsheets w
           /\ console w' = console w ++ [LogError "Erro ao deletar planilha:" "error";
                                         LogError "Erro ao deletar planilha:" "error"]
       end.
Proof.
  unfold deleteSpreadsheet, tryCatch, bind, storeCall, deleteSnapshots.
  destruct (faultAt env (clock w)).
  - eexists. eexists. cbn. split; [reflexivity|]. split; [reflexivity|].
    split; [reflexivity|]. now rewrite <- app_assoc.
  - eexists. eexists. cbn. repeat split.
Qed.

Lemma deleteSpreadsheet_ok (env : Env) (customerId : string) (terminalId : option string)
      (w w' : World) :
  deleteSpreadsheet env customerId terminalId w = (Ok tt, w') ->
  spreadsheets w'
  = List.filter (fun r => negb (snapshotToDelete customerId terminalId r)) (spreadsheets w).
Proof.
  unfold deleteSpreadsheet, tryCatch, bind, storeCall, deleteSnapshots.
  destruct (faultAt env (clock w)); cbn; intros H; inversion H; reflexivity.
Qed.

Lemma filter_none {A : Type} (p : A -> bool) (l : list A) :
  (forall x, In x l -> p x = false) -> List.filter p l = [].
Proof.
  induction l as [|x r IH]; intros H; cbn; [reflexivity|].
  rewrite (H x (or_introl eq_refl)). apply IH. intros y Hy. apply H. right. exact Hy.
Qed.

(** X24.  After the snapshots of a terminal were deleted, the list of the
    snapshots of that terminal is empty, whether or not the store answers
    the read. *)
Theorem deleted_terminal_has_no_snapshot (env env' : Env) (customerId terminal : string)
        (w w' : World) :
  terminal <> "" ->
  deleteSpreadsheet env customerId (Some terminal) w = (Ok tt, w') ->
  exists w'', getSpreadsheetsByCustomerId env' customerId (Some terminal) w' = (Ok [], w'').
Proof.
  intros Ht E. apply deleteSpreadsheet_ok in E.
  destruct (getSpreadsheetsByCustomerId_run env' customerId (Some terminal) w') as [l [R Hl]].
  eexists. rewrite R. f_equal. f_equal. subst l.
  destruct (faultAt env' (clock w')); [reflexivity|].
  rewrite E, filter_none; [reflexivity|].
  intros r Hr. apply filter_In in Hr. destruct Hr as [_ Hr].
  apply negb_true_iff in Hr.
  unfold snapshotToDelete, snapshotOfCustomer, eqIfGiven, orNull in *.
  destruct (terminal =? "") eqn:Et; [apply String.eqb_eq in Et; contradiction | exact Hr].
Qed.

Lemma deleted_terminal_has_no_snapshot_witness :
  List.length (spreadsheets (SaveProps.afterFirstSave (Some "T1"))) = 1%nat
  /\ exists w'',
      getSpreadsheetsByCustomerId SaveProps.workingEnv "customer-1" (Some "T1")
        (snd (deleteSpreadsheet SaveProps.workingEnv "customer-1" (Some "T1")
                                (SaveProps.afterFirstSave (Some "T1"))))
      = (Ok [], w'').
Proof.
  split; [vm_compute; reflexivity|].
  apply (deleted_terminal_has_no_snapshot SaveProps.workingEnv SaveProps.workingEnv "customer-1" "T1"
           (SaveProps.afterFirstSave (Some "T1"))).
  - discriminate.
  - vm_compute. reflexivity.
Defined.

End SnapshotReadProps.

(* ===================================================================== *)
(** ** Saving a snapshot, then reading it *)
(* ===================================================================== *)

Module SaveReadProps.
Import JsString JsDate SpreadsheetService SaveProps SnapshotListProps SnapshotReadProps.

(** A snapshot as the store gives it back: the type and the month are set,
    and an optional text is absent rather than empty. *)
Definition normalised (p : Sheet.SpreadsheetData) : Prop :=
  Sheet.type p <> None
  /\ Sheet.referenceMonth p <> ""
  /\ orNull (Sheet.terminalId p) = Sheet.terminalId p
  /\ orNull (Sheet.referenceDate p) = Sheet.referenceDate p
  /\ orNull (Sheet.description p) = Sheet.description p.

Lemma stored_snapshot_reads_back (env : Env) (p : Sheet.SpreadsheetData) :
  normalised p -> dbToSpreadsheet env (spreadsheetToDb p) = p.
Proof.
  intros [Ht [Hm [H1 [H2 H3]]]].
  destruct p as [i c t f u m d ty rows hs sl ds]. cbn in *.
  unfold dbToSpreadsheet, spreadsheetToDb, sheetType. cbn.
  rewrite !LedgerProps.orNull_idem, H1, H2, H3.
  destruct (m =? "") eqn:E; [apply String.eqb_eq in E; contradiction|].
  destruct ty; [reflexivity | contradiction].
Qed.

(** X25.  Writing a snapshot as a row and reading the row gives the snapshot
    back, when its type and month are set and its optional texts are
    absent rather than empty. *)
Theorem snapshot_row_round_trip (env : Env) (p : Sheet.SpreadsheetData) :
  normalised p -> dbToSpreadsheet env (spreadsheetToDb p) = p.
Proof. exact (stored_snapshot_reads_back env p). Qed.

Lemma getReferenceMonth_not_empty (env : Env) (t : Z) : getReferenceMonth env t <> "".
Proof.
  unfold getReferenceMonth.
  destruct (showZ _) as [|c r]; cbn; discriminate.
Qed.

Lemma snapshot_row_round_trip_witness :
  dbToSpreadsheet workingEnv (spreadsheetToDb (mayUpload None)) = mayUpload None.
Proof.
  apply (snapshot_row_round_trip workingEnv (mayUpload None)).
  repeat split; discriminate.
Defined.

(** What [prepare] sets and what it keeps. *)
Lemma prepare_shape (env : Env) (s p : Sheet.SpreadsheetData) (w w' : World) :
  prepare env s w = (Ok p, w') ->
  Sheet.type p = Some (sheetType s)
  /\ Sheet.referenceMonth p <> ""
  /\ Sheet.id p <> None
  /\ Sheet.customerId p = Sheet.customerId s
  /\ Sheet.terminalId p = Sheet.terminalId s
  /\ Sheet.referenceDate p = Sheet.referenceDate s
  /\ Sheet.description p = Sheet.description s
  /\ Sheet.uploadedAt p = Sheet.uploadedAt s
  /\ Sheet.data p = Sheet.data s
  /\ Sheet.headers p = Sheet.headers s
  /\ Sheet.fileName p = Sheet.fileName s
  /\ spreadsheets w' = spreadsheets w.
Proof.
  intros H.
  assert (Hm : (if Sheet.referenceMonth s =? ""
                then getReferenceMonth env (Sheet.uploadedAt s)
                else Sheet.referenceMonth s) <> "").
  { destruct (Sheet.referenceMonth s =? "") eqn:Em.
    - apply getReferenceMonth_not_empty.
    - apply String.eqb_neq, Em. }
  unfold prepare, bind, dateNow, ret in H.
  destruct (Sheet.sales s) as [|sale sales].
  - destruct (Sheet.data s) as [|row rows] eqn:Ed.
    + inversion H; subst. clear H. cbn.
      repeat split; try reflexivity; try discriminate; exact Hm.
    + unfold parseSpreadsheetToSales, getCustomerTax, bind, serviceCall, ret in H.
      destruct (faultAt env (clock w)); [discriminate|].
      inversion H; subst. clear H. cbn.
      repeat split; try reflexivity; try discriminate; exact Hm.
  - inversion H; subst. clear H. cbn.
    repeat split; try reflexivity; try discriminate; exact Hm.
Qed.

(** The rows after [persist]: the new row is there, and every other row was
    there before. *)
Lemma persist_writes (env : Env) (p : Sheet.SpreadsheetData) (w : World) :
  noFaults env ->
  Forall (fun r => SpreadsheetsTable.id r <> None) (spreadsheets w) ->
  exists w1,
    persist env p w = (Ok tt, w1)
    /\ In (spreadsheetToDb p) (spreadsheets w1)
    /\ forall r, In r (spreadsheets w1) -> r = spreadsheetToDb p \/ In r (spreadsheets w).
Proof.
  intros Hf Hid. rewrite Forall_forall in Hid.
  assert (Happend : forall w0, spreadsheets w0 = spreadsheets w ->
            exists w1,
              bind (storeCall env (insertSpreadsheet (spreadsheetToDb p)))
                   (fun result => match result with
                                  | Some _ => ret tt
                                  | None => bind (consoleError "Erro ao inserir planilha:"
                                                               "error")
                                                 (fun _ => throw "error")
                                  end) w0 = (Ok tt, w1)
              /\ In (spreadsheetToDb p) (spreadsheets w1)
              /\ forall r, In r (spreadsheets w1) ->
                           r = spreadsheetToDb p \/ In r (spreadsheets w)).
  { intros w0 H0. unfold bind, storeCall. rewrite (Hf (clock w0)). cbn.
    eexists. split; [reflexivity|]. rewrite H0. split.
    - apply in_or_app. right. left. reflexivity.
    - intros r Hr. apply in_app_or in Hr. destruct Hr as [Hr|[<-|[]]]; auto. }
  unfold persist. destruct (sheetType p).
  - unfold bind at 1. unfold storeCall at 1. rewrite (Hf (clock w)).
    unfold selectExistingMonthly. cbn [fst snd].
    change (spreadsheets (tickWorld w)) with (spreadsheets w).
    destruct (List.filter _ (spreadsheets w)) as [|existing [|r2 rest]] eqn:F;
      cbn [maybeSingle].
    + apply Happend. reflexivity.
    + assert (Hex : In existing (spreadsheets w)).
      { assert (H : In existing [existing]) by (left; reflexivity).
        rewrite <- F in H. apply filter_In in H. apply H. }
      unfold bind, storeCall. cbn [clock tickWorld]. rewrite (Hf (S (clock w))).
      unfold updateSpreadsheet. cbn.
      eexists. split; [reflexivity|]. split.
      * apply in_map_iff. exists existing. split; [|exact Hex].
        specialize (Hid existing Hex).
        destruct (SpreadsheetsTable.id existing) as [i|]; [|contradiction].
        cbn. now rewrite String.eqb_refl.
      * intros r Hr. apply in_map_iff in Hr. destruct Hr as [x [Hx Hin]].
        destruct (pgEq _ _) in Hx; subst; auto.
    + apply Happend. reflexivity.
  - unfold bind, storeCall. rewrite (Hf (clock w)). cbn.
    eexists. split; [reflexivity|]. split.
    + apply in_or_app. right. left. reflexivity.
    + intros r Hr. apply in_app_or in Hr. destruct Hr as [Hr|[<-|[]]]; auto.
Qed.

(** Every stored snapshot is older than the upload. *)
Definition allOlder (p : Sheet.SpreadsheetData) (w : World) : Prop :=
  forall r, In r (spreadsheets w) ->
            (SpreadsheetsTable.uploaded_at r < Sheet.uploadedAt p)%Z.

Lemma new_row_is_latest (q : SpreadsheetsTable.t -> bool) (new : SpreadsheetsTable.t)
      (rows : list SpreadsheetsTable.t) :
  In new rows -> q new = true ->
  (forall r, In r rows ->
             r = new \/ (SpreadsheetsTable.uploaded_at r < SpreadsheetsTable.uploaded_at new)%Z) ->
  firstn 1 (sortBy uploadedAfter (List.filter q rows)) = [new].
Proof.
  intros Hin Hq Hold. pose proof (selectLatest_spec q rows) as H.
  destruct (firstn 1 _) as [|x [|y t]].
  - rewrite (H new Hin) in Hq. discriminate.
  - destruct H as [Hx [_ Hmax]]. specialize (Hmax new Hin Hq).
    destruct (Hold x Hx) as [->|Hlt]; [reflexivity | lia].
  - contradiction.
Qed.

(** The run of [saveSpreadsheet] once the snapshot is written. *)
Lemma save_after_write (env : Env) (s p : Sheet.SpreadsheetData) (w w1 : World) :
  written env s w = (Ok p, w1) ->
  exists w2, saveSpreadsheet env s w = (Ok tt, w2) /\ spreadsheets w2 = spreadsheets w1.
Proof.
  intros H. unfold written, bind in H.
  destruct (prepare env s w) as [[p0|e0] w0] eqn:Ep; [|discriminate].
  destruct (persist env p0 w0) as [[[]|e1] w0'] eqn:Ew; [|discriminate].
  cbn in H. inversion H; subst. clear H.
  destruct (reconcile_never_throws env p w1) as [w2 [Hr [Hs _]]].
  exists w2. split; [|exact Hs].
  unfold saveSpreadsheet, tryCatch, bind. rewrite Ep, Ew, Hr. reflexivity.
Qed.

(** The rows after the write. *)
Lemma written_rows (env : Env) (s p : Sheet.SpreadsheetData) (w w1 : World) :
  noFaults env ->
  Forall (fun r => SpreadsheetsTable.id r <> None) (spreadsheets w) ->
  written env s w = (Ok p, w1) ->
  In (spreadsheetToDb p) (spreadsheets w1)
  /\ forall r, In r (spreadsheets w1) -> r = spreadsheetToDb p \/ In r (spreadsheets w).
Proof.
  intros Hf Hid H. unfold written, bind in H.
  destruct (prepare env s w) as [[p0|e0] w0] eqn:Ep; [|discriminate].
  destruct (prepare_shape env s p0 w w0 Ep) as [_ [_ [_ [_ [_ [_ [_ [_ [_ [_ [_ Hw]]]]]]]]]]].
  rewrite <- Hw in Hid.
  destruct (persist_writes env p0 w0 Hf Hid) as [w1' [Ew [Hin Hold]]].
  rewrite Ew in H. cbn in H. inversion H; subst. clear H.
  split; [exact Hin|]. intros r Hr. rewrite <- Hw. apply Hold, Hr.
Qed.

Lemma written_prepared (env : Env) (s p : Sheet.SpreadsheetData) (w w1 : World) :
  written env s w = (Ok p, w1) -> exists w0, prepare env s w = (Ok p, w0).
Proof.
  intros H. unfold written, bind in H.
  destruct (prepare env s w) as [[p0|e0] w0] eqn:Ep; [|discriminate].
  destruct (persist env p0 w0) as [[[]|e1] w0'] eqn:Ew; [|discriminate].
  cbn in H. inversion H; subst. exists w0. reflexivity.
Qed.

(** X26.  The general snapshot of a month, saved and read back.  With a store
    that answers, rows that all carry an identifier and an upload more
    recent than every stored snapshot, the monthly snapshot that
    [saveSpreadsheet] writes for a customer without a terminal is the one
    [getSpreadsheetByCustomerId] returns for the customer and the month. *)
Theorem saved_monthly_snapshot_is_read_back (env : Env) (s p : Sheet.SpreadsheetData)
        (w w1 : World) :
  noFaults env ->
  Forall (fun r => SpreadsheetsTable.id r <> None) (spreadsheets w) ->
  allOlder s w ->
  written env s w = (Ok p, w1) ->
  sheetType s = monthly ->
  Sheet.terminalId s = None ->
  orNull (Sheet.referenceDate s) = Sheet.referenceDate s ->
  orNull (Sheet.description s) = Sheet.description s ->
  exists w2 w3,
    saveSpreadsheet env s w = (Ok tt, w2)
    /\ getSpreadsheetByCustomerId env (Sheet.customerId s) (Some (Sheet.referenceMonth p))
                                  monthly w2
       = (Ok (Some p), w3).
Proof.
  intros Hf Hid Hold Hw Hm Ht Hd Hds.
  destruct (written_prepared env s p w w1 Hw) as [w0 Hp].
  destruct (prepare_shape env s p w w0 Hp)
    as [Pty [Pm [_ [Pc [Pt [Pd [Pds [Pu _]]]]]]]].
  destruct (written_rows env s p w w1 Hf Hid Hw) as [Hin Hrows].
  destruct (save_after_write env s p w w1 Hw) as [w2 [Hs Hsp]].
  exists w2. eexists. split; [exact Hs|].
  unfold getSpreadsheetByCustomerId, tryCatch, bind, storeCall, selectLatest.
  rewrite (Hf (clock w2)). cbn [fst snd].
  change (spreadsheets (tickWorld w2)) with (spreadsheets w2). rewrite Hsp.
  rewrite (new_row_is_latest _ (spreadsheetToDb p)).
  - cbn [ret]. rewrite stored_snapshot_reads_back; [reflexivity|].
    unfold normalised. rewrite Pty, Pt, Pd, Pds, Ht.
    repeat split; try assumption; discriminate.
  - exact Hin.
  - unfold generalSnapshotOf, typeIs, eqIfGiven, orNull, spreadsheetToDb, sheetType.
    cbn. rewrite Pc, Pt, Ht, Pty, Hm, !String.eqb_refl. cbn.
    destruct (Sheet.referenceMonth p =? "") eqn:E; [reflexivity|].
    now rewrite String.eqb_refl.
  - intros r Hr. destruct (Hrows r Hr) as [->|Hr']; [left; reflexivity|].
    right. unfold spreadsheetToDb. cbn. rewrite Pu. apply Hold, Hr'.
Qed.

(** A monthly upload for June 2024, sent on 1 July. *)
Definition juneUpload : Sheet.SpreadsheetData :=
  Sheet.mkSpreadsheetData None "customer-1" None "junho.xlsx" 1719835200000
                          "2024-06" None (Some monthly)
                          [[("Valor Bruto", CNum 200)]] ["Valor Bruto"] [] None.

Lemma saved_monthly_snapshot_is_read_back_witness :
  exists p w1,
    written workingEnv juneUpload (afterFirstSave None) = (Ok p, w1)
    /\ exists w2 w3,
        saveSpreadsheet workingEnv juneUpload (afterFirstSave None) = (Ok tt, w2)
        /\ getSpreadsheetByCustomerId workingEnv (Sheet.customerId juneUpload)
                                      (Some (Sheet.referenceMonth p)) monthly w2
           = (Ok (Some p), w3).
Proof.
  eexists. eexists. split.
  - vm_compute. reflexivity.
  - eapply (saved_monthly_snapshot_is_read_back workingEnv juneUpload _ (afterFirstSave None)).
    + intros n. reflexivity.
    + vm_compute. repeat constructor; discriminate.
    + intros r H. vm_compute in H. destruct H as [<-|[]]. vm_compute. reflexivity.
    + vm_compute. reflexivity.
    + reflexivity.
    + reflexivity.
    + reflexivity.
    + reflexivity.
Defined.

(** X27.  A daily snapshot, saved and read back.  Under the same conditions, the
    daily snapshot that [saveSpreadsheet] writes for a day is the one
    [getSpreadsheetByDate] returns for the customer, the day and the
    terminal (or no terminal) of the snapshot. *)
Theorem saved_daily_snapshot_is_read_back (env : Env) (s p : Sheet.SpreadsheetData)
        (w w1 : World) (day : string) :
  noFaults env ->
  Forall (fun r => SpreadsheetsTable.id r <> None) (spreadsheets w) ->
  allOlder s w ->
  written env s w = (Ok p, w1) ->
  sheetType s = daily ->
  Sheet.referenceDate s = Some day -> day <> "" -> trim day = day ->
  orNull (Sheet.terminalId s) = Sheet.terminalId s ->
  orNull (Sheet.description s) = Sheet.description s ->
  exists w2 w3,
    saveSpreadsheet env s w = (Ok tt, w2)
    /\ getSpreadsheetByDate env (Sheet.customerId s) day (Sheet.terminalId s) w2
       = (Ok (Some p), w3).
Proof.
  intros Hf Hid Hold Hw Hm Hday Hne Htrim Ht Hds.
  destruct (written_prepared env s p w w1 Hw) as [w0 Hp].
  destruct (prepare_shape env s p w w0 Hp)
    as [Pty [Pm [_ [Pc [Pt [Pd [Pds [Pu _]]]]]]]].
  destruct (written_rows env s p w w1 Hf Hid Hw) as [Hin Hrows].
  destruct (save_after_write env s p w w1 Hw) as [w2 [Hs Hsp]].
  assert (Ed : (day =? "") = false) by (apply String.eqb_neq, Hne).
  assert (Hnorm : normalised p).
  { unfold normalised. rewrite Pty, Pt, Pd, Pds, Ht, Hday. cbn. rewrite Ed.
    repeat split; try assumption; discriminate. }
  assert (Hlatest : forall r, In r (spreadsheets w2) ->
            r = spreadsheetToDb p
            \/ (SpreadsheetsTable.uploaded_at r
                < SpreadsheetsTable.uploaded_at (spreadsheetToDb p))%Z).
  { rewrite Hsp. intros r Hr. destruct (Hrows r Hr) as [->|Hr']; [left; reflexivity|].
    right. unfold spreadsheetToDb. cbn. rewrite Pu. apply Hold, Hr'. }
  assert (Hin2 : In (spreadsheetToDb p) (spreadsheets w2)) by (rewrite Hsp; exact Hin).
  assert (Hkey : dailySnapshotOn (Sheet.customerId s) (orNull (Sheet.terminalId s)) day
                                 (spreadsheetToDb p) = true).
  { unfold dailySnapshotOn, typeIs, spreadsheetToDb, sheetType.
    cbn. rewrite Pc, Pt, Pd, Pty, Hm, Hday, !String.eqb_refl. cbn. rewrite Ed.
    cbn. rewrite String.eqb_refl, andb_true_r. cbn [andb].
    destruct (orNull (Sheet.terminalId s)) as [t|] eqn:Et; cbn;
      rewrite ?String.eqb_refl; reflexivity. }
  exists w2. eexists. split; [exact Hs|].
  unfold getSpreadsheetByDate. rewrite Ed, Htrim.
  unfold tryCatch, bind, storeCall, selectLatestSingle, selectLatest.
  destruct (orNull (Sheet.terminalId s)) as [t|] eqn:Et;
    rewrite (Hf (clock w2)); cbn [fst snd];
    change (spreadsheets (tickWorld w2)) with (spreadsheets w2);
    rewrite (new_row_is_latest _ (spreadsheetToDb p) (spreadsheets w2) Hin2 Hkey Hlatest);
    cbn [maybeSingle ret];
    rewrite (stored_snapshot_reads_back env p Hnorm); reflexivity.
Qed.

Lemma saved_daily_snapshot_is_read_back_witness :
  exists p w1,
    written workingEnv dailyUpload (afterFirstSave (Some "T1")) = (Ok p, w1)
    /\ exists w2 w3,
        saveSpreadsheet workingEnv dailyUpload (afterFirstSave (Some "T1")) = (Ok tt, w2)
        /\ getSpreadsheetByDate workingEnv (Sheet.customerId dailyUpload) "2024-06-15"
                                (Sheet.terminalId dailyUpload) w2
           = (Ok (Some p), w3).
Proof.
  eexists. eexists. split.
  - vm_compute. reflexivity.
  - eapply (saved_daily_snapshot_is_read_back workingEnv dailyUpload _
             (afterFirstSave (Some "T1"))).
    + intros n. reflexivity.
    + vm_compute. repeat constructor; discriminate.
    + intros r H. vm_compute in H. destruct H as [<-|[]]. vm_compute. reflexivity.
    + vm_compute. reflexivity.
    + reflexivity.
    + reflexivity.
    + discriminate.
    + reflexivity.
    + reflexivity.
    + reflexivity.
Defined.

(** X28.  A daily snapshot is always added: with a store that answers, the save
    of a daily snapshot keeps every stored snapshot as it is, in its place,
    and adds one row at the end, also when a snapshot of the same day is
    already stored. *)
Theorem daily_save_adds_a_row (env : Env) (s p : Sheet.SpreadsheetData) (w w1 : World) :
  noFaults env ->
  sheetType s = daily ->
  written env s w = (Ok p, w1) ->
  exists w2,
    saveSpreadsheet env s w = (Ok tt, w2)
    /\ spreadsheets w2 = spreadsheets w ++ [spreadsheetToDb p].
Proof.
  intros Hf Hm Hw.
  destruct (save_after_write env s p w w1 Hw) as [w2 [Hs Hsp]].
  exists w2. split; [exact Hs|]. rewrite Hsp.
  unfold written, bind in Hw.
  destruct (prepare env s w) as [[p0|e0] w0] eqn:Ep; [|discriminate].
  destruct (prepare_shape env s p0 w w0 Ep)
    as [Pty [_ [_ [_ [_ [_ [_ [_ [_ [_ [_ Pw]]]]]]]]]]].
  unfold persist, sheetType in Hw. rewrite Pty, Hm in Hw.
  unfold bind, storeCall in Hw. rewrite (Hf (clock w0)) in Hw. cbn in Hw.
  inversion Hw; subst. cbn. now rewrite Pw.
Qed.

Lemma daily_save_adds_a_row_witness :
  exists p w1,
    written workingEnv dailyUpload (afterFirstSave (Some "T1")) = (Ok p, w1)
    /\ exists w2,
        saveSpreadsheet workingEnv dailyUpload (afterFirstSave (Some "T1")) = (Ok tt, w2)
        /\ spreadsheets w2
           = spreadsheets (afterFirstSave (Some "T1")) ++ [spreadsheetToDb p].
Proof.
  eexists. eexists. split.
  - vm_compute. reflexivity.
  - eapply (daily_save_adds_a_row workingEnv dailyUpload _ (afterFirstSave (Some "T1"))).
    + intros n. reflexivity.
    + reflexivity.
    + vm_compute. reflexivity.
Defined.

End SaveReadProps.

(* ===================================================================== *)
(** ** History by month *)
(* ===================================================================== *)

Module SnapshotHistoryProps.
Import JsString SpreadsheetService SnapshotListProps.

(** The snapshots of a history, group after group. *)
Definition everySnapshot (history : list (string * list Sheet.SpreadsheetData))
  : list Sheet.SpreadsheetData :=
  List.concat (List.map snd history).

(** Every group belongs to its key, and no group is empty. *)
Definition grouped (env : Env) (history : list (string * list Sheet.SpreadsheetData)) : Prop :=
  Forall (fun entry => snd entry <> []
                       /\ Forall (fun s => monthOf env s = fst entry) (snd entry)) history.

Lemma historyPush_keys (history : list (string * list Sheet.SpreadsheetData))
      (month : string) (s : Sheet.SpreadsheetData) :
  List.map fst (historyPush history month s)
  = if existsb (String.eqb month) (List.map fst history) then List.map fst history
    else List.map fst history ++ [month].
Proof.
  induction history as [|[k g] rest IH]; cbn; [reflexivity|].
  rewrite (String.eqb_sym month k).
  destruct (k =? month) eqn:E; cbn; [reflexivity|].
  rewrite IH. now destruct (existsb _ _).
Qed.

Lemma historyPush_all (history : list (string * list Sheet.SpreadsheetData))
      (month : string) (s : Sheet.SpreadsheetData) :
  Permutation (everySnapshot (historyPush history month s)) (s :: everySnapshot history).
Proof.
  unfold everySnapshot. induction history as [|[k g] rest IH]; cbn.
  - reflexivity.
  - destruct (k =? month); cbn.
    + rewrite <- app_assoc. cbn.
      apply Permutation_sym, Permutation_middle.
    + eapply Permutation_trans; [apply Permutation_app_head, IH|].
      apply Permutation_sym, Permutation_middle.
Qed.

Lemma historyPush_grouped (env : Env) (history : list (string * list Sheet.SpreadsheetData))
      (s : Sheet.SpreadsheetData) :
  grouped env history -> grouped env (historyPush history (monthOf env s) s).
Proof.
  unfold grouped. induction 1 as [|[k g] rest [Hne Hg] Hrest IH]; cbn.
  - repeat constructor. discriminate.
  - destruct (k =? monthOf env s) eqn:E.
    + apply String.eqb_eq in E. constructor; [|exact Hrest]. cbn in *. split.
      * destruct g; discriminate.
      * apply Forall_app. split; [exact Hg|]. repeat constructor. now symmetry.
    + constructor; [split; assumption | exact IH].
Qed.

Lemma history_fold (env : Env) (l : list Sheet.SpreadsheetData) :
  forall history,
    NoDup (List.map fst history) -> grouped env history ->
    let result := fold_left (fun history s => historyPush history (monthOf env s) s)
                            l history in
    NoDup (List.map fst result) /\ grouped env result
    /\ Permutation (everySnapshot result) (everySnapshot history ++ l).
Proof.
  induction l as [|s rest IH]; intros history Hn Hg; cbn [fold_left].
  - cbv zeta. rewrite app_nil_r. repeat split; auto.
  - assert (Hn' : NoDup (List.map fst (historyPush history (monthOf env s) s))).
    { rewrite historyPush_keys. destruct (existsb _ _) eqn:E; [exact Hn|].
      apply NoDup_app; [exact Hn | repeat constructor; intros [] |].
      intros y Hy [<-|[]]. apply existsb_eqb_In in Hy. congruence. }
    destruct (IH _ Hn' (historyPush_grouped env history s Hg)) as [H1 [H2 H3]].
    cbv zeta. split; [exact H1|]. split; [exact H2|].
    eapply Permutation_trans; [exact H3|].
    eapply Permutation_trans; [apply Permutation_app_tail, historyPush_all|].
    cbn. apply Permutation_middle.
Qed.

Lemma filter_perm {A : Type} (p : A -> bool) (l l' : list A) :
  Permutation l l' -> Permutation (List.filter p l) (List.filter p l').
Proof.
  induction 1 as [|x l l' H IH|x y l|l l' l'' H1 IH1 H2 IH2]; cbn.
  - constructor.
  - destruct (p x); [constructor|]; exact IH.
  - destruct (p x), (p y); try apply Permutation_refl. apply perm_swap.
  - eapply Permutation_trans; eassumption.
Qed.

Lemma uploadedLater_sorted (l : list Sheet.SpreadsheetData) :
  latestFirst (sortBy uploadedLater l).
Proof.
  unfold latestFirst.
  assert (H : StronglySorted (fun a b => uploadedLater a b = true) (sortBy uploadedLater l)).
  { apply sortBy_sorted; unfold uploadedLater.
    - intros a b. destruct (Z.leb_spec (Sheet.uploadedAt b) (Sheet.uploadedAt a));
        [left; reflexivity | right; apply Z.leb_le; lia].
    - intros a b c H1 H2. apply Z.leb_le in H1, H2. apply Z.leb_le. lia. }
  revert H. apply StronglySorted_ind.
  - constructor.
  - intros a t _ IH Ha. constructor; [exact IH|].
    rewrite Forall_forall in *. intros x Hx. specialize (Ha x Hx).
    unfold uploadedLater in Ha. apply Z.leb_le in Ha. exact Ha.
Qed.

Lemma sorted_groups (env : Env) (history : list (string * list Sheet.SpreadsheetData)) :
  let result := List.map (fun entry => (fst entry, sortBy uploadedLater (snd entry))) history in
  List.map fst result = List.map fst history
  /\ (grouped env history -> grouped env result)
  /\ Forall (fun entry => latestFirst (snd entry)) result
  /\ Permutation (everySnapshot result) (everySnapshot history).
Proof.
  cbv zeta. unfold everySnapshot, grouped.
  induction history as [|[k g] rest [H1 [H2 [H3 H4]]]]; cbn [List.map List.concat fst snd].
  - repeat split; auto.
  - split; [now rewrite H1|]. split; [|split].
    + intros Hg. inversion Hg as [|x l [Hne Hall] Hrest]; subst. cbn [fst snd] in *.
      constructor; [|apply H2, Hrest]. cbn [fst snd]. split.
      * intros E. apply Hne. apply length_zero_iff_nil.
        rewrite <- (sortBy_length uploadedLater g), E. reflexivity.
      * rewrite Forall_forall in *. intros s Hs. apply Hall, (sortBy_In uploadedLater g s), Hs.
    + constructor; [apply uploadedLater_sorted | exact H3].
    + apply Permutation_app; [apply sortBy_perm | exact H4].
Qed.

(** X29.  [getSpreadsheetHistory] never throws and writes nothing.  Its keys are
    distinct months; the snapshots under a key are those of that month, at
    least one, the most recent upload first; when the store answers, every
    snapshot of the customer (of the terminal, when one is given) that has
    the type is under exactly one key. *)
Theorem getSpreadsheetHistory_groups_by_month (env : Env) (customerId : string)
        (terminalId : option string) (type : SpreadsheetType) (w : World) :
  exists history w',
    getSpreadsheetHistory env customerId terminalId type w = (Ok history, w')
    /\ spreadsheets w' = spreadsheets w
    /\ NoDup (List.map fst history)
    /\ grouped env history
    /\ Forall (fun entry => latestFirst (snd entry)) history
    /\ (if faultAt env (clock w) then history = []
        else Permutation (everySnapshot history)
                         (List.filter (fun s => SpreadsheetType_eqb (sheetType s) type)
                                      (snapshotsOf env customerId terminalId w))).
Proof.
  destruct (getSpreadsheetsByCustomerId_run env customerId terminalId w) as [l [E Hl]].
  unfold getSpreadsheetHistory, tryCatch, bind. rewrite E. cbn [ret].
  set (filtered := List.filter (fun s => SpreadsheetType_eqb (sheetType s) type) l).
  destruct (history_fold env filtered [] (NoDup_nil _) (Forall_nil _)) as [F1 [F2 F3]].
  set (history := fold_left _ filtered []) in *.
  destruct (sorted_groups env history) as [G1 [G2 [G3 G4]]].
  eexists. eexists. split; [reflexivity|].
  split; [destruct (faultAt env (clock w)); reflexivity|].
  split; [rewrite G1; exact F1|].
  split; [apply G2, F2|].
  split; [exact G3|].
  destruct (faultAt env (clock w)).
  - subst l. reflexivity.
  - eapply Permutation_trans; [exact G4|].
    eapply Permutation_trans; [exact F3|]. cbn [everySnapshot List.map List.concat app].
    subst filtered l. unfold snapshotsOf.
    apply filter_perm. apply Permutation_map, sortBy_perm.
Qed.

End SnapshotHistoryProps.

(* ===================================================================== *)
(** ** Metrics of several snapshots *)
(* ===================================================================== *)

Module AggregatedMetricsProps.
Import JsString JsNumber SpreadsheetService MetricsTotalsProps.

(** The metrics of one snapshot, with the fee rate of its customer. *)
Definition metricsOf (env : Env) (s : Sheet.SpreadsheetData) : Metrics.SpreadsheetMetrics :=
  Metrics.calculateSpreadsheetMetrics s (customerTaxOf env (Sheet.customerId s)).

Definition hasRows (s : Sheet.SpreadsheetData) : bool :=
  match Sheet.data s with
  | [] => false
  | _ :: _ => true
  end.

Definition sumQ (l : list Q) : Q := fold_right Qplus 0 l.

(** The fee rates that count: those of the snapshots with rows that are
    greater than zero. *)
Definition ratesOf (env : Env) (sheets : list Sheet.SpreadsheetData) : list Q :=
  List.filter isPositive
              (List.map (fun s => Metrics.taxaMedia (metricsOf env s))
                        (List.filter hasRows sheets)).

(** One turn of the loop, once the metrics are there. *)
Definition aggregateOne (env : Env) (acc : Aggregation) (s : Sheet.SpreadsheetData)
  : Aggregation :=
  if hasRows s then aggregateMetrics acc (metricsOf env s) else acc.

Lemma aggregateAll_run (env : Env) (sheets : list Sheet.SpreadsheetData) :
  noFaults env ->
  forall acc w,
  exists w',
    aggregateAll env acc sheets w = (Ok (fold_left (aggregateOne env) sheets acc), w')
    /\ spreadsheets w' = spreadsheets w /\ transfers w' = transfers w.
Proof.
  intros Hf. induction sheets as [|s rest IH]; intros acc w; cbn [aggregateAll fold_left].
  - exists w. repeat split.
  - unfold aggregateOne at 2, hasRows. destruct (Sheet.data s) as [|r rows] eqn:Ed.
    + apply IH.
    + unfold calculateSpreadsheetMetrics, getCustomerTax, serviceCall, bind. cbv beta iota.
      rewrite (Hf (clock w)). cbn [ret]. cbv beta iota.
      destruct (IH (aggregateMetrics acc (metricsOf env s)) (tickWorld w)) as [w' [E [H1 H2]]].
      exists w'. unfold metricsOf in E. rewrite E. repeat split; assumption.
Qed.

Lemma metricsOf_without_rows (env : Env) (s : Sheet.SpreadsheetData) :
  hasRows s = false ->
  Metrics.totalLinhas (metricsOf env s) = 0%nat
  /\ Metrics.totalVendas (metricsOf env s) = 0
  /\ Metrics.valorBrutoTotal (metricsOf env s) = 0
  /\ Metrics.valorLiquidoTotal (metricsOf env s) = 0.
Proof.
  unfold hasRows. intros H. destruct (Sheet.data s) eqn:Ed; [|discriminate].
  unfold metricsOf. rewrite (metrics_totals_without_rows s _ Ed). repeat split.
Qed.

Lemma accumulate_totalLinhas (qh bh lh : option string) (data : list row) :
  forall m,
    Metrics.totalLinhas (fold_left (Metrics.accumulateRow qh bh lh) data m)
    = Metrics.totalLinhas m.
Proof.
  induction data as [|r rest IH]; intros m; simpl.
  - reflexivity.
  - rewrite IH. reflexivity.
Qed.

Lemma totalLinhas_is_rows (s : Sheet.SpreadsheetData) (tax : option Q) :
  Metrics.totalLinhas (Metrics.calculateSpreadsheetMetrics s tax) = List.length (Sheet.data s).
Proof.
  unfold Metrics.calculateSpreadsheetMetrics. cbn [Metrics.totalLinhas].
  now rewrite accumulate_totalLinhas.
Qed.

Lemma fold_totals (env : Env) (sheets : list Sheet.SpreadsheetData) :
  forall acc,
    let result := fold_left (aggregateOne env) sheets acc in
    Metrics.totalLinhas (aggregated result)
    = (Metrics.totalLinhas (aggregated acc)
       + list_sum (List.map (fun s => List.length (Sheet.data s)) sheets))%nat
    /\ Metrics.totalVendas (aggregated result)
       == Metrics.totalVendas (aggregated acc)
          + sumQ (List.map (fun s => Metrics.totalVendas (metricsOf env s)) sheets)
    /\ Metrics.valorBrutoTotal (aggregated result)
       == Metrics.valorBrutoTotal (aggregated acc)
          + sumQ (List.map (fun s => Metrics.valorBrutoTotal (metricsOf env s)) sheets)
    /\ Metrics.valorLiquidoTotal (aggregated result)
       == Metrics.valorLiquidoTotal (aggregated acc)
          + sumQ (List.map (fun s => Metrics.valorLiquidoTotal (metricsOf env s)) sheets)
    /\ totalTaxa result == totalTaxa acc + sumQ (ratesOf env sheets)
    /\ countTaxa result = (countTaxa acc + List.length (ratesOf env sheets))%nat.
Proof.
  induction sheets as [|s rest IH]; intros acc; cbv zeta; cbn [fold_left List.map list_sum sumQ fold_right].
  - unfold ratesOf. cbn. repeat split; try ring; lia.
  - destruct (IH (aggregateOne env acc s)) as [H1 [H2 [H3 [H4 [H5 H6]]]]].
    cbv zeta in *. rewrite H1, H2, H3, H4, H5, H6. clear IH H1 H2 H3 H4 H5 H6.
    unfold aggregateOne, ratesOf, sumQ, list_sum. cbn [List.filter].
    destruct (hasRows s) eqn:Er.
    + cbn [List.map List.filter aggregateMetrics aggregated totalTaxa countTaxa
           Metrics.totalLinhas Metrics.totalVendas Metrics.valorBrutoTotal
           Metrics.valorLiquidoTotal].
      unfold metricsOf at 1. rewrite totalLinhas_is_rows.
      destruct (isPositive (Metrics.taxaMedia (metricsOf env s)));
        cbn [List.length sumQ fold_right]; repeat split; try ring; lia.
    + destruct (metricsOf_without_rows env s Er) as [_ [Z2 [Z3 Z4]]].
      rewrite Z2, Z3, Z4.
      assert (Zr : List.length (Sheet.data s) = 0%nat).
      { unfold hasRows in Er. destruct (Sheet.data s); [reflexivity | discriminate]. }
      rewrite Zr. repeat split; try ring; lia.
Qed.

(** X30.  With services that answer, [calculateAggregatedMetrics] returns [null]
    for no snapshot at all and otherwise: the number of rows of all the
    snapshots; the sums of the sales counts, of the gross totals and of the
    net totals of the snapshots; and as fee rate the mean of the fee rates
    greater than zero of the snapshots that have rows (zero when there is
    none).  It writes nothing. *)
Theorem calculateAggregatedMetrics_adds_up (env : Env) (sheets : list Sheet.SpreadsheetData)
        (w : World) :
  noFaults env ->
  exists res w',
    calculateAggregatedMetrics env sheets w = (Ok res, w')
    /\ spreadsheets w' = spreadsheets w /\ transfers w' = transfers w
    /\ match res with
       | None => sheets = []
       | Some a =>
           sheets <> []
           /\ Metrics.totalLinhas a
              = list_sum (List.map (fun s => List.length (Sheet.data s)) sheets)
           /\ Metrics.totalVendas a
              == sumQ (List.map (fun s => Metrics.totalVendas (metricsOf env s)) sheets)
           /\ Metrics.valorBrutoTotal a
              == sumQ (List.map (fun s => Metrics.valorBrutoTotal (metricsOf env s)) sheets)
           /\ Metrics.valorLiquidoTotal a
              == sumQ (List.map (fun s => Metrics.valorLiquidoTotal (metricsOf env s)) sheets)
           /\ Metrics.taxaMedia a
              == match ratesOf env sheets with
                 | [] => 0
                 | _ :: _ => sumQ (ratesOf env sheets)
                             / inject_Z (Z.of_nat (List.length (ratesOf env sheets)))
                 end
       end.
Proof.
  intros Hf. unfold calculateAggregatedMetrics.
  destruct sheets as [|s rest].
  - exists None, w. repeat split.
  - destruct (aggregateAll_run env (s :: rest) Hf emptyAggregation w) as [w' [E [H1 H2]]].
    unfold bind. rewrite E. cbn [ret].
    eexists. exists w'. split; [reflexivity|]. split; [exact H1|]. split; [exact H2|].
    destruct (fold_totals env (s :: rest) emptyAggregation) as [T1 [T2 [T3 [T4 [T5 T6]]]]].
    cbv zeta in *. set (result := fold_left (aggregateOne env) (s :: rest) emptyAggregation) in *.
    cbn [closeAggregation Metrics.totalLinhas Metrics.totalVendas Metrics.valorBrutoTotal
         Metrics.valorLiquidoTotal Metrics.taxaMedia].
    split; [discriminate|].
    split; [rewrite T1; reflexivity|].
    split; [rewrite T2; cbn [emptyAggregation aggregated Metrics.totalVendas]; ring|].
    split; [rewrite T3; cbn [emptyAggregation aggregated Metrics.valorBrutoTotal]; ring|].
    split; [rewrite T4; cbn [emptyAggregation aggregated Metrics.valorLiquidoTotal]; ring|].
    cbn [emptyAggregation countTaxa totalTaxa Nat.add] in T5, T6.
    rewrite T6. destruct (ratesOf env (s :: rest)) as [|r rs] eqn:Er.
    + reflexivity.
    + cbn [List.length]. rewrite T5. rewrite Qplus_0_l. reflexivity.
Qed.

Lemma calculateAggregatedMetrics_adds_up_witness :
  exists a w',
    calculateAggregatedMetrics SaveProps.workingEnv
                               [SaveProps.mayUpload None; SaveReadProps.juneUpload]
                               SaveProps.emptyWorld
    = (Ok (Some a), w')
    /\ Metrics.totalLinhas a = 2%nat
    /\ Metrics.valorBrutoTotal a == 300.
Proof.
  destruct (calculateAggregatedMetrics_adds_up
              SaveProps.workingEnv [SaveProps.mayUpload None; SaveReadProps.juneUpload]
              SaveProps.emptyWorld) as [res [w' [Hr [_ [_ H]]]]].
  - intros n. reflexivity.
  - destruct res as [a|]; [|discriminate H].
    exists a, w'. split; [exact Hr|].
    destruct H as [_ [Hl [_ [Hb _]]]]. split; [exact Hl|].
    rewrite Hb. vm_compute. reflexivity.
Defined.

End AggregatedMetricsProps.
